(** * LifeVault: ingestion and retrieval pipeline

    A shallow embedding of the backend of LifeVault (the vector store,
    the query engine, the ingestion function and the extractors it calls)
    together with the properties of the pipeline that are stated in the
    specification.

    Conventions of the embedding:
    - The floats of the GPS conversion are IEEE 754 binary64 numbers with
      rounding to nearest, ties to even ([spec_float] at precision 53):
      every operation rounds as the machine does.
    - The scores of a search are modelled as exact rationals ([Q]): a
      comparison of floats is a comparison of rationals and [round] is
      exact round-half-to-even on the decimal expansion.
    - A Python [str] is a string whose characters stand for code points,
      one character each.
    - A call that may raise returns a [result]; [except Exception] is a
      match on that result.
    - Third-party libraries (hashlib, pathlib, ChromaDB's distance, the
      CLIP / sentence-transformer / OCR models, exifread, the Gemini
      client, json) are interfaces: type classes whose fields are the
      calls the code makes. *)

From Stdlib Require Import ZArith QArith Qround Lia Lqa Bool.
From Stdlib Require Import Floats.SpecFloat.
From Stdlib Require Import String Ascii.
From Stdlib Require Import Sorting.Sorted Sorting.Permutation.
From stdpp Require Import base gmap strings list fin_maps pretty.

Local Open Scope Z_scope.

(* ===================================================================== *)
(** * Python values and built-ins used by the code *)
(* ===================================================================== *)

(** The outcome of a call: a value, or an exception carrying a message. *)
Inductive result (A : Type) : Type :=
| Ok (a : A)
| Raise (msg : string).
Arguments Ok {A} a.
Arguments Raise {A} msg.

Definition is_ok {A} (r : result A) : bool :=
  match r with Ok _ => true | Raise _ => false end.

Module Py.

(** ** Floats as rationals *)

Abbreviation float := Q.

(** [max(a, b)] on floats: the first argument unless the second is
    strictly larger. *)
Definition max (a b : float) : float :=
  if Qlt_le_dec a b then b else a.

(** Nearest integer, ties to the even neighbour. *)
Definition round_half_even (x : Q) : Z :=
  let f := Qfloor x in
  let r := (x - inject_Z f)%Q in
  match (r ?= 1 # 2)%Q with
  | Lt => f
  | Gt => f + 1
  | Eq => if Z.even f then f else f + 1
  end.

Definition pow10 (n : nat) : Z := 10 ^ Z.of_nat n.

(** [round(x, n)] for [n >= 0] decimal places. *)
Definition round (x : float) (n : nat) : float :=
  Qred (inject_Z (round_half_even (x * inject_Z (pow10 n))) / inject_Z (pow10 n)).

(** [min(a, b)] on integers. *)
Definition min (a b : Z) : Z := if b <? a then b else a.

(** ** Binary64 floats *)

Definition prec : Z := 53.
Definition emax : Z := 1024.

(** A [float] with its bits: a signed zero, a signed infinity, NaN, or a
    finite number [(-1)^s * m * 2^e]. *)
Abbreviation double := spec_float.

(** [float(n)] for an int [n]: the nearest double, OverflowError when
    that is out of range. *)
Definition double_of_int (n : Z) : result double :=
  match binary_normalize prec emax n 0 false with
  | S754_infinity _ => Raise "int too large to convert to float"
  | x => Ok x
  end.

(** The literals [60.0] and [3600.0]. *)
Definition sixty : double := binary_normalize prec emax 60 0 false.
Definition thirty_six_hundred : double := binary_normalize prec emax 3600 0 false.

(** [a / b] on floats: ZeroDivisionError when the divisor is zero. *)
Definition double_div (a b : double) : result double :=
  match b with
  | S754_zero _ => Raise "float division by zero"
  | _ => Ok (SFdiv prec emax a b)
  end.

(** [a + b] and [-a] on floats. *)
Definition double_add (a b : double) : double := SFadd prec emax a b.
Definition double_neg (a : double) : double := SFopp a.

(** The absolute value of a finite double, and its value. *)
Definition double_magnitude (x : double) : Q :=
  match x with
  | S754_finite _ m e => (inject_Z (Zpos m) * 2 ^ e)%Q
  | _ => 0%Q
  end.

Definition double_sign (x : double) : bool :=
  match x with
  | S754_zero s | S754_infinity s | S754_finite s _ _ => s
  | S754_nan => false
  end.

Definition double_value (x : double) : Q :=
  if double_sign x then (- double_magnitude x)%Q else double_magnitude x.

(** The double nearest to the decimal [n / 10^k], with the sign bit [s]:
    what reading the decimal back gives. *)
Definition double_of_decimal (s : bool) (n : Z) (k : nat) : double :=
  match n with
  | Zpos p => SFdiv prec emax (S754_finite s p 0) (S754_finite false (Z.to_pos (pow10 k)) 0)
  | _ => S754_zero s
  end.

(** [round(x, ndigits)] for [ndigits >= 0]: the value of [x] is written
    with [ndigits] decimal places, the last one rounded half to even on
    the exact value, and read back; the sign is kept, also on a zero.
    Infinities and NaN are returned as they are, and so is every [x] when
    [ndigits] is above 323. *)
Definition double_round (x : double) (ndigits : nat) : double :=
  match x with
  | S754_finite s _ _ =>
      if (323 <? ndigits)%nat then x
      else
        double_of_decimal s
          (round_half_even (double_magnitude x * inject_Z (pow10 ndigits))) ndigits
  | _ => x
  end.

(** ** Lists *)

(** [l[:n]]: a negative bound counts from the end. *)
Definition slice_to {A} (n : Z) (l : list A) : list A :=
  if 0 <=? n then firstn (Z.to_nat n) l
  else firstn (length l - Z.to_nat (- n)) l.

(** [[x] * n]. *)
Definition repeat_list {A} (x : A) (n : nat) : list A := repeat x n.

(** [list.sort] is a stable sort.  [before x y] says that [x] may stand
    to the left of [y]; an element is put in front of the first element it
    may stand to the left of, so equal keys keep their order. *)
Fixpoint insert_by {A} (before : A -> A -> bool) (x : A) (l : list A) : list A :=
  match l with
  | [] => [x]
  | y :: l' => if before x y then x :: l else y :: insert_by before x l'
  end.

Definition stable_sort {A} (before : A -> A -> bool) (l : list A) : list A :=
  foldr (insert_by before) [] l.

(** [l.sort(key=k, reverse=True)] with float keys. *)
Definition sort_desc {A} (key : A -> float) (l : list A) : list A :=
  stable_sort (fun x y => Qle_bool (key y) (key x)) l.

(** [sorted(l, key=k)] with float keys. *)
Definition sort_asc {A} (key : A -> float) (l : list A) : list A :=
  stable_sort (fun x y => Qle_bool (key x) (key y)) l.

(** ** Strings

    A Python [str] is a sequence of code points.  A character of a string
    of this file stands for one code point, the one of its number, so the
    strings of this file are the Python strings whose code points are
    below 256 (Latin-1), and the length, the slices and the tests on
    characters below are those of Python on these strings. *)

Definition chars (s : string) : list ascii := list_ascii_of_string s.
Definition str (l : list ascii) : string := string_of_list_ascii l.

(** [len(s)]: the number of code points. *)
Definition len (s : string) : Z := Z.of_nat (String.length s).

(** [str.isspace] on one character, which is what [strip] removes: below
    256 the whitespace of Python is U+0009 to U+000D, U+001C to U+0020,
    U+0085 (next line) and U+00A0 (no-break space). *)
Definition is_space (a : ascii) : bool :=
  let n := nat_of_ascii a in
  ((9 <=? n)%nat && (n <=? 13)%nat) || ((28 <=? n)%nat && (n <=? 32)%nat)
  || (n =? 133)%nat || (n =? 160)%nat.

Fixpoint lstrip_chars (l : list ascii) : list ascii :=
  match l with
  | [] => []
  | a :: l' => if is_space a then lstrip_chars l' else l
  end.

(** [s.strip()]. *)
Definition strip (s : string) : string :=
  str (rev (lstrip_chars (rev (lstrip_chars (chars s))))).

Fixpoint is_prefix (p l : list ascii) : bool :=
  match p, l with
  | [], _ => true
  | a :: p', b :: l' => if Ascii.eqb a b then is_prefix p' l' else false
  | _ :: _, [] => false
  end.

(** [s.startswith(p)] and [s.endswith(p)]. *)
Definition startswith (s p : string) : bool := is_prefix (chars p) (chars s).
Definition endswith (s p : string) : bool :=
  is_prefix (rev (chars p)) (rev (chars s)).

(** [s[:n]] on strings. *)
Definition str_slice_to (n : Z) (s : string) : string := str (slice_to n (chars s)).

(** What follows the first occurrence of the character [sep], if any. *)
Fixpoint after_first (sep : ascii) (l : list ascii) : option (list ascii) :=
  match l with
  | [] => None
  | a :: l' => if Ascii.eqb a sep then Some l' else after_first sep l'
  end.

(** [s.split(sep, 1)[-1]] for a one-character separator: the text after
    the first separator, or all of [s] when there is none. *)
Definition split1_last (sep : ascii) (s : string) : string :=
  match after_first sep (chars s) with
  | Some rest => str rest
  | None => s
  end.

(** [c.lower()]: below 256 the upper-case letters are A to Z and U+00C0
    to U+00DE without the multiplication sign U+00D7; each has its
    lower-case letter 32 places further. *)
Definition lower_char (a : ascii) : ascii :=
  let n := nat_of_ascii a in
  if ((65 <=? n)%nat && (n <=? 90)%nat)
     || ((192 <=? n)%nat && (n <=? 222)%nat && negb (n =? 215)%nat)
  then ascii_of_nat (n + 32) else a.

(** [s.lower()]. *)
Definition lower (s : string) : string := str (map lower_char (chars s)).

(** [sep.join(l)]. *)
Fixpoint join (sep : string) (l : list string) : string :=
  match l with
  | [] => EmptyString
  | [s] => s
  | s :: l' => (s ++ sep ++ join sep l')%string
  end.

(** Truth value of a string, of a list. *)
Definition str_truthy (s : string) : bool :=
  match s with EmptyString => false | _ => true end.
Definition list_truthy {A} (l : list A) : bool :=
  match l with [] => false | _ => true end.

Definition nl : ascii := ascii_of_nat 10.
Definition dquote : string := String (ascii_of_nat 34) EmptyString.

End Py.

(** A scalar stored in a metadata dict: [None], [str], [int], [float] or
    [bool]. *)
Inductive pyval : Type :=
| VNone
| VStr (s : string)
| VInt (z : Z)
| VFloat (q : Q)
| VBool (b : bool).

(** A metadata dict. *)
Abbreviation metadata_dict := (gmap string pyval).

(** ** Interfaces of the libraries the backend calls *)

(** What [os.stat] reports and the code reads. *)
Record stat_result := { st_size : Z; st_ctime : Q; st_mtime : Q }.

(** pathlib, os, datetime and [str] on floats. *)
Class OS := {
  path_resolve : string -> string;        (* str(Path(p).resolve()) *)
  path_suffix : string -> string;         (* Path(p).suffix *)
  path_name : string -> string;           (* Path(p).name *)
  path_stat : string -> result stat_result; (* Path(p).stat() *)
  isoformat : Q -> string;                (* datetime.fromtimestamp(t).isoformat() *)
  float_str : Q -> string;                (* str(x) for a float x *)
  float_repr : Py.double -> string        (* str(x) for a float x, from its bits *)
}.

(** hashlib: [hashlib.md5(s.encode("utf-8")).hexdigest()]. *)
Class Hashlib := { md5_hexdigest : string -> string }.

(* ===================================================================== *)
(** * backend/utils/config.py *)
(* ===================================================================== *)

Module Config.

Definition IMAGE_EXTENSIONS : gset string :=
  {[ ".jpg"; ".jpeg"; ".png"; ".webp"; ".bmp" ]}.
Definition DOCUMENT_EXTENSIONS : gset string :=
  {[ ".pdf"; ".txt"; ".docx"; ".md" ]}.
Definition ALL_EXTENSIONS : gset string :=
  IMAGE_EXTENSIONS ∪ DOCUMENT_EXTENSIONS.

End Config.

(* ===================================================================== *)
(** * backend/ingestion/metadata_extractor.py *)
(* ===================================================================== *)

Module MetadataExtractor.

(** An EXIF rational as exifread exposes it: [num] and [den]. *)
Record Ratio := { num : Z; den : Z }.

(** An exifread tag: what [str(tag)] prints and its [values]. *)
Record IfdTag := { printable : string; values : list Ratio }.

(** [float(v.num) / float(v.den)]. *)
Definition ratio_to_float (r : Ratio) : result Py.double :=
  match Py.double_of_int (num r) with
  | Raise e => Raise e
  | Ok n =>
      match Py.double_of_int (den r) with
      | Raise e => Raise e
      | Ok d => Py.double_div n d
      end
  end.

(** [_convert_gps_to_decimal(gps_coords, gps_ref)]: [None] is returned when
    anything in the body raises (a zero denominator, an integer too large
    for a float, fewer than three values). *)
Definition _convert_gps_to_decimal (gps_coords : IfdTag) (gps_ref : option IfdTag)
  : option Py.double :=
  match values gps_coords with
  | v0 :: v1 :: v2 :: _ =>
      match ratio_to_float v0 with
      | Raise _ => None
      | Ok d =>
          match ratio_to_float v1 with
          | Raise _ => None
          | Ok m =>
              match ratio_to_float v2 with
              | Raise _ => None
              | Ok s =>
                  match Py.double_div m Py.sixty with
                  | Raise _ => None
                  | Ok m60 =>
                      match Py.double_div s Py.thirty_six_hundred with
                      | Raise _ => None
                      | Ok s3600 =>
                          let decimal := Py.double_add (Py.double_add d m60) s3600 in
                          let decimal :=
                            match gps_ref with
                            | Some ref =>
                                if bool_decide (printable ref = "S" ∨ printable ref = "W")
                                then Py.double_neg decimal else decimal
                            | None => decimal
                            end in
                          Some (Py.double_round decimal 6)
                      end
                  end
              end
          end
      end
  | _ => None
  end.

(** exifread: the tags of an image file, by name. *)
Class Exifread := { process_file : string -> result (gmap string IfdTag) }.

(** [_safe_str(value)]. *)
Definition _safe_str (value : option IfdTag) : string :=
  match value with
  | None => EmptyString
  | Some t => printable t
  end.

(** [extract_file_metadata(file_path)]; [p.stat()] may raise. *)
Definition extract_file_metadata `{OS} (file_path : string) : result metadata_dict :=
  match path_stat file_path with
  | Raise e => Raise e
  | Ok st =>
      let suffix := Py.lower (path_suffix file_path) in
      Ok (<["file_name" := VStr (path_name file_path)]>
         (<["file_path" := VStr (path_resolve file_path)]>
         (<["file_extension" := VStr suffix]>
         (<["file_size_bytes" := VInt (st_size st)]>
         (<["created_date" := VStr (isoformat (st_ctime st))]>
         (<["modified_date" := VStr (isoformat (st_mtime st))]>
         (<["file_type" :=
              VStr (if bool_decide (suffix ∈ ({[ ".jpg"; ".jpeg"; ".png"; ".webp"; ".bmp" ]} : gset string))
                    then "image" else "document")]> ∅)))))))
  end.

(** [if key in tags: exif_data[field] = _safe_str(tags[key])]. *)
Definition copy_tag (tags : gmap string IfdTag) (key field : string)
    (exif_data : gmap string string) : gmap string string :=
  match tags !! key with
  | Some t => <[field := _safe_str (Some t)]> exif_data
  | None => exif_data
  end.

(** [extract_exif_metadata(file_path)]: the empty dict when reading the
    tags raises. *)
Definition extract_exif_metadata `{OS} `{Exifread} (file_path : string)
  : gmap string string :=
  match process_file file_path with
  | Raise _ => ∅
  | Ok tags =>
      let exif_data := copy_tag tags "Image Make" "camera_make" ∅ in
      let exif_data := copy_tag tags "Image Model" "camera_model" exif_data in
      let exif_data :=
        match tags !! "EXIF DateTimeOriginal" with
        | Some t => <["capture_date" := _safe_str (Some t)]> exif_data
        | None => copy_tag tags "Image DateTime" "capture_date" exif_data
        end in
      match tags !! "GPS GPSLatitude", tags !! "GPS GPSLongitude" with
      | Some gps_lat, Some gps_lon =>
          let lat := _convert_gps_to_decimal gps_lat (tags !! "GPS GPSLatitudeRef") in
          let lon := _convert_gps_to_decimal gps_lon (tags !! "GPS GPSLongitudeRef") in
          match lat, lon with
          | Some lat, Some lon =>
              <["gps_longitude" := float_repr lon]>
                (<["gps_latitude" := float_repr lat]> exif_data)
          | _, _ => exif_data
          end
      | _, _ => exif_data
      end
  end.

End MetadataExtractor.


(* ===================================================================== *)
(** * ChromaDB collections *)
(* ===================================================================== *)

Module Chroma.

(** One stored record: vector, metadata and document body. *)
Record record := {
  rec_embedding : list Py.float;
  rec_metadata : metadata_dict;
  rec_document : string
}.

(** A collection maps ids to records. *)
Abbreviation collection := (gmap string record).

(** The distance of the collection's space ([hnsw:space] = cosine). *)
Class Space := { cosine_distance : list Py.float -> list Py.float -> Py.float }.

(** What [collection.query] returns: one inner list per query vector. A
    key of the dict that is absent is [None]. *)
Record query_result := {
  qr_ids : option (list (list string));
  qr_metadatas : option (list (list metadata_dict));
  qr_documents : option (list (list (option string)));
  qr_distances : option (list (list Py.float))
}.

(** [collection.count()]. *)
Definition count (c : collection) : Z := Z.of_nat (size c).

(** [collection.upsert(ids=[id], embeddings=[e], metadatas=[m],
    documents=[d])].  An empty metadata dict is refused with a ValueError
    and nothing is written.  Under an id that is not stored the record is
    inserted; under an id that is stored the vector and the document are
    replaced and the metadata is updated key by key: the keys of [m] get
    their new values and the other keys of the stored record stay. *)
Definition upsert (id : string) (e : list Py.float) (m : metadata_dict)
    (d : string) (c : collection) : result collection :=
  if Nat.eqb (size m) 0 then Raise "Expected metadata to be a non-empty dict"
  else
    let merged :=
      match c !! id with
      | Some old => m ∪ rec_metadata old
      | None => m
      end in
    Ok (<[id := {| rec_embedding := e; rec_metadata := merged; rec_document := d |}]> c).

(** [collection.get(ids=ids)["ids"]]: the ids that are present. *)
Definition get_ids (ids : list string) (c : collection) : result (list string) :=
  Ok (List.filter (fun i => bool_decide (is_Some (c !! i))) ids).

(** [collection.query(query_embeddings=[q], n_results=n, include=[...])]:
    the [n] records nearest to [q], nearest first.  The call is rejected
    when [n] is not positive; an empty collection answers with empty inner
    lists. *)
Definition query `{Space} (q : list Py.float) (n : Z) (c : collection)
  : result query_result :=
  if n <=? 0 then Raise "Number of requested results cannot be negative, or zero"
  else
    let ranked :=
      Py.sort_asc (fun kv => cosine_distance q (rec_embedding (snd kv)))
        (map_to_list c) in
    let top := firstn (Z.to_nat n) ranked in
    Ok {| qr_ids := Some [map fst top];
          qr_metadatas := Some [map (fun kv => rec_metadata (snd kv)) top];
          qr_documents := Some [map (fun kv => Some (rec_document (snd kv))) top];
          qr_distances :=
            Some [map (fun kv => cosine_distance q (rec_embedding (snd kv))) top] |}.

(** [collection.get(include=["metadatas", "documents"])]: the metadata and
    the document of every record, in the order of the collection. *)
Definition get_all (c : collection) : list (metadata_dict * option string) :=
  map (fun kv => (rec_metadata (snd kv), Some (rec_document (snd kv)))) (map_to_list c).

End Chroma.

(* ===================================================================== *)
(** * backend/ai/vector_store.py *)
(* ===================================================================== *)

Module VectorStore.

(** [_file_id(file_path)]. *)
Definition _file_id `{Hashlib} (file_path : string) : string :=
  md5_hexdigest file_path.

(** The two collections a [VectorStore] object owns. *)
Record t := {
  image_collection : Chroma.collection;
  doc_collection : Chroma.collection
}.

(** An entry of a search result. *)
Record hit := {
  id : string;
  score : Py.float;
  match_percentage : Py.float;
  metadata : metadata_dict;
  text_preview : string
}.

(** [v is not None and v != ""]. *)
Definition keep_value (v : pyval) : bool :=
  match v with
  | VNone => false
  | VStr EmptyString => false
  | _ => true
  end.

(** [{k: v for k, v in metadata.items() if v is not None and v != ""}]. *)
Definition clean_meta (metadata : metadata_dict) : metadata_dict :=
  filter (fun kv => keep_value (snd kv) = true) metadata.

(** [str(v)] as an f-string formats a metadata value. *)
Definition format_value `{OS} (v : pyval) : string :=
  match v with
  | VNone => "None"
  | VStr s => s
  | VInt z => pretty z
  | VFloat q => float_str q
  | VBool true => "True"
  | VBool false => "False"
  end.

(** [metadata.get('file_name', '')] inside an f-string. *)
Definition file_name_of `{OS} (metadata : metadata_dict) : string :=
  match metadata !! "file_name" with
  | Some v => format_value v
  | None => EmptyString
  end.

(** [a or b] on strings. *)
Definition str_or (a b : string) : string :=
  if Py.str_truthy a then a else b.

(** [upsert_image]: an exception of the collection's [upsert] goes to the
    caller and the store stays as it was. *)
Definition upsert_image `{Hashlib} `{OS} (self : t) (file_path : string)
    (embedding : list Py.float) (metadata : metadata_dict) (text_content : string)
  : result t :=
  let doc_id := _file_id file_path in
  let clean := clean_meta metadata in
  match Chroma.upsert doc_id embedding clean
          (str_or text_content ("Image: " ++ file_name_of metadata)%string)
          (image_collection self) with
  | Raise e => Raise e
  | Ok images => Ok {| image_collection := images; doc_collection := doc_collection self |}
  end.

Definition upsert_document `{Hashlib} `{OS} (self : t) (file_path : string)
    (embedding : list Py.float) (metadata : metadata_dict) (text_content : string)
  : result t :=
  let doc_id := _file_id file_path in
  let clean := clean_meta metadata in
  match Chroma.upsert doc_id embedding clean
          (str_or (Py.str_slice_to 5000 text_content)
                  ("Document: " ++ file_name_of metadata)%string)
          (doc_collection self) with
  | Raise e => Raise e
  | Ok documents =>
      Ok {| image_collection := image_collection self; doc_collection := documents |}
  end.

(** [count or 1]. *)
Definition count_or_1 (count : Z) : Z := if count =? 0 then 1 else count.

(** The [n_results] that a search passes to the collection. *)
Definition n_results (top_k : Z) (c : Chroma.collection) : Z :=
  Py.min top_k (count_or_1 (Chroma.count c)).

(** [raw_results.get(key)] is truthy: the key is there and its list is not
    empty; then [raw_results[key][0]] is the first inner list. *)
Definition first_row {A} (field : option (list (list A))) : option (list A) :=
  match field with
  | Some (row :: _) => Some row
  | _ => None
  end.

(** [l[i]], an IndexError when out of range. *)
Definition index {A} (l : list A) (i : nat) : result A :=
  match l !! i with
  | Some x => Ok x
  | None => Raise "list index out of range"
  end.

(** The body of the loop of [_format_results] for position [i]. *)
Definition format_entry (metadatas : list metadata_dict)
    (documents : list (option string)) (distances : list Py.float)
    (i : nat) (doc_id : string) : result hit :=
  match index distances i with
  | Raise e => Raise e
  | Ok d =>
      let score := Py.max 0 (1 - d)%Q in
      match index metadatas i with
      | Raise e => Raise e
      | Ok m =>
          match index documents i with
          | Raise e => Raise e
          | Ok doc =>
              Ok {| id := doc_id;
                    score := Py.round score 4;
                    match_percentage := Py.round (score * 100)%Q 1;
                    metadata := m;
                    text_preview :=
                      match doc with
                      | Some s => if Py.str_truthy s then Py.str_slice_to 300 s
                                  else EmptyString
                      | None => EmptyString
                      end |}
          end
      end
  end.

(** [for i, doc_id in enumerate(ids): formatted.append(...)], from
    position [i] on. *)
Fixpoint format_loop (metadatas : list metadata_dict)
    (documents : list (option string)) (distances : list Py.float)
    (i : nat) (ids : list string) : result (list hit) :=
  match ids with
  | [] => Ok []
  | doc_id :: ids' =>
      match format_entry metadatas documents distances i doc_id with
      | Raise e => Raise e
      | Ok h =>
          match format_loop metadatas documents distances (S i) ids' with
          | Raise e => Raise e
          | Ok hs => Ok (h :: hs)
          end
      end
  end.

(** [_format_results(raw_results)]. *)
Definition _format_results (raw_results : Chroma.query_result) : result (list hit) :=
  match Chroma.qr_ids raw_results with
  | None | Some [] => Ok []
  | Some (ids :: _) =>
      let metadatas :=
        match first_row (Chroma.qr_metadatas raw_results) with
        | Some row => row
        | None => Py.repeat_list ∅ (length ids)
        end in
      let documents :=
        match first_row (Chroma.qr_documents raw_results) with
        | Some row => row
        | None => Py.repeat_list (Some EmptyString) (length ids)
        end in
      let distances :=
        match first_row (Chroma.qr_distances raw_results) with
        | Some row => row
        | None => Py.repeat_list 0%Q (length ids)
        end in
      match format_loop metadatas documents distances 0 ids with
      | Raise e => Raise e
      | Ok formatted => Ok (Py.sort_desc score formatted)
      end
  end.

(** The body of [search_images] and of [search_documents], the same on
    their own collection [c]:
    [c.query(query_embeddings=[query_embedding],
             n_results=min(top_k, c.count() or 1), include=[...])]
    and then [_format_results].  [query] is the method of the collection
    object, so that what the body passes to it can be told apart from what
    the method does with it. *)
Definition search_with
    (query : list Py.float -> Z -> Chroma.collection -> result Chroma.query_result)
    (c : Chroma.collection) (query_embedding : list Py.float) (top_k : Z)
  : result (list hit) :=
  match query query_embedding (n_results top_k c) c with
  | Raise e => Raise e
  | Ok results => _format_results results
  end.

Definition search_images `{Chroma.Space} (self : t) (query_embedding : list Py.float)
    (top_k : Z) : result (list hit) :=
  search_with Chroma.query (image_collection self) query_embedding top_k.

Definition search_documents `{Chroma.Space} (self : t) (query_embedding : list Py.float)
    (top_k : Z) : result (list hit) :=
  search_with Chroma.query (doc_collection self) query_embedding top_k.

(** [is_file_indexed(file_path)]: a [get] that raises counts as a miss. *)
Definition is_file_indexed `{Hashlib} (self : t) (file_path : string) : bool :=
  let doc_id := _file_id file_path in
  let in_images :=
    match Chroma.get_ids [doc_id] (image_collection self) with
    | Ok ids => Py.list_truthy ids
    | Raise _ => false
    end in
  if in_images then true
  else
    match Chroma.get_ids [doc_id] (doc_collection self) with
    | Ok ids => Py.list_truthy ids
    | Raise _ => false
    end.

(** [get_stats()]: total_images, total_documents, total_files. *)
Definition get_stats (self : t) : Z * Z * Z :=
  (Chroma.count (image_collection self),
   Chroma.count (doc_collection self),
   Chroma.count (image_collection self) + Chroma.count (doc_collection self)).

(** [random.choice]: the position it draws in a sequence of [n] items,
    which is below [n]. *)
Class Random := { randbelow : nat -> nat }.

(** [meta["_document_preview"] = doc[:200] if doc else ""]. *)
Definition with_preview (entry : metadata_dict * option string) : metadata_dict :=
  let '(meta, doc) := entry in
  <["_document_preview" :=
      VStr (match doc with
            | Some d => if Py.str_truthy d then Py.str_slice_to 200 d else EmptyString
            | None => EmptyString
            end)]> meta.

(** One of the two blocks of [get_all_metadata]: nothing is read from a
    collection whose count is zero. *)
Definition collection_metadata (c : Chroma.collection) : list metadata_dict :=
  if 0 <? Chroma.count c then map with_preview (Chroma.get_all c) else [].

Definition get_all_metadata (self : t) : list metadata_dict :=
  collection_metadata (image_collection self) ++ collection_metadata (doc_collection self).

Definition get_random_memory `{Random} (self : t) : option metadata_dict :=
  let all_meta := get_all_metadata self in
  if negb (Py.list_truthy all_meta) then None
  else all_meta !! (randbelow (length all_meta) mod length all_meta)%nat.

End VectorStore.

(* ===================================================================== *)
(** * The models of the embedder service *)
(* ===================================================================== *)

(** A JSON value as [json.loads] builds it; an object is the list of the
    items of the resulting dict (its keys are distinct). *)
#[local] Unset Elimination Schemes.
Inductive json : Type :=
| JNull
| JBool (b : bool)
| JNum (q : Q)
| JStr (s : string)
| JArr (l : list json)
| JObj (items : list (string * json)).
#[local] Set Elimination Schemes.

(** The calls into CLIP, the sentence transformer and EasyOCR.  Each field
    stands for a block of tensor code of the source whose only outcomes the
    pipeline looks at are a list of floats, a list of strings, or an
    exception. *)
Class Models := {
  (* process_image: open the image, preprocess, encode, normalise, tolist *)
  clip_encode_image : string -> result (list Py.float);
  (* embedder.ocr_reader (None when EasyOCR did not load) and its
     readtext(path, detail=0) *)
  ocr_reader : option (string -> result (list string));
  (* the try block of auto_tag_image: the top tags with their rounded
     probabilities *)
  clip_zero_shot : string -> result (list (string * Py.float));
  (* sentence_model.encode(text, ...).tolist() *)
  sentence_encode : string -> result (list Py.float);
  (* EmbedderService.get_text_clip_embedding, on whatever object the
     query engine passes *)
  get_text_clip_embedding : json -> result (list Py.float);
  (* EmbedderService.get_sentence_embedding *)
  get_sentence_embedding : json -> result (list Py.float)
}.

(** PyMuPDF, python-docx, EasyOCR on a rendered page, and [open().read()]. *)
Class DocLibs := {
  (* the page texts appended before the loop over the pages ended, by
     reaching the last page or by an exception *)
  fitz_page_texts : string -> list string;
  (* _ocr_pdf_first_page's try block: None for a document without pages,
     else the strings EasyOCR reads on the rendered first page *)
  fitz_first_page_ocr : string -> result (option (list string));
  (* [para.text for para in Document(path).paragraphs] *)
  docx_paragraph_texts : string -> result (list string);
  (* open(path, "r", encoding="utf-8", errors="ignore").read() *)
  read_text : string -> result string
}.

(** The dict [{"embedding": ..., "text_content": ...}] both processors
    return. *)
Record processed := { embedding : list Py.float; text_content : string }.

(* ===================================================================== *)
(** * backend/ingestion/image_processor.py *)
(* ===================================================================== *)

Module ImageProcessor.

Definition process_image `{Models} (file_path : string) : processed :=
  match clip_encode_image file_path with
  | Raise _ => {| embedding := []; text_content := EmptyString |}
  | Ok e =>
      let text :=
        match ocr_reader with
        | None => EmptyString
        | Some readtext =>
            match readtext file_path with
            | Raise _ => EmptyString
            | Ok ocr_results =>
                let extracted_text := Py.strip (Py.join " " ocr_results) in
                if Py.str_truthy extracted_text then extracted_text else EmptyString
            end
        end in
      {| embedding := e; text_content := text |}
  end.

End ImageProcessor.

(* ===================================================================== *)
(** * backend/ai/auto_tagger.py *)
(* ===================================================================== *)

Module AutoTagger.

Definition auto_tag_image `{Models} (file_path : string) : list (string * Py.float) :=
  match clip_zero_shot file_path with
  | Ok result => result
  | Raise _ => []
  end.

End AutoTagger.

(* ===================================================================== *)
(** * backend/ingestion/doc_processor.py *)
(* ===================================================================== *)

Module DocProcessor.

Definition MAX_TEXT_LENGTH : Z := 3000.

Definition newline : string := String Py.nl EmptyString.

Definition _ocr_pdf_first_page `{DocLibs} (file_path : string) : string :=
  match fitz_first_page_ocr file_path with
  | Raise _ => EmptyString
  | Ok None => EmptyString
  | Ok (Some results) => Py.strip (Py.join " " results)
  end.

Definition _extract_pdf_text `{DocLibs} (file_path : string) : string :=
  let text_parts :=
    List.filter (fun page_text => Py.str_truthy (Py.strip page_text))
      (fitz_page_texts file_path) in
  let full_text := Py.strip (Py.join newline text_parts) in
  if Py.str_truthy full_text then full_text
  else _ocr_pdf_first_page file_path.

Definition _extract_docx_text `{DocLibs} (file_path : string) : string :=
  match docx_paragraph_texts file_path with
  | Raise _ => EmptyString
  | Ok paras =>
      Py.join newline (List.filter (fun t => Py.str_truthy (Py.strip t)) paras)
  end.

Definition _extract_plain_text `{DocLibs} (file_path : string) : string :=
  match read_text file_path with
  | Raise _ => EmptyString
  | Ok s => s
  end.

(** [not text or len(text.strip()) < 10]. *)
Definition insufficient (text : string) : bool :=
  negb (Py.str_truthy text) || (Py.len (Py.strip text) <? 10).

(** The dispatch on the extension; [None] for an unsupported type. *)
Definition extract_text `{OS} `{DocLibs} (file_path : string) : option string :=
  let ext := Py.lower (path_suffix file_path) in
  if String.eqb ext ".pdf" then Some (_extract_pdf_text file_path)
  else if String.eqb ext ".docx" then Some (_extract_docx_text file_path)
  else if String.eqb ext ".txt" || String.eqb ext ".md"
       then Some (_extract_plain_text file_path)
  else None.

Definition process_document `{OS} `{Models} `{DocLibs} (file_path : string) : processed :=
  let result := {| embedding := []; text_content := EmptyString |} in
  match extract_text file_path with
  | None => result
  | Some text =>
      if insufficient text then result
      else
        let text_content := Py.str_slice_to MAX_TEXT_LENGTH text in
        match sentence_encode text_content with
        | Raise _ => {| embedding := []; text_content := text_content |}
        | Ok e => {| embedding := e; text_content := text_content |}
        end
  end.

End DocProcessor.

(* ===================================================================== *)
(** * backend/ai/query_engine.py *)
(* ===================================================================== *)

Module QueryEngine.

(** A dict with string keys, as the list of its items. *)
Abbreviation dict := (list (string * json)).

(** [d.get(key)] and [d.get(key, default)]. *)
Fixpoint dict_get (d : dict) (key : string) : option json :=
  match d with
  | [] => None
  | (k, v) :: d' => if String.eqb k key then Some v else dict_get d' key
  end.

Definition dict_get_default (d : dict) (key : string) (default : json) : json :=
  match dict_get d key with
  | Some v => v
  | None => default
  end.

(** Truth value of a Python object. *)
Definition truthy (v : json) : bool :=
  match v with
  | JNull => false
  | JBool b => b
  | JNum q => negb (Qeq_bool q 0)
  | JStr s => Py.str_truthy s
  | JArr l => Py.list_truthy l
  | JObj items => Py.list_truthy items
  end.

(** [v == s] for a string literal [s]. *)
Definition eq_str (v : option json) (s : string) : bool :=
  match v with
  | Some (JStr s') => String.eqb s' s
  | _ => false
  end.

(** The Gemini client and [json.loads]. *)
Class Json := { json_loads : string -> result json }.

(** A [QueryEngine] object: the store and the optional Gemini model, whose
    [generate_content(prompt).text] either yields text or raises. *)
Record t := {
  store : VectorStore.t;
  gemini_model : option (string -> result string)
}.

(** The value [search] returns. *)
Record response := {
  query : string;
  refined_query : json;
  intent : dict;
  results : list VectorStore.hit;
  total_results : Z
}.

Definition line (s : string) : string := (s ++ String Py.nl EmptyString)%string.
Definition quoted (s : string) : string := (Py.dquote ++ s ++ Py.dquote)%string.

(** The prompt of [_parse_intent]. *)
Definition prompt (query : string) : string :=
  (line "You are a search intent parser for a personal file memory system."
   ++ line "Given a user query, extract the intent and return a JSON object with these fields:"
   ++ line ("- " ++ quoted "refined_query" ++ ": A concise, searchable version of the user's query.")
   ++ line ("- " ++ quoted "file_type" ++ ": One of " ++ quoted "image" ++ ", "
            ++ quoted "document" ++ ", " ++ quoted "any" ++ ".")
   ++ line ("- " ++ quoted "time_filter" ++ ": Relevant time context (e.g., "
            ++ quoted "last week" ++ ", " ++ quoted "2024" ++ ") or null.")
   ++ line ("- " ++ quoted "tags" ++ ": List of relevant tags/keywords.")
   ++ line ("- " ++ quoted "emotion" ++ ": Detected emotional tone (e.g., "
            ++ quoted "nostalgic" ++ ", " ++ quoted "urgent" ++ ", " ++ quoted "casual"
            ++ ") or null.")
   ++ line EmptyString
   ++ line "RESPOND WITH ONLY valid JSON. No markdown, no explanation."
   ++ line EmptyString
   ++ line ("User query: " ++ quoted query))%string.

(** Remove a markdown code fence around the payload. *)
Definition strip_fences (raw_text : string) : string :=
  if Py.startswith raw_text "```" then
    let raw_text := Py.split1_last Py.nl raw_text in
    let raw_text :=
      if Py.endswith raw_text "```" then Py.str_slice_to (-3) raw_text
      else raw_text in
    Py.strip raw_text
  else raw_text.

(** The [try] block of [_parse_intent]: calling [get] on a loaded value
    that is not a dict raises. *)
Definition _parse_intent_try `{Json} (generate_content : string -> result string)
    (query : string) : result (dict * json) :=
  match generate_content (prompt query) with
  | Raise e => Raise e
  | Ok text =>
      let raw_text := strip_fences (Py.strip text) in
      match json_loads raw_text with
      | Raise e => Raise e
      | Ok (JObj intent) =>
          Ok (intent, dict_get_default intent "refined_query" (JStr query))
      | Ok _ => Raise "object has no attribute 'get'"
      end
  end.

(** [_parse_intent(query)]: any exception gives [({}, query)]. *)
Definition _parse_intent `{Json} (generate_content : string -> result string)
    (query : string) : dict * json :=
  match _parse_intent_try generate_content query with
  | Ok r => r
  | Raise _ => ([], JStr query)
  end.

(** Step 1 of [search]: the intent and the refined query. *)
Definition parse_step `{Json} (self : t) (query : string) : dict * json :=
  match gemini_model self with
  | None => ([], JStr query)
  | Some generate_content =>
      let '(intent, refined_query) := _parse_intent generate_content query in
      (intent, if truthy refined_query then refined_query else JStr query)
  end.

(** Step 2 of [search]: the search type after looking at the intent. *)
Definition effective_search_type (intent : dict) (search_type : string) : string :=
  if eq_str (dict_get intent "file_type") "image" then "images"
  else if eq_str (dict_get intent "file_type") "document" then "documents"
  else search_type.

(** The bodies of the two [try] blocks of step 3, up to the call of the
    store. *)
Definition image_try `{Models} `{Chroma.Space} (self : t) (refined_query : json)
    (top_k : Z) : result (list VectorStore.hit) :=
  match get_text_clip_embedding refined_query with
  | Raise e => Raise e
  | Ok clip_embedding => VectorStore.search_images (store self) clip_embedding top_k
  end.

Definition document_try `{Models} `{Chroma.Space} (self : t) (refined_query : json)
    (top_k : Z) : result (list VectorStore.hit) :=
  match get_sentence_embedding refined_query with
  | Raise e => Raise e
  | Ok sent_embedding => VectorStore.search_documents (store self) sent_embedding top_k
  end.

(** [try: ...; results.extend(found) except Exception: log]: an exception
    leaves [results] as it was. *)
Definition extend_or_log (results : list VectorStore.hit)
    (found : result (list VectorStore.hit)) : list VectorStore.hit :=
  match found with
  | Ok hits => results ++ hits
  | Raise _ => results
  end.

(** Steps 3 and 4 of [search] for a given refined query and search type:
    the merged, sorted and truncated results. *)
Definition collect `{Models} `{Chroma.Space} (self : t) (refined_query : json)
    (top_k : Z) (search_type : string) : list VectorStore.hit :=
  let results := [] in
  let results :=
    if String.eqb search_type "all" || String.eqb search_type "images"
    then extend_or_log results (image_try self refined_query top_k) else results in
  let results :=
    if String.eqb search_type "all" || String.eqb search_type "documents"
    then extend_or_log results (document_try self refined_query top_k) else results in
  let results := Py.sort_desc VectorStore.score results in
  Py.slice_to top_k results.

Definition search `{Json} `{Models} `{Chroma.Space} (self : t) (query : string)
    (top_k : Z) (search_type : string) : response :=
  let '(intent, refined_query) := parse_step self query in
  let search_type := effective_search_type intent search_type in
  let results := collect self refined_query top_k search_type in
  {| query := query;
     refined_query := refined_query;
     intent := intent;
     results := results;
     total_results := Z.of_nat (length results) |}.

End QueryEngine.

(* ===================================================================== *)
(** * backend/main.py *)
(* ===================================================================== *)

Module Main.

(** A call of one of the two upsert methods of the store. *)
Inductive upsert_call : Type :=
| UpsertImage (file_path : string) (embedding : list Py.float)
    (metadata : metadata_dict) (text_content : string)
| UpsertDocument (file_path : string) (embedding : list Py.float)
    (metadata : metadata_dict) (text_content : string).

(** What a call of [ingest_file] leaves behind: whether it returned or
    raised, the store afterwards and the upsert calls that the store
    carried out, in order. *)
Record outcome := {
  returned : result unit;
  store_after : VectorStore.t;
  upserts : list upsert_call
}.

(** [metadata.update(exif)]. *)
Definition update_with_exif (metadata : metadata_dict) (exif : gmap string string)
  : metadata_dict :=
  (VStr <$> exif) ∪ metadata.

(** [if tags: metadata["auto_tags"] = ...]. *)
Definition add_tags (metadata : metadata_dict) (tags : list (string * Py.float))
  : metadata_dict :=
  match tags with
  | [] => metadata
  | (top_tag, top_score) :: _ =>
      <["top_tag_score" := VFloat top_score]>
        (<["top_tag" := VStr top_tag]>
           (<["auto_tags" := VStr (Py.join ", " (map fst tags))]> metadata))
  end.

Definition ingest_file `{Hashlib} `{OS} `{MetadataExtractor.Exifread} `{Models} `{DocLibs}
    (vector_store : VectorStore.t) (file_path : string) : outcome :=
  let file_path := path_resolve file_path in
  let ext := Py.lower (path_suffix file_path) in
  if VectorStore.is_file_indexed vector_store file_path then
    {| returned := Ok tt; store_after := vector_store; upserts := [] |}
  else
    match MetadataExtractor.extract_file_metadata file_path with
    | Raise e => {| returned := Raise e; store_after := vector_store; upserts := [] |}
    | Ok metadata =>
        if bool_decide (ext ∈ Config.IMAGE_EXTENSIONS) then
          let exif := MetadataExtractor.extract_exif_metadata file_path in
          let metadata := update_with_exif metadata exif in
          let result := ImageProcessor.process_image file_path in
          if negb (Py.list_truthy (embedding result)) then
            {| returned := Ok tt; store_after := vector_store; upserts := [] |}
          else
            let tags := AutoTagger.auto_tag_image file_path in
            let metadata := add_tags metadata tags in
            match VectorStore.upsert_image vector_store file_path (embedding result)
                    metadata (text_content result) with
            | Raise e =>
                {| returned := Raise e; store_after := vector_store; upserts := [] |}
            | Ok stored =>
                {| returned := Ok tt;
                   store_after := stored;
                   upserts :=
                     [UpsertImage file_path (embedding result) metadata
                        (text_content result)] |}
            end
        else if bool_decide (ext ∈ Config.DOCUMENT_EXTENSIONS) then
          let result := DocProcessor.process_document file_path in
          if negb (Py.list_truthy (embedding result)) then
            {| returned := Ok tt; store_after := vector_store; upserts := [] |}
          else
            match VectorStore.upsert_document vector_store file_path (embedding result)
                    metadata (text_content result) with
            | Raise e =>
                {| returned := Raise e; store_after := vector_store; upserts := [] |}
            | Ok stored =>
                {| returned := Ok tt;
                   store_after := stored;
                   upserts :=
                     [UpsertDocument file_path (embedding result) metadata
                        (text_content result)] |}
            end
        else
          {| returned := Ok tt; store_after := vector_store; upserts := [] |}
    end.

(** The effect of one upsert call on the store. *)
Definition apply_upsert `{Hashlib} `{OS} (s : VectorStore.t) (c : upsert_call)
  : result VectorStore.t :=
  match c with
  | UpsertImage p e m t => VectorStore.upsert_image s p e m t
  | UpsertDocument p e m t => VectorStore.upsert_document s p e m t
  end.

End Main.

(* ===================================================================== *)
(** * backend/ingestion/file_watcher.py *)
(* ===================================================================== *)

Module FileWatcher.

(** A watchdog event, as far as the handler looks at it. *)
Record event := { is_directory : bool; src_path : string }.

(** [sorted(folder.rglob("*"))] and [Path.is_file]. *)
Class Walk := {
  sorted_rglob : string -> list string;
  is_file : string -> bool
}.

Section Handler.
Context {S : Type} `{OS}.

(** The callback [on_file_event]: it may change the state [S] it works on
    and it may raise. *)
Variable on_file_event : string -> S -> result unit * S.

(** [LifeVaultFileHandler._handle]: an exception of the callback is logged
    and dropped; what it did before raising stays. *)
Definition _handle (file_path : string) (s : S) : S :=
  let ext := Py.lower (path_suffix file_path) in
  if bool_decide (ext ∈ Config.ALL_EXTENSIONS) then snd (on_file_event file_path s)
  else s.

Definition on_created (ev : event) (s : S) : S :=
  if negb (is_directory ev) then _handle (src_path ev) s else s.

Definition on_modified (ev : event) (s : S) : S :=
  if negb (is_directory ev) then _handle (src_path ev) s else s.

(** The body of the loop of [scan_existing_files] for one path; the
    counter grows when the callback returned. *)
Definition scan_step `{Walk} (acc : S * Z) (file_path : string) : S * Z :=
  let '(s, count) := acc in
  if is_file file_path
     && bool_decide (Py.lower (path_suffix file_path) ∈ Config.ALL_EXTENSIONS)
  then
    match on_file_event file_path s with
    | (Ok _, s') => (s', count + 1)
    | (Raise _, s') => (s', count)
    end
  else (s, count).

(** [FileWatcher.scan_existing_files]: the state afterwards and the
    counter it logs. *)
Definition scan_existing_files `{Walk} (watch_folder : string) (s : S) : S * Z :=
  foldl scan_step (s, 0) (sorted_rglob watch_folder).

End Handler.

End FileWatcher.

(** [ingest_file] as the callback that [lifespan] hands to the watcher. *)
Definition ingest_callback `{Hashlib} `{OS} `{MetadataExtractor.Exifread} `{Models}
    `{DocLibs} (file_path : string) (st : VectorStore.t) : result unit * VectorStore.t :=
  let o := Main.ingest_file st file_path in
  (Main.returned o, Main.store_after o).

(* ===================================================================== *)
(** * frontend/app.py (helpers) *)
(* ===================================================================== *)

Module Frontend.

(** [get_score_class(score)]. *)
Definition get_score_class (score : Py.float) : string :=
  if Qle_bool 60 score then "score-high"
  else if Qle_bool 30 score then "score-mid"
  else "score-low".

End Frontend.

(* ===================================================================== *)
(** * Vocabulary of the statements *)
(* ===================================================================== *)

(** The search of one collection, as [search_images] and
    [search_documents] both run it on their own collection. *)
Definition search_collection `{Chroma.Space} (c : Chroma.collection)
    (query_embedding : list Py.float) (top_k : Z) : result (list VectorStore.hit) :=
  VectorStore.search_with Chroma.query c query_embedding top_k.

(** The unrounded score of a record at distance [d]. *)
Definition raw_score (d : Py.float) : Py.float := Py.max 0 (1 - d)%Q.

(** The entry that a stored record [kv] gives for the query vector [q]. *)
Definition hit_of `{Chroma.Space} (q : list Py.float) (kv : string * Chroma.record)
  : VectorStore.hit :=
  let d := Chroma.cosine_distance q (Chroma.rec_embedding (snd kv)) in
  {| VectorStore.id := fst kv;
     VectorStore.score := Py.round (raw_score d) 4;
     VectorStore.match_percentage := Py.round (raw_score d * 100)%Q 1;
     VectorStore.metadata := Chroma.rec_metadata (snd kv);
     VectorStore.text_preview :=
       if Py.str_truthy (Chroma.rec_document (snd kv))
       then Py.str_slice_to 300 (Chroma.rec_document (snd kv))
       else EmptyString |}.

(** The records a query with [n_results = n] selects, nearest first. *)
Definition nearest `{Chroma.Space} (q : list Py.float) (n : Z) (c : Chroma.collection)
  : list (string * Chroma.record) :=
  firstn (Z.to_nat n)
    (Py.sort_asc (fun kv => Chroma.cosine_distance q (Chroma.rec_embedding (snd kv)))
       (map_to_list c)).

(** Scores do not increase along the list. *)
Definition sorted_by_score_desc (hits : list VectorStore.hit) : Prop :=
  StronglySorted (fun a b => (VectorStore.score b <= VectorStore.score a)%Q) hits.

(** The hemisphere reference asks for a negative coordinate. *)
Definition south_or_west (gps_ref : option MetadataExtractor.IfdTag) : bool :=
  match gps_ref with
  | Some ref =>
      bool_decide (MetadataExtractor.printable ref = "S"
                   ∨ MetadataExtractor.printable ref = "W")
  | None => false
  end.

(** Degrees, minutes and seconds as a number: [d + m/60 + s/3600]. *)
Definition dms_decimal (v0 v1 v2 : MetadataExtractor.Ratio) : Q :=
  (inject_Z (MetadataExtractor.num v0) / inject_Z (MetadataExtractor.den v0)
   + inject_Z (MetadataExtractor.num v1) / inject_Z (MetadataExtractor.den v1) / 60
   + inject_Z (MetadataExtractor.num v2) / inject_Z (MetadataExtractor.den v2) / 3600)%Q.

(** The double nearest to an integer, and the quotient of the doubles of
    the two integers of a rational. *)
Definition nearest_double (n : Z) : Py.double :=
  binary_normalize Py.prec Py.emax n 0 false.

Definition quotient (v : MetadataExtractor.Ratio) : Py.double :=
  SFdiv Py.prec Py.emax (nearest_double (MetadataExtractor.num v))
    (nearest_double (MetadataExtractor.den v)).

(** [d + m/60 + s/3600] as the machine computes it: the two divisions,
    then the two additions from the left, each one rounded. *)
Definition dms_double (v0 v1 v2 : MetadataExtractor.Ratio) : Py.double :=
  Py.double_add
    (Py.double_add (quotient v0) (SFdiv Py.prec Py.emax (quotient v1) Py.sixty))
    (SFdiv Py.prec Py.emax (quotient v2) Py.thirty_six_hundred).

(** A double that is zero or above: not NaN, and without the sign bit. *)
Definition not_negative (x : Py.double) : Prop :=
  x <> S754_nan /\ Py.double_sign x = false.

(** An integer that a double holds exactly. *)
Definition fits_double (n : Z) : Prop := Z.abs n < 2 ^ 53.

(** An EXIF rational as the GPS tags hold it: unsigned, with a
    denominator that is not zero. *)
Definition unsigned_ratio (v : MetadataExtractor.Ratio) : Prop :=
  0 <= MetadataExtractor.num v /\ 0 < MetadataExtractor.den v.

(** A metadata value that is neither [None] nor the empty string. *)
Definition present (v : pyval) : Prop := v <> VNone /\ v <> VStr EmptyString.

(** The collection with a new record under [id]. *)
Definition written (id : string) (e : list Py.float) (m : metadata_dict) (d : string)
    (c : Chroma.collection) : Chroma.collection :=
  <[id := {| Chroma.rec_embedding := e; Chroma.rec_metadata := m;
             Chroma.rec_document := d |}]> c.

(** The store after an upsert of an image, and of a document, that the
    collection accepts under an id it does not hold yet. *)
Definition stored_image `{Hashlib} `{OS} (st : VectorStore.t) (file_path : string)
    (e : list Py.float) (m : metadata_dict) (t : string) : VectorStore.t :=
  {| VectorStore.image_collection :=
       written (VectorStore._file_id file_path) e (VectorStore.clean_meta m)
         (VectorStore.str_or t ("Image: " ++ VectorStore.file_name_of m)%string)
         (VectorStore.image_collection st);
     VectorStore.doc_collection := VectorStore.doc_collection st |}.

Definition stored_document `{Hashlib} `{OS} (st : VectorStore.t) (file_path : string)
    (e : list Py.float) (m : metadata_dict) (t : string) : VectorStore.t :=
  {| VectorStore.image_collection := VectorStore.image_collection st;
     VectorStore.doc_collection :=
       written (VectorStore._file_id file_path) e (VectorStore.clean_meta m)
         (VectorStore.str_or (Py.str_slice_to 5000 t)
            ("Document: " ++ VectorStore.file_name_of m)%string)
         (VectorStore.doc_collection st) |}.

(** The store after the upsert calls of a log, each one accepted under an
    id that was not stored. *)
Definition applied `{Hashlib} `{OS} (st : VectorStore.t) (c : Main.upsert_call)
  : VectorStore.t :=
  match c with
  | Main.UpsertImage p e m t => stored_image st p e m t
  | Main.UpsertDocument p e m t => stored_document st p e m t
  end.

(** The outcome of [ingest_file] with each upsert written as the record it
    stores. *)
Definition ingest_outcome `{Hashlib} `{OS} `{MetadataExtractor.Exifread} `{Models} `{DocLibs}
    (st : VectorStore.t) (p : string) : Main.outcome :=
  let fp := path_resolve p in
  let ext := Py.lower (path_suffix fp) in
  if VectorStore.is_file_indexed st fp then
    {| Main.returned := Ok tt; Main.store_after := st; Main.upserts := [] |}
  else
    match MetadataExtractor.extract_file_metadata fp with
    | Raise e => {| Main.returned := Raise e; Main.store_after := st; Main.upserts := [] |}
    | Ok metadata =>
        if bool_decide (ext ∈ Config.IMAGE_EXTENSIONS) then
          let metadata :=
            Main.update_with_exif metadata (MetadataExtractor.extract_exif_metadata fp) in
          let result := ImageProcessor.process_image fp in
          if negb (Py.list_truthy (embedding result)) then
            {| Main.returned := Ok tt; Main.store_after := st; Main.upserts := [] |}
          else
            let metadata := Main.add_tags metadata (AutoTagger.auto_tag_image fp) in
            {| Main.returned := Ok tt;
               Main.store_after :=
                 stored_image st fp (embedding result) metadata (text_content result);
               Main.upserts :=
                 [Main.UpsertImage fp (embedding result) metadata (text_content result)] |}
        else if bool_decide (ext ∈ Config.DOCUMENT_EXTENSIONS) then
          let result := DocProcessor.process_document fp in
          if negb (Py.list_truthy (embedding result)) then
            {| Main.returned := Ok tt; Main.store_after := st; Main.upserts := [] |}
          else
            {| Main.returned := Ok tt;
               Main.store_after :=
                 stored_document st fp (embedding result) metadata (text_content result);
               Main.upserts :=
                 [Main.UpsertDocument fp (embedding result) metadata (text_content result)] |}
        else
          {| Main.returned := Ok tt; Main.store_after := st; Main.upserts := [] |}
    end.

(** Every metadata value that the store holds is neither [None] nor the
    empty string. *)
Definition sanitized (c : Chroma.collection) : Prop :=
  forall i r key v,
    c !! i = Some r -> Chroma.rec_metadata r !! key = Some v -> present v.

(** What an accepted upsert of the metadata [m] under [id] leaves in the
    collection, [c] before the call and [c'] after it: a record under [id]
    that holds every pair of [m] whose value is worth keeping; whose pairs
    are such pairs of [m] or, for a key that [m] gives no such value, pairs
    of the record stored before; that holds exactly the pairs of [m] worth
    keeping when [id] was not stored; the other records as they were; and
    no [None] and no empty string anywhere when there was none before. *)
Definition persisted (m : metadata_dict) (id : string) (c c' : Chroma.collection) : Prop :=
  exists r,
    c' !! id = Some r
    /\ (forall key v, m !! key = Some v -> present v ->
          Chroma.rec_metadata r !! key = Some v)
    /\ (forall key v, Chroma.rec_metadata r !! key = Some v ->
          (m !! key = Some v /\ present v)
          \/ ((forall w, m !! key = Some w -> ~ present w)
              /\ exists old, c !! id = Some old /\ Chroma.rec_metadata old !! key = Some v))
    /\ (c !! id = None ->
          forall key v, Chroma.rec_metadata r !! key = Some v <-> m !! key = Some v /\ present v)
    /\ (forall i, i <> id -> c' !! i = c !! i)
    /\ (sanitized c -> sanitized c').

(** The outcome of a call of [ingest_file] that returns without writing. *)
Definition untouched (st : VectorStore.t) : Main.outcome :=
  {| Main.returned := Ok tt; Main.store_after := st; Main.upserts := [] |}.

(** The test of [scan_existing_files] on a path of the listing. *)
Definition scanned `{OS} `{FileWatcher.Walk} (file_path : string) : bool :=
  FileWatcher.is_file file_path
  && bool_decide (Py.lower (path_suffix file_path) ∈ Config.ALL_EXTENSIONS).

(** The store after the startup scan of a listing, with [ingest_file] as
    the callback. *)
Definition scan_store `{Hashlib} `{OS} `{MetadataExtractor.Exifread} `{Models} `{DocLibs}
    `{FileWatcher.Walk} (listing : list string) (st : VectorStore.t) : VectorStore.t :=
  fst (foldl (FileWatcher.scan_step ingest_callback) (st, 0) listing).

(* ===================================================================== *)
(** * Sample data *)
(* ===================================================================== *)

Module Sample.

(** A GPS tag with whole degrees, minutes and seconds, and a reference. *)
Definition dms (d m s : Z) : MetadataExtractor.IfdTag :=
  {| MetadataExtractor.printable := EmptyString;
     MetadataExtractor.values :=
       [ {| MetadataExtractor.num := d; MetadataExtractor.den := 1 |};
         {| MetadataExtractor.num := m; MetadataExtractor.den := 1 |};
         {| MetadataExtractor.num := s; MetadataExtractor.den := 1 |} ] |}.

Definition hemisphere (s : string) : option MetadataExtractor.IfdTag :=
  Some {| MetadataExtractor.printable := s; MetadataExtractor.values := [] |}.

Fixpoint dot (u v : list Q) : Q :=
  match u, v with
  | x :: u', y :: v' => (x * y + dot u' v')%Q
  | _, _ => 0%Q
  end.

(** The cosine distance between vectors of length one: [1 - u.v]. *)
Definition unit_space : Chroma.Space :=
  {| Chroma.cosine_distance := fun u v => Qred (1 - dot u v)%Q |}.

(** The text after the last dot of a path, with the dot. *)
Fixpoint suffix_chars (l : list ascii) (acc : option (list ascii)) : list ascii :=
  match l with
  | [] => match acc with Some s => s | None => [] end
  | a :: l' =>
      if Ascii.eqb a "."%char then suffix_chars l' (Some (a :: l'))
      else suffix_chars l' acc
  end.

Definition os : OS :=
  {| path_resolve := fun p => p;
     path_suffix := fun p => Py.str (suffix_chars (Py.chars p) None);
     path_name := fun p => p;
     path_stat := fun _ => Ok {| st_size := 2048; st_ctime := 0; st_mtime := 0 |};
     isoformat := fun _ => "1970-01-01T00:00:00";
     float_str := fun _ => "0.0";
     float_repr := fun _ => "0.0" |}.

(** A stand-in for the digest: distinct paths get distinct ids. *)
Definition hashlib : Hashlib := {| md5_hexdigest := fun p => ("id:" ++ p)%string |}.

Definition no_exif : MetadataExtractor.Exifread :=
  {| MetadataExtractor.process_file := fun _ => Raise "not an image with EXIF" |}.

(** Models that answer every call. *)
Definition models : Models :=
  {| clip_encode_image := fun _ => Ok [1%Q; 0%Q];
     ocr_reader := None;
     clip_zero_shot := fun _ => Ok [("cat", 9 # 10); ("pet", 1 # 20)];
     sentence_encode := fun _ => Ok [3 # 5; 4 # 5];
     get_text_clip_embedding := fun _ => Ok [1%Q; 0%Q];
     get_sentence_embedding := fun _ => Ok [3 # 5; 4 # 5] |}.

(** Models whose CLIP calls all raise. *)
Definition models_without_clip : Models :=
  {| clip_encode_image := fun _ => Raise "clip failed";
     ocr_reader := None;
     clip_zero_shot := fun _ => Raise "clip failed";
     sentence_encode := fun _ => Ok [3 # 5; 4 # 5];
     get_text_clip_embedding := fun _ => Raise "clip failed";
     get_sentence_embedding := fun _ => Ok [3 # 5; 4 # 5] |}.

Definition doclibs (text : string) : DocLibs :=
  {| fitz_page_texts := fun _ => [text];
     fitz_first_page_ocr := fun _ => Ok None;
     docx_paragraph_texts := fun _ => Ok [text];
     read_text := fun _ => Ok text |}.

Definition no_json : QueryEngine.Json :=
  {| QueryEngine.json_loads := fun _ => Raise "Expecting value" |}.

(** Six letters after four no-break spaces: ten characters, six of them
    left by [strip]. *)
Definition nbsp : ascii := ascii_of_nat 160.
Definition padded_text : string :=
  String nbsp (String nbsp (String nbsp (String nbsp "abcdef"))).

(** Metadata as an extractor may leave it: an empty and a missing value. *)
Definition raw_metadata : metadata_dict :=
  <["file_name" := VStr "a.jpg"]>
    (<["camera_make" := VStr EmptyString]> (<["date_taken" := VNone]> ∅)).

Definition empty_store : VectorStore.t :=
  {| VectorStore.image_collection := ∅; VectorStore.doc_collection := ∅ |}.

(** One image whose vector is at cosine distance 1/1861 of [[1; 0]]. *)
Definition one_image : VectorStore.t :=
  {| VectorStore.image_collection :=
       {[ "a" := {| Chroma.rec_embedding := [1860 # 1861; 61 # 1861];
                    Chroma.rec_metadata := ∅;
                    Chroma.rec_document := "Image: a.jpg" |} ]};
     VectorStore.doc_collection := ∅ |}.

(** One document whose vector is the one the sample sentence model gives. *)
Definition one_document : VectorStore.t :=
  {| VectorStore.image_collection := ∅;
     VectorStore.doc_collection :=
       {[ "d" := {| Chroma.rec_embedding := [3 # 5; 4 # 5];
                    Chroma.rec_metadata := {[ "file_name" := VStr "notes.txt" ]};
                    Chroma.rec_document := "meeting notes about cats" |} ]} |}.

(** A watched folder with two supported files, a directory and a file of
    another type. *)
Definition walk : FileWatcher.Walk :=
  {| FileWatcher.sorted_rglob := fun _ => ["cat.jpg"; "docs"; "notes.txt"; "todo.xyz"];
     FileWatcher.is_file := fun p => negb (String.eqb p "docs") |}.

(** A Gemini client that answers with a fenced JSON object, and a parser
    for that one answer. *)
Definition image_intent_text : string :=
  ("```json" ++ String Py.nl "{file_type: image, refined_query: cat photos}"
   ++ String Py.nl "```")%string.

Definition answering_gemini : string -> result string := fun _ => Ok image_intent_text.

Definition image_intent : list (string * json) :=
  [("file_type", JStr "image"); ("refined_query", JStr "cat photos")].

Definition json_of_image_intent : QueryEngine.Json :=
  {| QueryEngine.json_loads := fun s =>
       if String.eqb s "{file_type: image, refined_query: cat photos}"
       then Ok (JObj image_intent) else Raise "Expecting value" |}.

(** A Gemini client whose every call fails. *)
Definition unreachable_gemini : string -> result string :=
  fun _ => Raise "503 service unavailable".

End Sample.

(* ===================================================================== *)
(** * Facts about the built-ins *)
(* ===================================================================== *)

(** The characters that [strip] removes, by their code points. *)
Lemma is_space_codes (a : ascii) :
  Py.is_space a = true <->
  nat_of_ascii a ∈ [9; 10; 11; 12; 13; 28; 29; 30; 31; 32; 133; 160]%nat.
Proof.
  rewrite <- (bool_decide_spec (nat_of_ascii a ∈ _)).
  destruct a as [[] [] [] [] [] [] [] []]; vm_compute; split; intros Hx;
    first [exact I | reflexivity | discriminate Hx | destruct Hx].
Qed.

(** The built-ins on small inputs. *)

Example round_ties_to_even :
  Py.round (1 # 2) 0 = 0%Q /\ Py.round (3 # 2) 0 = 2%Q /\ Py.round (- 5 # 2) 0 = (- 2)%Q
  /\ Py.round (12346 # 100000) 4 = (247 # 2000)%Q
  /\ Py.round (99948 # 1000) 1 = (999 # 10)%Q.
Proof. repeat split. Qed.

Example strip_both_ends :
  Py.strip "  a b  " = "a b" /\ Py.strip "   " = EmptyString.
Proof. split; reflexivity. Qed.

Example slice_to_bounds :
  Py.slice_to 2 [1; 2; 3] = [1; 2] /\ Py.slice_to 5 [1; 2; 3] = [1; 2; 3]
  /\ Py.slice_to (-1) [1; 2; 3] = [1; 2] /\ Py.slice_to (-7) [1; 2; 3] = [].
Proof. repeat split. Qed.

Example sort_desc_is_stable :
  Py.sort_desc (fun p : Q * string => fst p)
    [(1 # 2, "a"); (3 # 4, "b"); (1 # 2, "c"); (3 # 4, "d")]
  = [(3 # 4, "b"); (3 # 4, "d"); (1 # 2, "a"); (1 # 2, "c")].
Proof. reflexivity. Qed.

Example strip_fences_json :
  QueryEngine.strip_fences
    ("```json" ++ String Py.nl "{}" ++ String Py.nl "```")%string = "{}"
  /\ QueryEngine.strip_fences "{}" = "{}".
Proof. split; reflexivity. Qed.

Example lower_suffix : Py.lower ".JPG" = ".jpg".
Proof. reflexivity. Qed.

Section SortFacts.
Context {A : Type} (before : A -> A -> bool).

Lemma insert_by_perm x l : Permutation (Py.insert_by before x l) (x :: l).
Proof.
  induction l as [|y l IH]; simpl; [reflexivity|].
  destruct (before x y); [reflexivity|].
  rewrite IH. apply perm_swap.
Qed.

Lemma stable_sort_perm l : Permutation (Py.stable_sort before l) l.
Proof.
  induction l as [|x l IH]; simpl; [reflexivity|].
  fold (Py.stable_sort before l). rewrite insert_by_perm. by constructor.
Qed.

Lemma stable_sort_length l : length (Py.stable_sort before l) = length l.
Proof. apply Permutation_length, stable_sort_perm. Qed.

Hypothesis before_total : forall x y, before x y = false -> before y x = true.
Hypothesis before_trans :
  forall x y z, before x y = true -> before y z = true -> before x z = true.

Let R := fun x y => before x y = true.

Lemma insert_by_sorted x l :
  StronglySorted R l -> StronglySorted R (Py.insert_by before x l).
Proof.
  induction 1 as [|y l Hs IH Hy]; simpl.
  - repeat constructor.
  - destruct (before x y) eqn:Hxy.
    + constructor; [by constructor|].
      constructor; [exact Hxy|].
      eapply Forall_impl; [exact Hy|]. intros z Hz. by eapply before_trans.
    + constructor; [exact IH|].
      eapply Permutation_Forall; [symmetry; apply insert_by_perm|].
      constructor; [by apply before_total | exact Hy].
Qed.

Lemma stable_sort_sorted l : StronglySorted R (Py.stable_sort before l).
Proof.
  induction l as [|x l IH]; simpl; [constructor|].
  by apply insert_by_sorted.
Qed.
End SortFacts.

Lemma in_firstn {A} (x : A) n l : In x (firstn n l) -> In x l.
Proof.
  revert n. induction l as [|y l IH]; intros [|n]; simpl; try tauto.
  intros [->|Hx]; [by left | right; eauto].
Qed.

Lemma StronglySorted_firstn {A} (R : A -> A -> Prop) n l :
  StronglySorted R l -> StronglySorted R (firstn n l).
Proof.
  intros Hs. revert n. induction Hs as [|x l Hs IH Hx]; intros [|n]; simpl;
    try constructor; auto.
  rewrite List.Forall_forall in *. intros y Hy. apply Hx. by eapply in_firstn.
Qed.

Lemma slice_to_sorted {A} (R : A -> A -> Prop) k l :
  StronglySorted R l -> StronglySorted R (Py.slice_to k l).
Proof. intros Hs. unfold Py.slice_to. destruct (0 <=? k); by apply StronglySorted_firstn. Qed.

Lemma slice_to_length {A} k (l : list A) :
  0 <= k -> Z.of_nat (length (Py.slice_to k l)) <= k.
Proof.
  intros Hk. unfold Py.slice_to.
  destruct (0 <=? k) eqn:E; [|lia].
  rewrite length_firstn. lia.
Qed.

Lemma slice_to_in {A} (x : A) k l : In x (Py.slice_to k l) -> In x l.
Proof. unfold Py.slice_to. destruct (0 <=? k); apply in_firstn. Qed.

Lemma sort_desc_perm {A} (key : A -> Py.float) l : Permutation (Py.sort_desc key l) l.
Proof. apply stable_sort_perm. Qed.

Lemma sort_asc_perm {A} (key : A -> Py.float) l : Permutation (Py.sort_asc key l) l.
Proof. apply stable_sort_perm. Qed.

Lemma Qle_bool_false x y : Qle_bool x y = false -> Qle_bool y x = true.
Proof.
  intros H. apply Qle_bool_iff.
  destruct (Qlt_le_dec y x) as [Hlt|Hle]; [by apply Qlt_le_weak|].
  apply Qle_bool_iff in Hle. congruence.
Qed.

Lemma StronglySorted_weaken {A} (R R' : A -> A -> Prop) l :
  (forall x y, R x y -> R' x y) -> StronglySorted R l -> StronglySorted R' l.
Proof.
  intros HR. induction 1 as [|x l Hs IH Hx]; constructor; [exact IH|].
  eapply List.Forall_impl; [|exact Hx]. intros y. apply HR.
Qed.

Lemma sort_desc_sorted {A} (key : A -> Py.float) l :
  StronglySorted (fun x y => (key y <= key x)%Q) (Py.sort_desc key l).
Proof.
  unfold Py.sort_desc.
  eapply StronglySorted_weaken; [|apply stable_sort_sorted].
  - intros x y H. by apply Qle_bool_iff.
  - intros x y. apply Qle_bool_false.
  - intros x y z Hxy Hyz. apply Qle_bool_iff. apply Qle_bool_iff in Hxy, Hyz.
    by eapply Qle_trans.
Qed.

(** ** Rounding *)

Lemma round_half_even_nonneg x : (0 <= x)%Q -> 0 <= Py.round_half_even x.
Proof.
  intros Hx. unfold Py.round_half_even.
  assert (0 <= Qfloor x).
  { change 0 with (Qfloor 0). by apply Qfloor_resp_le. }
  destruct (_ ?= _)%Q; [destruct (Z.even _)|..]; lia.
Qed.

Lemma round_half_even_le x (n : Z) :
  (x <= inject_Z n)%Q -> Py.round_half_even x <= n.
Proof.
  intros Hx. unfold Py.round_half_even. cbv zeta.
  assert (Hf : Qfloor x <= n).
  { rewrite <- (Qfloor_Z n). by apply Qfloor_resp_le. }
  destruct (Z.eq_dec (Qfloor x) n) as [E|E].
  - assert (Hlt : (x - inject_Z (Qfloor x) < 1 # 2)%Q).
    { rewrite E. lra. }
    assert (Hc : (x - inject_Z (Qfloor x) ?= 1 # 2)%Q = Lt) by (by apply Qlt_alt).
    rewrite Hc. lia.
  - destruct (_ ?= _)%Q; [destruct (Z.even _)|..]; lia.
Qed.

Lemma pow10_pos n : 0 < Py.pow10 n.
Proof. unfold Py.pow10. apply Z.pow_pos_nonneg; lia. Qed.

Lemma round_unfold x n :
  (Py.round x n ==
   inject_Z (Py.round_half_even (x * inject_Z (Py.pow10 n))) / inject_Z (Py.pow10 n))%Q.
Proof. unfold Py.round. apply Qred_correct. Qed.

(** Rounding keeps a value of the unit interval in the unit interval. *)
Lemma round_unit_interval x n :
  (0 <= x)%Q -> (x <= 1)%Q -> (0 <= Py.round x n)%Q /\ (Py.round x n <= 1)%Q.
Proof.
  intros H0 H1. rewrite round_unfold.
  pose proof (pow10_pos n) as HP.
  assert (HPq : (0 < inject_Z (Py.pow10 n))%Q).
  { change 0%Q with (inject_Z 0). by rewrite <- Zlt_Qlt. }
  split.
  - apply Qle_shift_div_l; [exact HPq|]. rewrite Qmult_0_l.
    change 0%Q with (inject_Z 0). rewrite <- Zle_Qle.
    apply round_half_even_nonneg. apply Qmult_le_0_compat; [exact H0|].
    by apply Qlt_le_weak.
  - apply Qle_shift_div_r; [exact HPq|]. rewrite Qmult_1_l.
    rewrite <- Zle_Qle. apply round_half_even_le.
    rewrite <- (Qmult_1_l (inject_Z (Py.pow10 n))) at 2.
    apply Qmult_le_compat_r; [exact H1|]. by apply Qlt_le_weak.
Qed.

Lemma max_zero_nonneg x : (0 <= Py.max 0 x)%Q.
Proof. unfold Py.max. destruct (Qlt_le_dec 0 x); [by apply Qlt_le_weak|apply Qle_refl]. Qed.

Lemma max_zero_le_one d : (0 <= d)%Q -> (Py.max 0 (1 - d) <= 1)%Q.
Proof.
  intros Hd. unfold Py.max. destruct (Qlt_le_dec 0 (1 - d)); lra.
Qed.

(* ===================================================================== *)
(** * Facts about the vector store *)
(* ===================================================================== *)

Lemma lookup_map {A B} (f : A -> B) (l : list A) (i : nat) :
  map f l !! i = f <$> (l !! i).
Proof.
  revert i. induction l as [|x l IH]; intros [|i]; simpl; try reflexivity. apply IH.
Qed.

Lemma index_map_middle {A B} (f : A -> B) (pre suf : list A) (x : A) :
  VectorStore.index (map f (pre ++ x :: suf)) (length pre) = Ok (f x).
Proof.
  unfold VectorStore.index. rewrite lookup_map.
  by rewrite list_lookup_middle.
Qed.

Section StoreFacts.
Context `{Chroma.Space}.

Let dist (q : list Py.float) (kv : string * Chroma.record) : Py.float :=
  Chroma.cosine_distance q (Chroma.rec_embedding (snd kv)).

(** On the rows that [Chroma.query] builds from the selected records the
    loop of [_format_results] cannot run out of range, and its entry
    for a record is [hit_of]. *)
Lemma format_loop_rows q (pre suf : list (string * Chroma.record)) :
  VectorStore.format_loop
    (map (fun kv => Chroma.rec_metadata (snd kv)) (pre ++ suf))
    (map (fun kv => Some (Chroma.rec_document (snd kv))) (pre ++ suf))
    (map (dist q) (pre ++ suf))
    (length pre) (map fst suf)
  = Ok (map (hit_of q) suf).
Proof.
  revert pre. induction suf as [|kv suf IH]; intros pre; [reflexivity|].
  simpl. unfold VectorStore.format_entry.
  rewrite !index_map_middle.
  specialize (IH (pre ++ [kv])).
  rewrite <- !app_assoc in IH. simpl in IH.
  rewrite length_app in IH. simpl in IH.
  replace (length pre + 1)%nat with (S (length pre)) in IH by lia.
  rewrite IH. reflexivity.
Qed.

Lemma n_results_pos k c : 1 <= k -> 1 <= VectorStore.n_results k c.
Proof.
  intros Hk. unfold VectorStore.n_results, Py.min, VectorStore.count_or_1, Chroma.count.
  destruct (Z.of_nat (size c) =? 0) eqn:E.
  - destruct (1 <? k); lia.
  - apply Z.eqb_neq in E. destruct (_ <? k); lia.
Qed.

(** What a search of a collection returns when the collection accepts
    the call: the entries of the selected records, sorted by score. *)
Lemma search_collection_accepted c q k :
  1 <= VectorStore.n_results k c ->
  search_collection c q k =
    Ok (Py.sort_desc VectorStore.score
          (map (hit_of q) (nearest q (VectorStore.n_results k c) c))).
Proof.
  intros Hn.
  unfold search_collection, VectorStore.search_with, Chroma.query.
  destruct (VectorStore.n_results k c <=? 0) eqn:E; [lia|].
  unfold VectorStore._format_results. simpl.
  fold (nearest q (VectorStore.n_results k c) c).
  pose proof (format_loop_rows q [] (nearest q (VectorStore.n_results k c) c)) as HL.
  simpl in HL. unfold dist in HL. rewrite HL. reflexivity.
Qed.

Lemma search_collection_ok c q k :
  1 <= k ->
  search_collection c q k =
    Ok (Py.sort_desc VectorStore.score
          (map (hit_of q) (nearest q (VectorStore.n_results k c) c))).
Proof. intros Hk. by apply search_collection_accepted, n_results_pos. Qed.

(** A search that returns has passed a positive [n_results]. *)
Lemma search_collection_inv c q k hits :
  search_collection c q k = Ok hits ->
  hits = Py.sort_desc VectorStore.score
           (map (hit_of q) (nearest q (VectorStore.n_results k c) c)).
Proof.
  intros Hs. destruct (Z_le_gt_dec 1 (VectorStore.n_results k c)) as [Hn|Hn].
  - rewrite search_collection_accepted in Hs by exact Hn. congruence.
  - unfold search_collection, VectorStore.search_with, Chroma.query in Hs.
    destruct (VectorStore.n_results k c <=? 0) eqn:E; [discriminate|lia].
Qed.

Lemma nearest_stored q n c kv :
  In kv (nearest q n c) -> c !! fst kv = Some (snd kv).
Proof.
  unfold nearest. intros Hin. apply in_firstn in Hin.
  eapply Permutation_in in Hin; [|apply sort_asc_perm].
  apply list_elem_of_In in Hin. destruct kv as [i r].
  by apply elem_of_map_to_list in Hin.
Qed.

Lemma nearest_length q n c : 0 <= n -> Z.of_nat (length (nearest q n c)) <= n.
Proof. intros Hn. unfold nearest. rewrite length_firstn. lia. Qed.

(** Every entry of a search comes from a stored record. *)
Lemma search_collection_hits c q k hits h :
  search_collection c q k = Ok hits -> In h hits ->
  exists r, c !! VectorStore.id h = Some r /\ h = hit_of q (VectorStore.id h, r).
Proof.
  intros Hs Hin. apply search_collection_inv in Hs. subst hits.
  eapply Permutation_in in Hin; [|apply sort_desc_perm].
  apply in_map_iff in Hin as [[i r] [<- Hkv]].
  exists r. split; [|reflexivity]. by apply nearest_stored in Hkv.
Qed.

Lemma search_collection_empty q k :
  1 <= k -> search_collection ∅ q k = Ok [].
Proof.
  intros Hk. rewrite search_collection_ok by exact Hk.
  unfold nearest. rewrite map_to_list_empty. simpl.
  by rewrite firstn_nil.
Qed.

Lemma n_results_le k c : VectorStore.n_results k c <= k.
Proof. unfold VectorStore.n_results, Py.min. destruct (_ <? k) eqn:E; lia. Qed.

(** A search with [top_k < 1] is rejected by the collection. *)
Lemma search_collection_returns c q k hits :
  search_collection c q k = Ok hits -> 1 <= k.
Proof.
  intros Hs. pose proof (n_results_le k c).
  unfold search_collection, VectorStore.search_with, Chroma.query in Hs.
  destruct (VectorStore.n_results k c <=? 0) eqn:E; [discriminate|lia].
Qed.

Lemma search_collection_length c q k hits :
  1 <= k -> search_collection c q k = Ok hits -> Z.of_nat (length hits) <= k.
Proof.
  intros Hk Hs. rewrite search_collection_ok in Hs by exact Hk.
  injection Hs as <-. unfold Py.sort_desc. rewrite stable_sort_length, length_map.
  pose proof (n_results_pos k c Hk).
  etrans; [apply nearest_length; lia|].
  unfold VectorStore.n_results, Py.min. destruct (_ <? k) eqn:E; lia.
Qed.
End StoreFacts.

(* ===================================================================== *)
(** * GPS conversion (metadata_extractor.py) *)
(* ===================================================================== *)

(** ** Integers as doubles *)

Lemma digits2_pos_lower p : 2 ^ (Zpos (digits2_pos p) - 1) <= Zpos p.
Proof.
  induction p as [p IH|p IH|]; simpl digits2_pos.
  - rewrite Pos2Z.inj_succ.
    replace (Z.succ (Zpos (digits2_pos p)) - 1) with (Z.succ (Zpos (digits2_pos p) - 1)) by lia.
    rewrite Z.pow_succ_r by lia. lia.
  - rewrite Pos2Z.inj_succ.
    replace (Z.succ (Zpos (digits2_pos p)) - 1) with (Z.succ (Zpos (digits2_pos p) - 1)) by lia.
    rewrite Z.pow_succ_r by lia. lia.
  - simpl. lia.
Qed.

Lemma digits2_pos_iter p d :
  digits2_pos (Pos.iter xO p d) = (digits2_pos p + d)%positive.
Proof.
  induction d using Pos.peano_ind.
  - simpl. lia.
  - rewrite Pos.iter_succ. simpl. rewrite IHd. lia.
Qed.

(** A mantissa of 53 digits with an exponent in range is its own
    rounding. *)
Lemma binary_round_aux_canonical s m e :
  Zpos (digits2_pos m) = 53 -> -1074 <= e <= 971 ->
  binary_round_aux Py.prec Py.emax s (Zpos m) e loc_Exact = S754_finite s m e.
Proof.
  intros Hd He.
  assert (Hf : fexp Py.prec Py.emax (Zpos (digits2_pos m) + e) - e = 0).
  { rewrite Hd. unfold fexp, emin, Py.prec, Py.emax. lia. }
  unfold binary_round_aux, shr_fexp. simpl Zdigits2. rewrite Hf. simpl.
  rewrite Hf. simpl.
  destruct (e <=? Py.emax - Py.prec) eqn:E; [reflexivity|].
  apply Z.leb_gt in E. unfold Py.emax, Py.prec in E. lia.
Qed.

(** An integer below [2^53] is a finite double. *)
Lemma binary_round_small s p :
  Zpos p < 2 ^ 53 ->
  exists m e, binary_round Py.prec Py.emax s p 0 = S754_finite s m e.
Proof.
  intros Hp.
  assert (Hsize : Zpos (digits2_pos p) <= 53).
  { destruct (Z_le_gt_dec (Zpos (digits2_pos p)) 53) as [|Hgt]; [assumption|exfalso].
    pose proof (digits2_pos_lower p) as Hlow.
    assert (2 ^ 53 <= 2 ^ (Zpos (digits2_pos p) - 1)) by (apply Z.pow_le_mono_r; lia).
    lia. }
  unfold binary_round.
  set (ex' := fexp Py.prec Py.emax (Zpos (digits2_pos p) + 0)).
  assert (Hex : ex' = Zpos (digits2_pos p) - 53).
  { subst ex'. unfold fexp, emin, Py.prec, Py.emax. lia. }
  unfold shl_align. rewrite Z.sub_0_r.
  destruct ex' as [|q|d] eqn:E.
  - eexists _, _. apply binary_round_aux_canonical; lia.
  - lia.
  - eexists _, _. apply binary_round_aux_canonical.
    + rewrite digits2_pos_iter. lia.
    + lia.
Qed.

(** [float(n)] returns for an integer that fits, with a zero for zero
    alone and the sign of the integer. *)
Lemma double_of_int_fits n :
  fits_double n ->
  Py.double_of_int n = Ok (nearest_double n)
  /\ match n with
     | Z0 => nearest_double n = S754_zero false
     | Zpos _ => exists m e, nearest_double n = S754_finite false m e
     | Zneg _ => exists m e, nearest_double n = S754_finite true m e
     end.
Proof.
  unfold fits_double, Py.double_of_int, nearest_double. intros Hn.
  destruct n as [|p|p]; simpl binary_normalize.
  - by split.
  - destruct (binary_round_small false p) as (m & e & ->); [lia|].
    split; [reflexivity|by eexists _, _].
  - destruct (binary_round_small true p) as (m & e & ->); [lia|].
    split; [reflexivity|by eexists _, _].
Qed.

(** ** Signs *)

Lemma iter_pos_invariant {A} (P : A -> Prop) (f : A -> A) :
  (forall x, P x -> P (f x)) -> forall n x, P x -> P (SpecFloat.iter_pos f n x).
Proof.
  intros Hf. induction n as [n IH|n IH|]; intros x Hx; simpl; auto.
Qed.

Lemma shr_1_nonneg mrs : 0 <= shr_m mrs -> 0 <= shr_m (shr_1 mrs).
Proof.
  destruct mrs as [m r s]. simpl. destruct m as [|[p|p|]|[p|p|]]; simpl; lia.
Qed.

Lemma shr_fexp_nonneg m e l :
  0 <= m -> 0 <= shr_m (fst (shr_fexp Py.prec Py.emax m e l)).
Proof.
  intros Hm. unfold shr_fexp, shr.
  assert (H0 : 0 <= shr_m (shr_record_of_loc m l)) by (by destruct l as [|[]]).
  destruct (_ - e) as [|n|n]; simpl; try exact H0.
  apply (iter_pos_invariant (fun mrs => 0 <= shr_m mrs)); [apply shr_1_nonneg|exact H0].
Qed.

Lemma round_nearest_even_nonneg m l : 0 <= m -> 0 <= round_nearest_even m l.
Proof. intros Hm. destruct l as [|[]]; simpl; try destruct (Z.even m); lia. Qed.

(** The rounding of a mantissa that is not negative has the sign it is
    given. *)
Lemma binary_round_aux_sign s m e l :
  0 <= m ->
  binary_round_aux Py.prec Py.emax s m e l <> S754_nan
  /\ Py.double_sign (binary_round_aux Py.prec Py.emax s m e l) = s.
Proof.
  intros Hm. unfold binary_round_aux.
  pose proof (shr_fexp_nonneg m e l Hm) as H1.
  destruct (shr_fexp Py.prec Py.emax m e l) as [mrs' e']. simpl in H1.
  pose proof (shr_fexp_nonneg (round_nearest_even (shr_m mrs') (loc_of_shr_record mrs')) e'
                loc_Exact (round_nearest_even_nonneg _ _ H1)) as H2.
  destruct (shr_fexp Py.prec Py.emax _ e' loc_Exact) as [mrs'' e'']. simpl in H2.
  destruct (shr_m mrs'') as [|q|q]; [by split| |lia].
  destruct (e'' <=? Py.emax - Py.prec); by split.
Qed.

Lemma binary_round_aux_opp s m e l :
  binary_round_aux Py.prec Py.emax (negb s) m e l
  = SFopp (binary_round_aux Py.prec Py.emax s m e l).
Proof.
  unfold binary_round_aux.
  destruct (shr_fexp Py.prec Py.emax m e l) as [mrs' e'].
  destruct (shr_fexp Py.prec Py.emax _ e' loc_Exact) as [mrs'' e''].
  destruct (shr_m mrs'') as [|q|q]; [reflexivity| |reflexivity].
  by destruct (e'' <=? Py.emax - Py.prec).
Qed.

Lemma SFdiv_core_binary_nonneg mx ex my ey :
  0 <= fst (fst (SFdiv_core_binary Py.prec Py.emax (Zpos mx) ex (Zpos my) ey)).
Proof.
  unfold SFdiv_core_binary.
  set (s := ex - ey - _).
  set (m' := match s with Zpos _ => Z.shiftl (Zpos mx) s | Z0 => Zpos mx | Zneg _ => 0 end).
  assert (Hm' : 0 <= m').
  { subst m'. destruct s; [lia| |lia]. apply Z.shiftl_nonneg. lia. }
  pose proof (Z_div_mod m' (Zpos my) ltac:(lia)) as Hdm.
  destruct (Z.div_eucl m' (Zpos my)) as [q r]. simpl.
  destruct Hdm as [Hq Hr]. nia.
Qed.

Lemma SFdiv_finite_sign sx mx ex sy my ey :
  not_negative (SFdiv Py.prec Py.emax (S754_finite sx mx ex) (S754_finite sy my ey))
  <-> xorb sx sy = false.
Proof.
  unfold not_negative. simpl SFdiv.
  pose proof (SFdiv_core_binary_nonneg mx ex my ey) as Hq.
  destruct (SFdiv_core_binary Py.prec Py.emax (Zpos mx) ex (Zpos my) ey) as [[q e] l].
  simpl in Hq.
  destruct (binary_round_aux_sign (xorb sx sy) q e l Hq) as [Hn Hs].
  rewrite Hs. tauto.
Qed.

(** The quotient of a double that is not negative by a finite one that is
    above zero is not negative. *)
Lemma SFdiv_not_negative x m e :
  not_negative x ->
  not_negative (SFdiv Py.prec Py.emax x (S754_finite false m e)).
Proof.
  intros [Hn Hs]. destruct x as [s|s| |s mx ex]; simpl in Hs; subst; try done.
  by apply SFdiv_finite_sign.
Qed.

Lemma SFadd_not_negative x y :
  not_negative x -> not_negative y -> not_negative (Py.double_add x y).
Proof.
  intros [Hnx Hsx] [Hny Hsy]. unfold Py.double_add.
  destruct x as [sx|sx| |sx mx ex], y as [sy|sy| |sy my ey];
    simpl in Hsx, Hsy; subst; try done.
  unfold not_negative. simpl SFadd. unfold binary_normalize, binary_round.
  destruct (shl_align _ _ _) as [mz ez].
  apply binary_round_aux_sign. lia.
Qed.

Lemma double_of_decimal_sign s n k :
  Py.double_of_decimal s n k <> S754_nan
  /\ Py.double_sign (Py.double_of_decimal s n k) = s.
Proof.
  unfold Py.double_of_decimal. destruct n as [|p|p]; try by split.
  simpl SFdiv.
  pose proof (SFdiv_core_binary_nonneg p 0 (Z.to_pos (Py.pow10 k)) 0) as Hq.
  destruct (SFdiv_core_binary Py.prec Py.emax (Zpos p) 0 _ 0) as [[q e] l].
  simpl in Hq. rewrite xorb_false_r. by apply binary_round_aux_sign.
Qed.

(** [round] keeps the sign bit. *)
Lemma double_round_sign x n :
  x <> S754_nan ->
  Py.double_round x n <> S754_nan
  /\ Py.double_sign (Py.double_round x n) = Py.double_sign x.
Proof.
  intros Hx. destruct x as [s|s| |s m e]; try by split.
  unfold Py.double_round. destruct (323 <? n)%nat; [by split|].
  apply double_of_decimal_sign.
Qed.

(** [round(-x, n)] is [-round(x, n)]. *)
Lemma double_round_opp x n :
  Py.double_round (SFopp x) n = SFopp (Py.double_round x n).
Proof.
  destruct x as [s|s| |s m e]; try reflexivity.
  unfold Py.double_round. simpl SFopp. destruct (323 <? n)%nat; [reflexivity|].
  simpl Py.double_magnitude. unfold Py.double_of_decimal.
  destruct (Py.round_half_even _) as [|p|p]; try reflexivity.
  simpl SFdiv.
  destruct (SFdiv_core_binary Py.prec Py.emax (Zpos p) 0 _ 0) as [[q e'] l].
  rewrite !xorb_false_r. apply binary_round_aux_opp.
Qed.

Lemma SFopp_sign x :
  x <> S754_nan -> SFopp x <> S754_nan /\ Py.double_sign (SFopp x) = negb (Py.double_sign x).
Proof. intros Hx. by destruct x. Qed.

(** ** The conversion *)

(** The quotient of a rational whose integers fit and whose denominator
    is not zero. *)
Lemma ratio_to_float_ok (r : MetadataExtractor.Ratio) :
  fits_double (MetadataExtractor.num r) -> fits_double (MetadataExtractor.den r) ->
  MetadataExtractor.den r <> 0 ->
  MetadataExtractor.ratio_to_float r = Ok (quotient r).
Proof.
  intros Hn Hd Hz. unfold MetadataExtractor.ratio_to_float, quotient.
  destruct (double_of_int_fits _ Hn) as [-> _].
  destruct (double_of_int_fits _ Hd) as [-> Hden].
  destruct (MetadataExtractor.den r) as [|p|p]; [done|..];
    destruct Hden as (m & e & ->); reflexivity.
Qed.

Lemma quotient_not_negative (r : MetadataExtractor.Ratio) :
  fits_double (MetadataExtractor.num r) -> fits_double (MetadataExtractor.den r) ->
  unsigned_ratio r -> not_negative (quotient r).
Proof.
  intros Hn Hd [Hnum Hden]. unfold quotient.
  pose proof (double_of_int_fits _ Hn) as [_ Hnv].
  pose proof (double_of_int_fits _ Hd) as [_ Hdv].
  destruct (MetadataExtractor.den r) as [|p|p]; [lia| |lia].
  destruct Hdv as (m & e & ->).
  apply SFdiv_not_negative.
  destruct (MetadataExtractor.num r) as [|q|q]; [|  |lia].
  - by rewrite Hnv.
  - destruct Hnv as (m' & e' & ->). by split.
Qed.

Lemma sixty_finite :
  Py.sixty = S754_finite false 8444249301319680 (-47)
  /\ Py.thirty_six_hundred = S754_finite false 7916483719987200 (-41).
Proof. split; vm_compute; reflexivity. Qed.

(** The conversion rounds as the machine does.  One 400000th of a degree
    is 0.0000025, a tie of the exact arithmetic that would go to 0.000002;
    the double of 1/400000 lies above it and the result is 0.000003.
    34 deg 38' 41.757'' is 34.6449325 exactly; the sum of the doubles
    lies above it and the result is 34.644933. *)
Example gps_conversion_of_doubles :
  MetadataExtractor._convert_gps_to_decimal
    {| MetadataExtractor.printable := EmptyString;
       MetadataExtractor.values :=
         [ {| MetadataExtractor.num := 1; MetadataExtractor.den := 400000 |};
           {| MetadataExtractor.num := 0; MetadataExtractor.den := 1 |};
           {| MetadataExtractor.num := 0; MetadataExtractor.den := 1 |} ] |}
    (Sample.hemisphere "N")
  = Some (Py.double_of_decimal false 3 6)
  /\ Py.round (1 # 400000) 6 = (1 # 500000)%Q
  /\ MetadataExtractor._convert_gps_to_decimal
       {| MetadataExtractor.printable := EmptyString;
          MetadataExtractor.values :=
            [ {| MetadataExtractor.num := 34; MetadataExtractor.den := 1 |};
              {| MetadataExtractor.num := 38; MetadataExtractor.den := 1 |};
              {| MetadataExtractor.num := 41757; MetadataExtractor.den := 1000 |} ] |}
       (Sample.hemisphere "N")
     = Some (Py.double_of_decimal false 34644933 6)
  /\ Py.round (34 + (38 # 60) + (41757 # 3600000)) 6 = (8661233 # 250000)%Q.
Proof. repeat split; vm_compute; reflexivity. Qed.

(** C9 (as stated, refuted): one second of arc north is returned as the
    double 0.000278; its value is not [0 + 0/60 + 1/3600], and it is not
    the double that the sum itself gives: the result is rounded to six
    decimal places. *)
Lemma gps_one_arcsecond_not_exact :
  exists r,
    MetadataExtractor._convert_gps_to_decimal (Sample.dms 0 0 1) (Sample.hemisphere "N")
      = Some r
    /\ r = Py.double_of_decimal false 278 6
    /\ ~ (Py.double_value r
          == dms_decimal {| MetadataExtractor.num := 0; MetadataExtractor.den := 1 |}
                         {| MetadataExtractor.num := 0; MetadataExtractor.den := 1 |}
                         {| MetadataExtractor.num := 1; MetadataExtractor.den := 1 |})%Q
    /\ r <> dms_double {| MetadataExtractor.num := 0; MetadataExtractor.den := 1 |}
                       {| MetadataExtractor.num := 0; MetadataExtractor.den := 1 |}
                       {| MetadataExtractor.num := 1; MetadataExtractor.den := 1 |}.
Proof.
  eexists. split; [vm_compute; reflexivity|].
  split; [vm_compute; reflexivity|]. split.
  - intros E. vm_compute in E. discriminate E.
  - intros E. vm_compute in E. discriminate E.
Qed.

(** C9 (amended): take three rationals whose integers a double holds
    exactly and whose denominators are not zero.  The GPS conversion
    returns a coordinate: [d + m/60 + s/3600] in binary64 arithmetic, each
    division and each addition rounded to the nearest double, negated
    exactly when the hemisphere reference prints as S or W, and then
    rounded to six decimal places.  For unsigned rationals the sign bit of
    the coordinate is set exactly for S and W.  N 37 48' 0'' gives the
    double 37.8 and W 122 24' 0'' the double -122.4. *)
Theorem gps_conversion_rounded (v0 v1 v2 : MetadataExtractor.Ratio)
    (rest : list MetadataExtractor.Ratio) (pr : string)
    (gps_ref : option MetadataExtractor.IfdTag)
    (Hfits : forall v, v ∈ [v0; v1; v2] ->
               fits_double (MetadataExtractor.num v)
               /\ fits_double (MetadataExtractor.den v)
               /\ MetadataExtractor.den v <> 0) :
  let coordinate :=
    Py.double_round (if south_or_west gps_ref then Py.double_neg (dms_double v0 v1 v2)
                     else dms_double v0 v1 v2) 6 in
  MetadataExtractor._convert_gps_to_decimal
    {| MetadataExtractor.printable := pr;
       MetadataExtractor.values := v0 :: v1 :: v2 :: rest |} gps_ref
  = Some coordinate
  /\ ((forall v, v ∈ [v0; v1; v2] -> unsigned_ratio v) ->
      coordinate <> S754_nan /\ Py.double_sign coordinate = south_or_west gps_ref)
  /\ MetadataExtractor._convert_gps_to_decimal (Sample.dms 37 48 0) (Sample.hemisphere "N")
     = Some (Py.double_of_decimal false 378 1)
  /\ MetadataExtractor._convert_gps_to_decimal (Sample.dms 122 24 0) (Sample.hemisphere "W")
     = Some (Py.double_of_decimal true 1224 1).
Proof.
  cbv zeta.
  assert (H0 := Hfits v0 ltac:(rewrite !elem_of_cons; auto)).
  assert (H1 := Hfits v1 ltac:(rewrite !elem_of_cons; auto)).
  assert (H2 := Hfits v2 ltac:(rewrite !elem_of_cons; auto)).
  destruct H0 as (Hn0 & Hd0 & Hz0), H1 as (Hn1 & Hd1 & Hz1), H2 as (Hn2 & Hd2 & Hz2).
  split; [|split; [|split; vm_compute; reflexivity]].
  - unfold MetadataExtractor._convert_gps_to_decimal. simpl.
    rewrite !ratio_to_float_ok by assumption.
    destruct sixty_finite as [E60 E3600].
    unfold Py.double_div. rewrite E60, E3600. rewrite <- E60, <- E3600.
    unfold south_or_west, dms_double.
    destruct gps_ref as [ref|]; [|reflexivity].
    destruct (bool_decide _); reflexivity.
  - intros Hu.
    assert (U0 := Hu v0 ltac:(rewrite !elem_of_cons; auto)).
    assert (U1 := Hu v1 ltac:(rewrite !elem_of_cons; auto)).
    assert (U2 := Hu v2 ltac:(rewrite !elem_of_cons; auto)).
    assert (Hdec : not_negative (dms_double v0 v1 v2)).
    { unfold dms_double. destruct sixty_finite as [-> ->].
      apply SFadd_not_negative; [apply SFadd_not_negative|].
      - by apply quotient_not_negative.
      - apply SFdiv_not_negative. by apply quotient_not_negative.
      - apply SFdiv_not_negative. by apply quotient_not_negative. }
    destruct Hdec as [Hnan Hsign].
    destruct (south_or_west gps_ref).
    + unfold Py.double_neg. rewrite double_round_opp.
      destruct (double_round_sign (dms_double v0 v1 v2) 6 Hnan) as [Hr Hs].
      destruct (SFopp_sign _ Hr) as [Hr' Hs'].
      split; [exact Hr'|]. by rewrite Hs', Hs, Hsign.
    + destruct (double_round_sign (dms_double v0 v1 v2) 6 Hnan) as [Hr Hs].
      split; [exact Hr|]. by rewrite Hs, Hsign.
Qed.

Lemma gps_conversion_rounded_witness :
  MetadataExtractor._convert_gps_to_decimal
    {| MetadataExtractor.printable := "[51, 30, 26]";
       MetadataExtractor.values :=
         [ {| MetadataExtractor.num := 51; MetadataExtractor.den := 1 |};
           {| MetadataExtractor.num := 30; MetadataExtractor.den := 1 |};
           {| MetadataExtractor.num := 2611; MetadataExtractor.den := 100 |} ] |}
    (Sample.hemisphere "S")
  = Some (Py.double_of_decimal true 51507253 6).
Proof.
  pose proof (gps_conversion_rounded
    {| MetadataExtractor.num := 51; MetadataExtractor.den := 1 |}
    {| MetadataExtractor.num := 30; MetadataExtractor.den := 1 |}
    {| MetadataExtractor.num := 2611; MetadataExtractor.den := 100 |}
    [] "[51, 30, 26]" (Sample.hemisphere "S")
    ltac:(intros v Hv; rewrite !elem_of_cons in Hv;
          destruct Hv as [->|[->|[->|Hv]]]; [..|by apply elem_of_nil in Hv];
          repeat split; try (vm_compute; reflexivity); simpl; discriminate)) as [E _].
  rewrite E. vm_compute. reflexivity.
Defined.

(* ===================================================================== *)
(** * Scores of the search results (vector_store.py) *)
(* ===================================================================== *)

(** C1 (as stated, refuted): a stored image at cosine distance 1/1861 of
    the query is returned with score 0.9995, not [max(0, 1 - d)], and with
    match percentage 99.9, not [round(0.9995 * 100, 1) = 100.0]. *)
Lemma returned_score_is_rounded :
  exists h d,
    @VectorStore.search_images Sample.unit_space Sample.one_image [1%Q; 0%Q] 10 = Ok [h]
    /\ d = @Chroma.cosine_distance Sample.unit_space [1%Q; 0%Q] [1860 # 1861; 61 # 1861]
    /\ (0 <= d)%Q
    /\ ~ (VectorStore.score h == Py.max 0 (1 - d))%Q
    /\ ~ (VectorStore.match_percentage h
          == Py.round (VectorStore.score h * 100) 1)%Q.
Proof.
  eexists _, _. split; [vm_compute; reflexivity|].
  split; [reflexivity|].
  split; [vm_compute; discriminate|].
  split; intros E; vm_compute in E; discriminate E.
Qed.

(** C1 (amended): every entry returned by [search_images] or
    [search_documents] belongs to a record of the searched collection; with
    [d] the cosine distance of that record, its score is
    [round(max(0, 1 - d), 4)], its match percentage is
    [round(max(0, 1 - d) * 100, 1)], computed from the unrounded score, and
    when [d] is not negative the score lies between 0 and 1. *)
Theorem search_hit_scores `{Chroma.Space} (st : VectorStore.t) (c : Chroma.collection)
    (q : list Py.float) (k : Z) (hits : list VectorStore.hit) (h : VectorStore.hit)
    (Hsearch : (VectorStore.search_images st q k = Ok hits
                /\ c = VectorStore.image_collection st)
               \/ (VectorStore.search_documents st q k = Ok hits
                   /\ c = VectorStore.doc_collection st))
    (Hin : In h hits) :
  exists r,
    c !! VectorStore.id h = Some r
    /\ let d := Chroma.cosine_distance q (Chroma.rec_embedding r) in
       VectorStore.score h = Py.round (Py.max 0 (1 - d)%Q) 4
       /\ VectorStore.match_percentage h = Py.round (Py.max 0 (1 - d) * 100)%Q 1
       /\ ((0 <= d)%Q -> (0 <= VectorStore.score h)%Q /\ (VectorStore.score h <= 1)%Q).
Proof.
  assert (Hs : search_collection c q k = Ok hits).
  { destruct Hsearch as [[Hs ->]|[Hs ->]]; exact Hs. }
  destruct (search_collection_hits c q k hits h Hs Hin) as [r [Hr Hh]].
  exists r. split; [exact Hr|]. cbv zeta.
  rewrite Hh at 1 2 3 4. simpl. unfold raw_score.
  split; [reflexivity|]. split; [reflexivity|].
  intros Hd. apply round_unit_interval; [apply max_zero_nonneg | by apply max_zero_le_one].
Qed.

Lemma search_hit_scores_witness :
  exists r,
    VectorStore.image_collection Sample.one_image !! "a" = Some r
    /\ (1999 # 2000 = Py.round (Py.max 0 (1 - (1 # 1861))%Q) 4)%Q.
Proof.
  destruct (@search_hit_scores Sample.unit_space Sample.one_image
              (VectorStore.image_collection Sample.one_image) [1%Q; 0%Q] 10
              [ {| VectorStore.id := "a"; VectorStore.score := 1999 # 2000;
                   VectorStore.match_percentage := 999 # 10;
                   VectorStore.metadata := ∅;
                   VectorStore.text_preview := "Image: a.jpg" |} ]
              {| VectorStore.id := "a"; VectorStore.score := 1999 # 2000;
                 VectorStore.match_percentage := 999 # 10;
                 VectorStore.metadata := ∅;
                 VectorStore.text_preview := "Image: a.jpg" |}
              ltac:(left; split; [vm_compute; reflexivity | reflexivity])
              ltac:(simpl; left; reflexivity)) as [r [Hr _]].
  exists r. split; [exact Hr|]. vm_compute. reflexivity.
Defined.

(* ===================================================================== *)
(** * Clamping and the empty collection (vector_store.py) *)
(* ===================================================================== *)

Lemma n_results_nonempty k c :
  Chroma.count c <> 0 -> VectorStore.n_results k c = Z.min k (Chroma.count c).
Proof.
  intros Hc. unfold VectorStore.n_results, VectorStore.count_or_1, Py.min.
  apply Z.eqb_neq in Hc. rewrite Hc. destruct (_ <? k) eqn:E; lia.
Qed.

Lemma n_results_empty k c :
  1 <= k -> Chroma.count c = 0 -> VectorStore.n_results k c = 1.
Proof.
  intros Hk Hc. unfold VectorStore.n_results, VectorStore.count_or_1, Py.min.
  rewrite Hc. simpl. destruct (1 <? k) eqn:E; lia.
Qed.

Lemma count_zero_empty (c : Chroma.collection) : Chroma.count c = 0 -> c = ∅.
Proof.
  unfold Chroma.count. intros Hc. apply map_size_empty_iff. lia.
Qed.

(** C5: for [k >= 1] the [n_results] of a search is [min(k, count())]
    when the collection has records and 1 when it is empty; this is the
    number that [search_images] and [search_documents] hand to the [query]
    method of their collection, whatever that method does with it; and the
    search of an empty collection returns the empty list instead of
    raising. *)
Theorem search_clamps_n_results `{Chroma.Space} (st : VectorStore.t)
    (q : list Py.float) (k : Z) (Hk : 1 <= k) :
  let images := VectorStore.image_collection st in
  let documents := VectorStore.doc_collection st in
  (forall c, Chroma.count c <> 0 -> VectorStore.n_results k c = Z.min k (Chroma.count c))
  /\ (forall c, Chroma.count c = 0 -> VectorStore.n_results k c = 1)
  /\ (forall query c,
        VectorStore.search_with query c q k =
          match query q (if Chroma.count c =? 0 then 1 else Z.min k (Chroma.count c)) c with
          | Raise e => Raise e
          | Ok raw => VectorStore._format_results raw
          end)
  /\ VectorStore.search_images st q k = VectorStore.search_with Chroma.query images q k
  /\ VectorStore.search_documents st q k = VectorStore.search_with Chroma.query documents q k
  /\ (Chroma.count images = 0 -> VectorStore.search_images st q k = Ok [])
  /\ (Chroma.count documents = 0 -> VectorStore.search_documents st q k = Ok []).
Proof.
  cbv zeta.
  assert (Hempty : forall c, Chroma.count c = 0 -> search_collection c q k = Ok []).
  { intros c Hc. rewrite (count_zero_empty c Hc). by apply search_collection_empty. }
  split; [|split; [|split; [|split; [|split; [|split]]]]].
  - intros c. apply n_results_nonempty.
  - intros c. by apply n_results_empty.
  - intros query c. unfold VectorStore.search_with.
    destruct (Chroma.count c =? 0) eqn:E.
    + apply Z.eqb_eq in E. by rewrite n_results_empty.
    + apply Z.eqb_neq in E. by rewrite n_results_nonempty.
  - reflexivity.
  - reflexivity.
  - apply Hempty.
  - apply Hempty.
Qed.

Lemma search_clamps_n_results_witness :
  VectorStore.n_results 5 (VectorStore.image_collection Sample.empty_store) = 1
  /\ VectorStore.n_results 5 (VectorStore.image_collection Sample.one_image) = 1
  /\ @VectorStore.search_images Sample.unit_space Sample.empty_store [1%Q; 0%Q] 5 = Ok []
  /\ @VectorStore.search_documents Sample.unit_space Sample.empty_store [1%Q; 0%Q] 5 = Ok [].
Proof.
  pose proof (@search_clamps_n_results Sample.unit_space Sample.empty_store [1%Q; 0%Q] 5
                ltac:(lia)) as (Hfull & Hnone & _ & _ & _ & Hi & Hd).
  split; [apply Hnone; vm_compute; reflexivity|].
  split; [rewrite Hfull by (vm_compute; discriminate); vm_compute; reflexivity|].
  split.
  - apply Hi. vm_compute. reflexivity.
  - apply Hd. vm_compute. reflexivity.
Defined.

(* ===================================================================== *)
(** * Metadata sanitisation (vector_store.py) *)
(* ===================================================================== *)

Lemma keep_value_present v : VectorStore.keep_value v = true <-> present v.
Proof.
  unfold present. destruct v as [|[|a s]|z|q|b]; simpl; split; try done; intros [? ?]; done.
Qed.

Lemma clean_meta_lookup (m : metadata_dict) key v :
  VectorStore.clean_meta m !! key = Some v <-> m !! key = Some v /\ present v.
Proof.
  unfold VectorStore.clean_meta. rewrite map_lookup_filter_Some. simpl.
  by rewrite keep_value_present.
Qed.

Lemma clean_meta_present (m : metadata_dict) key v :
  VectorStore.clean_meta m !! key = Some v -> present v.
Proof. intros Hk. by apply clean_meta_lookup in Hk as [_ Hp]. Qed.

(** The sanitised dict is empty exactly when no value of the dict is
    worth keeping. *)
Lemma clean_meta_empty (m : metadata_dict) :
  size (VectorStore.clean_meta m) = 0%nat <-> forall key v, m !! key = Some v -> ~ present v.
Proof.
  rewrite map_size_empty_iff, map_empty. split.
  - intros He key v Hk Hp.
    specialize (He key).
    assert (Hs : VectorStore.clean_meta m !! key = Some v) by (by apply clean_meta_lookup).
    congruence.
  - intros Hn key.
    destruct (VectorStore.clean_meta m !! key) as [v|] eqn:E; [|reflexivity].
    apply clean_meta_lookup in E as [Hk Hp]. by destruct (Hn key v Hk).
Qed.

(** What the collection's [upsert] does when it accepts the call. *)
Lemma upsert_inv id e m d c c' :
  Chroma.upsert id e m d c = Ok c' ->
  size m <> 0%nat
  /\ c' = <[id := {| Chroma.rec_embedding := e;
                     Chroma.rec_metadata :=
                       match c !! id with
                       | Some old => m ∪ Chroma.rec_metadata old
                       | None => m
                       end;
                     Chroma.rec_document := d |}]> c.
Proof.
  unfold Chroma.upsert. destruct (Nat.eqb (size m) 0) eqn:E; [discriminate|].
  apply Nat.eqb_neq in E. intros [= <-]. by split.
Qed.

Lemma upsert_accepts id e m d c :
  size m <> 0%nat -> exists c', Chroma.upsert id e m d c = Ok c'.
Proof.
  intros Hm. unfold Chroma.upsert.
  apply Nat.eqb_neq in Hm. rewrite Hm. by eexists.
Qed.

Lemma upsert_rejects id e m d c :
  size m = 0%nat -> exists msg, Chroma.upsert id e m d c = Raise msg.
Proof. intros Hm. unfold Chroma.upsert. rewrite Hm. simpl. by eexists. Qed.

(** Under an id the collection does not hold, an accepted upsert writes
    the record as given. *)
Lemma upsert_fresh id e m d c :
  size m <> 0%nat -> c !! id = None -> Chroma.upsert id e m d c = Ok (written id e m d c).
Proof.
  intros Hm Hid. unfold Chroma.upsert, written.
  apply Nat.eqb_neq in Hm. by rewrite Hm, Hid.
Qed.

(** An accepted upsert of a sanitised dict leaves [persisted]. *)
Lemma upsert_persisted id e (m : metadata_dict) d c c' :
  Chroma.upsert id e (VectorStore.clean_meta m) d c = Ok c' ->
  persisted m id c c'.
Proof.
  intros Hu. apply upsert_inv in Hu as [_ ->].
  eexists. split; [apply lookup_insert_eq|]. simpl.
  split; [|split; [|split; [|split]]].
  - intros key v Hk Hp.
    assert (Hc : VectorStore.clean_meta m !! key = Some v) by (by apply clean_meta_lookup).
    destruct (c !! id); [|exact Hc].
    by apply lookup_union_Some_l.
  - intros key v Hk.
    destruct (c !! id) as [old|] eqn:Eid.
    + apply lookup_union_Some_raw in Hk as [Hk|[Hnone Hold]].
      * left. by apply clean_meta_lookup.
      * right. split.
        -- intros w Hw Hp.
           assert (VectorStore.clean_meta m !! key = Some w) by (by apply clean_meta_lookup).
           congruence.
        -- by exists old.
    + left. by apply clean_meta_lookup.
  - intros Hid key v. rewrite Hid. apply clean_meta_lookup.
  - intros i Hi. by apply lookup_insert_ne.
  - intros Hs i r key v Hi Hk.
    destruct (decide (i = id)) as [->|Hne].
    + rewrite lookup_insert_eq in Hi. injection Hi as <-. simpl in Hk.
      destruct (c !! id) as [old|] eqn:Eid.
      * apply lookup_union_Some_raw in Hk as [Hk|[_ Hold]].
        -- by apply clean_meta_present in Hk.
        -- by apply (Hs id old key v).
      * by apply clean_meta_present in Hk.
    + rewrite lookup_insert_ne in Hi by done. by apply (Hs i r key v).
Qed.

(** C6: when [upsert_image] or [upsert_document] returns, the record
    stored under the id of the path holds every pair of the given metadata
    whose value is neither [None] nor the empty string, with its value,
    and no pair of the given metadata whose value is [None] or the empty
    string: a stored pair is a kept pair of the given metadata or, for a
    key that has no such pair, a pair of the record that was stored
    before.  Under an id that was not stored the record holds exactly the
    kept pairs.  The other records and the other collection stay, and a
    store without [None] and empty values stays so.  When the given
    metadata has no pair to keep, the collection refuses the call with an
    exception and nothing is stored. *)
Theorem upsert_sanitizes_metadata `{Hashlib} `{OS} (st : VectorStore.t) (file_path : string)
    (e : list Py.float) (m : metadata_dict) (text : string) :
  (forall st',
     VectorStore.upsert_image st file_path e m text = Ok st' ->
     persisted m (VectorStore._file_id file_path)
       (VectorStore.image_collection st) (VectorStore.image_collection st')
     /\ VectorStore.doc_collection st' = VectorStore.doc_collection st)
  /\ (forall st',
     VectorStore.upsert_document st file_path e m text = Ok st' ->
     persisted m (VectorStore._file_id file_path)
       (VectorStore.doc_collection st) (VectorStore.doc_collection st')
     /\ VectorStore.image_collection st' = VectorStore.image_collection st)
  /\ ((forall key v, m !! key = Some v -> ~ present v) ->
     (exists msg, VectorStore.upsert_image st file_path e m text = Raise msg)
     /\ (exists msg, VectorStore.upsert_document st file_path e m text = Raise msg)).
Proof.
  unfold VectorStore.upsert_image, VectorStore.upsert_document.
  split; [|split].
  - intros st'.
    destruct (Chroma.upsert _ _ _ _ (VectorStore.image_collection st)) as [c'|] eqn:Hc;
      [|discriminate].
    intros [= <-]. simpl. split; [|reflexivity]. by eapply upsert_persisted.
  - intros st'.
    destruct (Chroma.upsert _ _ _ _ (VectorStore.doc_collection st)) as [c'|] eqn:Hc;
      [|discriminate].
    intros [= <-]. simpl. split; [|reflexivity]. by eapply upsert_persisted.
  - intros Hn. apply clean_meta_empty in Hn.
    split.
    + destruct (upsert_rejects (VectorStore._file_id file_path) e (VectorStore.clean_meta m)
                  (VectorStore.str_or text ("Image: " ++ VectorStore.file_name_of m)%string)
                  (VectorStore.image_collection st) Hn) as [msg Hc].
      rewrite Hc. by eexists.
    + destruct (upsert_rejects (VectorStore._file_id file_path) e (VectorStore.clean_meta m)
                  (VectorStore.str_or (Py.str_slice_to 5000 text)
                     ("Document: " ++ VectorStore.file_name_of m)%string)
                  (VectorStore.doc_collection st) Hn) as [msg Hc].
      rewrite Hc. by eexists.
Qed.

(** An image record with an empty [camera_make] and a missing
    [date_taken] is stored with its [file_name] alone. *)
Lemma upsert_sanitizes_metadata_witness :
  exists st',
    @VectorStore.upsert_image Sample.hashlib Sample.os Sample.empty_store "/photos/a.jpg"
      [1%Q; 0%Q] Sample.raw_metadata "a photo" = Ok st'
    /\ persisted Sample.raw_metadata (@VectorStore._file_id Sample.hashlib "/photos/a.jpg")
         (VectorStore.image_collection Sample.empty_store) (VectorStore.image_collection st')
    /\ VectorStore.doc_collection st' = VectorStore.doc_collection Sample.empty_store.
Proof.
  eexists. split; [vm_compute; reflexivity|].
  apply (proj1 (@upsert_sanitizes_metadata Sample.hashlib Sample.os Sample.empty_store
                  "/photos/a.jpg" [1%Q; 0%Q] Sample.raw_metadata "a photo")).
  vm_compute. reflexivity.
Defined.

(* ===================================================================== *)
(** * The query engine (query_engine.py) *)
(* ===================================================================== *)

Lemma firstn_all_le {A} (l : list A) n : (length l <= n)%nat -> firstn n l = l.
Proof. intros Hn. by apply firstn_all2. Qed.

Lemma slice_to_all {A} (l : list A) k :
  Z.of_nat (length l) <= k -> Py.slice_to k l = l.
Proof.
  intros Hk. unfold Py.slice_to. destruct (0 <=? k) eqn:E; [|lia].
  apply firstn_all_le. lia.
Qed.

Section QueryFacts.
Context `{QueryEngine.Json} `{Models} `{Chroma.Space}.

Lemma collect_sorted self rq k scope :
  sorted_by_score_desc (QueryEngine.collect self rq k scope).
Proof. unfold QueryEngine.collect. apply slice_to_sorted, sort_desc_sorted. Qed.

Lemma collect_length self rq k scope :
  0 <= k -> Z.of_nat (length (QueryEngine.collect self rq k scope)) <= k.
Proof. intros Hk. unfold QueryEngine.collect. by apply slice_to_length. Qed.

Lemma search_results self q k scope :
  QueryEngine.results (QueryEngine.search self q k scope) =
    QueryEngine.collect self (snd (QueryEngine.parse_step self q)) k
      (QueryEngine.effective_search_type (fst (QueryEngine.parse_step self q)) scope).
Proof.
  unfold QueryEngine.search. by destruct (QueryEngine.parse_step self q).
Qed.

(** A modality search that returns gives at most [k] entries, for a
    [k] that is at least 1. *)
Lemma image_try_length self rq k hits :
  QueryEngine.image_try self rq k = Ok hits -> 1 <= k /\ Z.of_nat (length hits) <= k.
Proof.
  unfold QueryEngine.image_try. destruct (get_text_clip_embedding rq); [|discriminate].
  intros Hs. change (search_collection
    (VectorStore.image_collection (QueryEngine.store self)) a k = Ok hits) in Hs.
  pose proof (search_collection_returns _ _ _ _ Hs) as Hk.
  split; [done|]. by eapply search_collection_length.
Qed.

Lemma document_try_length self rq k hits :
  QueryEngine.document_try self rq k = Ok hits -> 1 <= k /\ Z.of_nat (length hits) <= k.
Proof.
  unfold QueryEngine.document_try. destruct (get_sentence_embedding rq); [|discriminate].
  intros Hs. change (search_collection
    (VectorStore.doc_collection (QueryEngine.store self)) a k = Ok hits) in Hs.
  pose proof (search_collection_returns _ _ _ _ Hs) as Hk.
  split; [done|]. by eapply search_collection_length.
Qed.

(** With search type "all": the entries of the one modality that
    answered, sorted; nothing when neither answered. *)
Lemma collect_all self rq k :
  QueryEngine.collect self rq k "all" =
    Py.slice_to k (Py.sort_desc VectorStore.score
      (QueryEngine.extend_or_log
         (QueryEngine.extend_or_log [] (QueryEngine.image_try self rq k))
         (QueryEngine.document_try self rq k))).
Proof. reflexivity. Qed.
End QueryFacts.

(** C3: for [k >= 1] the results of [search] are at most [k] and their
    scores do not increase along the list, whatever the query, the scope,
    the store and the behaviour of the parser and of the models. *)
Theorem search_top_k_sorted `{QueryEngine.Json} `{Models} `{Chroma.Space}
    (self : QueryEngine.t) (q : string) (k : Z) (scope : string) (Hk : 1 <= k) :
  Z.of_nat (length (QueryEngine.results (QueryEngine.search self q k scope))) <= k
  /\ sorted_by_score_desc (QueryEngine.results (QueryEngine.search self q k scope))
  /\ QueryEngine.total_results (QueryEngine.search self q k scope)
     = Z.of_nat (length (QueryEngine.results (QueryEngine.search self q k scope))).
Proof.
  split; [|split].
  - rewrite search_results. apply collect_length. lia.
  - rewrite search_results. apply collect_sorted.
  - unfold QueryEngine.search. by destruct (QueryEngine.parse_step self q).
Qed.

Lemma search_top_k_sorted_witness :
  let r := @QueryEngine.search Sample.no_json Sample.models Sample.unit_space
             {| QueryEngine.store := Sample.one_image; QueryEngine.gemini_model := None |}
             "cats" 3 "all" in
  Z.of_nat (length (QueryEngine.results r)) <= 3
  /\ sorted_by_score_desc (QueryEngine.results r)
  /\ QueryEngine.total_results r = Z.of_nat (length (QueryEngine.results r)).
Proof.
  cbv zeta.
  apply (@search_top_k_sorted Sample.no_json Sample.models Sample.unit_space
           {| QueryEngine.store := Sample.one_image; QueryEngine.gemini_model := None |}
           "cats" 3 "all").
  lia.
Defined.

(** C7: when the search type in force after step 2 is "all", an
    exception in the image block leaves the results of the document block
    to be returned, all of them and sorted, and the other way round; when
    both blocks raise the results are the empty list.  [search] itself
    returns in every case. *)
Theorem search_all_isolates_failures `{QueryEngine.Json} `{Models} `{Chroma.Space}
    (self : QueryEngine.t) (q : string) (k : Z) (scope : string)
    (Hall : QueryEngine.effective_search_type
              (fst (QueryEngine.parse_step self q)) scope = "all") :
  let rq := snd (QueryEngine.parse_step self q) in
  let out := QueryEngine.results (QueryEngine.search self q k scope) in
  (forall e docs,
      QueryEngine.image_try self rq k = Raise e ->
      QueryEngine.document_try self rq k = Ok docs ->
      out = Py.sort_desc VectorStore.score docs /\ Permutation out docs)
  /\ (forall e imgs,
      QueryEngine.document_try self rq k = Raise e ->
      QueryEngine.image_try self rq k = Ok imgs ->
      out = Py.sort_desc VectorStore.score imgs /\ Permutation out imgs)
  /\ (forall e1 e2,
      QueryEngine.image_try self rq k = Raise e1 ->
      QueryEngine.document_try self rq k = Raise e2 ->
      out = []).
Proof.
  cbv zeta. rewrite search_results, Hall, collect_all.
  split; [|split].
  - intros e docs Hi Hd. rewrite Hi, Hd. simpl.
    apply document_try_length in Hd as [Hk Hlen].
    rewrite slice_to_all.
    + split; [reflexivity | apply sort_desc_perm].
    + unfold Py.sort_desc. by rewrite stable_sort_length.
  - intros e imgs Hd Hi. rewrite Hi, Hd. simpl.
    apply image_try_length in Hi as [Hk Hlen].
    rewrite slice_to_all.
    + split; [reflexivity | apply sort_desc_perm].
    + unfold Py.sort_desc. by rewrite stable_sort_length.
  - intros e1 e2 Hi Hd. rewrite Hi, Hd. simpl.
    unfold Py.slice_to. destruct (0 <=? k); by rewrite firstn_nil.
Qed.

Lemma search_all_isolates_failures_witness :
  QueryEngine.results
    (@QueryEngine.search Sample.no_json Sample.models_without_clip Sample.unit_space
       {| QueryEngine.store := Sample.one_document; QueryEngine.gemini_model := None |}
       "cats" 5 "all")
  = [ {| VectorStore.id := "d"; VectorStore.score := 1;
         VectorStore.match_percentage := 100;
         VectorStore.metadata := {[ "file_name" := VStr "notes.txt" ]};
         VectorStore.text_preview := "meeting notes about cats" |} ].
Proof.
  pose proof (@search_all_isolates_failures Sample.no_json Sample.models_without_clip
                Sample.unit_space
                {| QueryEngine.store := Sample.one_document;
                   QueryEngine.gemini_model := None |}
                "cats" 5 "all" ltac:(reflexivity)) as [Hdocs _].
  destruct (Hdocs "clip failed"
              [ {| VectorStore.id := "d"; VectorStore.score := 1;
                   VectorStore.match_percentage := 100;
                   VectorStore.metadata := {[ "file_name" := VStr "notes.txt" ]};
                   VectorStore.text_preview := "meeting notes about cats" |} ]
              ltac:(reflexivity) ltac:(vm_compute; reflexivity)) as [E _].
  rewrite E. reflexivity.
Defined.

(** ** Fallback of the intent parser *)

Lemma parse_try_raises_on_call `{QueryEngine.Json} g q e :
  g (QueryEngine.prompt q) = Raise e -> QueryEngine._parse_intent_try g q = Raise e.
Proof. intros Hg. unfold QueryEngine._parse_intent_try. by rewrite Hg. Qed.

Lemma parse_try_raises_on_malformed `{QueryEngine.Json} g q text e :
  g (QueryEngine.prompt q) = Ok text ->
  QueryEngine.json_loads (QueryEngine.strip_fences (Py.strip text)) = Raise e ->
  QueryEngine._parse_intent_try g q = Raise e.
Proof. intros Hg Hj. unfold QueryEngine._parse_intent_try. by rewrite Hg, Hj. Qed.

Lemma parse_step_fallback `{QueryEngine.Json} self q :
  QueryEngine.gemini_model self = None
  \/ (exists g e, QueryEngine.gemini_model self = Some g
                  /\ QueryEngine._parse_intent_try g q = Raise e) ->
  QueryEngine.parse_step self q = ([], JStr q).
Proof.
  unfold QueryEngine.parse_step, QueryEngine._parse_intent.
  intros [->|(g & e & -> & ->)]; [reflexivity|].
  simpl. by destruct (Py.str_truthy q).
Qed.

(** C4: when the engine has no Gemini model, or the call of the parser
    raises (the request fails, the answer is not JSON, the JSON is not an
    object), [search] returns, and what it returns is what the engine
    without a model returns: the query text itself is embedded, the intent
    is empty and the search type is the one the caller passed. *)
Theorem search_falls_back_without_intent `{QueryEngine.Json} `{Models} `{Chroma.Space}
    (self : QueryEngine.t) (q : string) (k : Z) (scope : string)
    (Hfail : QueryEngine.gemini_model self = None
             \/ (exists g e, QueryEngine.gemini_model self = Some g
                             /\ QueryEngine._parse_intent_try g q = Raise e)) :
  let skipped := {| QueryEngine.store := QueryEngine.store self;
                    QueryEngine.gemini_model := None |} in
  QueryEngine.search self q k scope = QueryEngine.search skipped q k scope
  /\ QueryEngine.refined_query (QueryEngine.search self q k scope) = JStr q
  /\ QueryEngine.intent (QueryEngine.search self q k scope) = []
  /\ QueryEngine.results (QueryEngine.search self q k scope)
     = QueryEngine.collect self (JStr q) k scope.
Proof.
  cbv zeta. unfold QueryEngine.search.
  rewrite (parse_step_fallback self q Hfail).
  repeat split.
Qed.

Lemma search_falls_back_without_intent_witness :
  let self := {| QueryEngine.store := Sample.one_document;
                 QueryEngine.gemini_model := Some Sample.unreachable_gemini |} in
  let skipped := {| QueryEngine.store := Sample.one_document;
                    QueryEngine.gemini_model := None |} in
  @QueryEngine.search Sample.no_json Sample.models Sample.unit_space self "cats" 5 "all"
  = @QueryEngine.search Sample.no_json Sample.models Sample.unit_space skipped "cats" 5 "all".
Proof.
  cbv zeta.
  apply (@search_falls_back_without_intent Sample.no_json Sample.models Sample.unit_space
           {| QueryEngine.store := Sample.one_document;
              QueryEngine.gemini_model := Some Sample.unreachable_gemini |}
           "cats" 5 "all").
  right. exists Sample.unreachable_gemini, "503 service unavailable".
  split; reflexivity.
Defined.

(** ** The fields of the metadata that [ingest_file] builds *)

Section MetadataFields.
Context `{Hashlib} `{OS} `{MetadataExtractor.Exifread} `{Models} `{DocLibs}.

Lemma extract_file_metadata_file_type fp md :
  MetadataExtractor.extract_file_metadata fp = Ok md ->
  md !! "file_type" =
    Some (VStr (if bool_decide (Py.lower (path_suffix fp) ∈ Config.IMAGE_EXTENSIONS)
                then "image" else "document")).
Proof.
  unfold MetadataExtractor.extract_file_metadata.
  destruct (path_stat fp); [|discriminate]. intros [= <-].
  rewrite !lookup_insert_ne by discriminate. by rewrite lookup_insert_eq.
Qed.

Lemma copy_tag_other tags key field exif k :
  k <> field -> MetadataExtractor.copy_tag tags key field exif !! k = exif !! k.
Proof.
  intros Hk. unfold MetadataExtractor.copy_tag.
  destruct (tags !! key); [by rewrite lookup_insert_ne|reflexivity].
Qed.

(** The keys that [extract_exif_metadata] may set. *)
Lemma extract_exif_metadata_keys fp k v :
  MetadataExtractor.extract_exif_metadata fp !! k = Some v ->
  k ∈ ["camera_make"; "camera_model"; "capture_date"; "gps_latitude"; "gps_longitude"].
Proof.
  intros Hk.
  destruct (decide (k ∈ ["camera_make"; "camera_model"; "capture_date";
                         "gps_latitude"; "gps_longitude"])) as [|Hn]; [done|].
  exfalso. rewrite !not_elem_of_cons in Hn. destruct Hn as (N1 & N2 & N3 & N4 & N5 & _).
  revert Hk. unfold MetadataExtractor.extract_exif_metadata.
  destruct (MetadataExtractor.process_file fp) as [tags|]; [|by rewrite lookup_empty].
  assert (Hbase : forall exif0 : gmap string string,
            exif0 !! k = None ->
            (match tags !! "EXIF DateTimeOriginal" with
             | Some t => <["capture_date" := MetadataExtractor._safe_str (Some t)]> exif0
             | None => MetadataExtractor.copy_tag tags "Image DateTime" "capture_date" exif0
             end) !! k = None).
  { intros exif0 Hk0. destruct (tags !! "EXIF DateTimeOriginal").
    - by rewrite lookup_insert_ne.
    - by rewrite copy_tag_other. }
  cbv zeta.
  set (exif3 := match tags !! "EXIF DateTimeOriginal" with
                | Some t => _ | None => _ end).
  assert (Hexif3 : exif3 !! k = None).
  { subst exif3. apply Hbase. rewrite !copy_tag_other by done. apply lookup_empty. }
  destruct (tags !! "GPS GPSLatitude"), (tags !! "GPS GPSLongitude");
    try (rewrite Hexif3; discriminate).
  repeat match goal with
         | |- context [MetadataExtractor._convert_gps_to_decimal ?a ?b] =>
             destruct (MetadataExtractor._convert_gps_to_decimal a b)
         end;
    rewrite ?lookup_insert_ne by done; rewrite Hexif3; discriminate.
Qed.

Lemma update_with_exif_file_type md fp :
  Main.update_with_exif md (MetadataExtractor.extract_exif_metadata fp) !! "file_type"
  = md !! "file_type".
Proof.
  unfold Main.update_with_exif. apply lookup_union_r. rewrite lookup_fmap.
  destruct (MetadataExtractor.extract_exif_metadata fp !! "file_type") eqn:E; [|done].
  apply extract_exif_metadata_keys in E. rewrite !elem_of_cons in E.
  destruct E as [E|[E|[E|[E|[E|E]]]]]; try discriminate E. by apply elem_of_nil in E.
Qed.

Lemma add_tags_file_type md tags :
  Main.add_tags md tags !! "file_type" = md !! "file_type".
Proof.
  unfold Main.add_tags. destruct tags as [|[top sc] tags]; [reflexivity|].
  by rewrite !lookup_insert_ne by discriminate.
Qed.
End MetadataFields.

(* ===================================================================== *)
(** * Ingestion (main.py, doc_processor.py) *)
(* ===================================================================== *)

Lemma document_extension_not_image ext :
  ext ∈ Config.DOCUMENT_EXTENSIONS -> ext ∉ Config.IMAGE_EXTENSIONS.
Proof.
  unfold Config.DOCUMENT_EXTENSIONS, Config.IMAGE_EXTENSIONS.
  rewrite !elem_of_union, !elem_of_singleton.
  intros [[[->| ->]| ->]| ->]; intros [[[[E|E]|E]|E]|E]; discriminate E.
Qed.

Lemma list_truthy_nil {A} (l : list A) : Py.list_truthy l = false <-> l = [].
Proof. destruct l; simpl; split; congruence. Qed.

Section IngestFacts.
Context `{Hashlib} `{OS} `{MetadataExtractor.Exifread} `{Models} `{DocLibs}.

Lemma is_file_indexed_spec st file_path :
  VectorStore.is_file_indexed st file_path = true <->
  is_Some (VectorStore.image_collection st !! VectorStore._file_id file_path)
  \/ is_Some (VectorStore.doc_collection st !! VectorStore._file_id file_path).
Proof.
  unfold VectorStore.is_file_indexed, Chroma.get_ids. simpl.
  destruct (bool_decide (is_Some (VectorStore.image_collection st !! _))) eqn:Ei;
    destruct (bool_decide (is_Some (VectorStore.doc_collection st !! _))) eqn:Ed;
    simpl;
    try apply bool_decide_eq_true_1 in Ei; try apply bool_decide_eq_true_1 in Ed;
    try apply bool_decide_eq_false_1 in Ei; try apply bool_decide_eq_false_1 in Ed;
    split; try tauto; try discriminate.
Qed.

Lemma is_file_indexed_fresh st file_path :
  VectorStore.is_file_indexed st file_path = false ->
  VectorStore.image_collection st !! VectorStore._file_id file_path = None
  /\ VectorStore.doc_collection st !! VectorStore._file_id file_path = None.
Proof.
  intros Hi.
  destruct (VectorStore.image_collection st !! _) eqn:Ei;
    destruct (VectorStore.doc_collection st !! _) eqn:Ed; [..|done];
    exfalso; apply not_true_iff_false in Hi; apply Hi, is_file_indexed_spec;
    rewrite ?Ei, ?Ed; eauto.
Qed.

(** For a path that is not indexed and metadata with a value worth
    keeping the store accepts the upsert and writes a new record. *)
Lemma upsert_image_fresh st fp e (m : metadata_dict) t key v :
  VectorStore.is_file_indexed st fp = false ->
  m !! key = Some v -> present v ->
  VectorStore.upsert_image st fp e m t = Ok (stored_image st fp e m t).
Proof.
  intros Hi Hk Hp. apply is_file_indexed_fresh in Hi as [Hi _].
  unfold VectorStore.upsert_image, stored_image.
  rewrite upsert_fresh; [reflexivity| |exact Hi].
  intros Hz. by apply (proj1 (clean_meta_empty m) Hz key v).
Qed.

Lemma upsert_document_fresh st fp e (m : metadata_dict) t key v :
  VectorStore.is_file_indexed st fp = false ->
  m !! key = Some v -> present v ->
  VectorStore.upsert_document st fp e m t = Ok (stored_document st fp e m t).
Proof.
  intros Hi Hk Hp. apply is_file_indexed_fresh in Hi as [_ Hi].
  unfold VectorStore.upsert_document, stored_document.
  rewrite upsert_fresh; [reflexivity| |exact Hi].
  intros Hz. by apply (proj1 (clean_meta_empty m) Hz key v).
Qed.

Lemma file_type_present (b : bool) :
  present (VStr (if b then "image" else "document")).
Proof. destruct b; split; discriminate. Qed.

(** In [ingest_file] the store always accepts the upsert: the path is not
    indexed there and the metadata carries the [file_type] of the file. *)
Lemma ingest_file_outcome st p : Main.ingest_file st p = ingest_outcome st p.
Proof.
  unfold Main.ingest_file, ingest_outcome. cbv zeta.
  destruct (VectorStore.is_file_indexed st (path_resolve p)) eqn:Hi; [reflexivity|].
  destruct (MetadataExtractor.extract_file_metadata (path_resolve p)) as [md|] eqn:Hm;
    [|reflexivity].
  pose proof (extract_file_metadata_file_type _ _ Hm) as Hft.
  destruct (bool_decide (_ ∈ Config.IMAGE_EXTENSIONS)) eqn:Ei.
  - destruct (negb _); [reflexivity|].
    erewrite upsert_image_fresh; [reflexivity|exact Hi| |apply (file_type_present true)].
    by rewrite add_tags_file_type, update_with_exif_file_type.
  - destruct (bool_decide (_ ∈ Config.DOCUMENT_EXTENSIONS)); [|reflexivity].
    destruct (negb _); [reflexivity|].
    erewrite upsert_document_fresh; [reflexivity|exact Hi|exact Hft|].
    apply (file_type_present false).
Qed.

Lemma ingest_file_indexed st p :
  VectorStore.is_file_indexed st (path_resolve p) = true ->
  Main.ingest_file st p = untouched st.
Proof. intros Hi. unfold Main.ingest_file. by rewrite Hi. Qed.

(** The store after a call is the store before it with the logged
    upserts written. *)
Lemma ingest_file_store st p :
  Main.store_after (Main.ingest_file st p)
  = foldl applied st (Main.upserts (Main.ingest_file st p)).
Proof.
  rewrite !ingest_file_outcome. unfold ingest_outcome.
  repeat (match goal with
          | |- context [if ?b then _ else _] => destruct b
          | |- context [match ?x with Ok _ => _ | Raise _ => _ end] => destruct x
          end; try reflexivity).
Qed.

(** Each logged upsert is a call that the store accepted. *)
Lemma ingest_file_upserts_accepted st p c :
  Main.upserts (Main.ingest_file st p) = [c] ->
  Main.apply_upsert st c = Ok (Main.store_after (Main.ingest_file st p)).
Proof.
  unfold Main.ingest_file.
  repeat (match goal with
          | |- context [if ?b then _ else _] => destruct b
          | |- context [match ?x with Ok _ => _ | Raise _ => _ end] => destruct x eqn:?
          end; simpl; try discriminate);
    intros [= <-]; simpl; assumption.
Qed.

Lemma stored_image_indexed st fp e m t :
  VectorStore.is_file_indexed (stored_image st fp e m t) fp = true.
Proof.
  apply is_file_indexed_spec. left. simpl. unfold written.
  rewrite lookup_insert_eq. by eexists.
Qed.

Lemma stored_document_indexed st fp e m t :
  VectorStore.is_file_indexed (stored_document st fp e m t) fp = true.
Proof.
  apply is_file_indexed_spec. right. simpl. unfold written.
  rewrite lookup_insert_eq. by eexists.
Qed.

(** A call that upserts leaves the path indexed. *)
Lemma ingest_file_indexes st p :
  Main.upserts (Main.ingest_file st p) <> [] ->
  VectorStore.is_file_indexed (Main.store_after (Main.ingest_file st p))
    (path_resolve p) = true.
Proof.
  rewrite !ingest_file_outcome. unfold ingest_outcome.
  repeat (match goal with
          | |- context [if ?b then _ else _] => destruct b
          | |- context [match ?x with Ok _ => _ | Raise _ => _ end] => destruct x
          end; simpl; try congruence);
    intros _; first [apply stored_image_indexed | apply stored_document_indexed].
Qed.

Lemma process_image_embedding fp :
  embedding (ImageProcessor.process_image fp) =
    match clip_encode_image fp with Ok e => e | Raise _ => [] end.
Proof. unfold ImageProcessor.process_image. by destruct (clip_encode_image fp). Qed.

Lemma strip_empty : Py.strip EmptyString = EmptyString.
Proof. reflexivity. Qed.

Lemma insufficient_spec text :
  DocProcessor.insufficient text = true <-> Py.len (Py.strip text) < 10.
Proof.
  unfold DocProcessor.insufficient. rewrite orb_true_iff, Z.ltb_lt.
  split; [|tauto]. intros [Ht|Ht]; [|exact Ht].
  destruct text; [vm_compute; reflexivity | discriminate].
Qed.

Lemma process_document_short fp text :
  DocProcessor.extract_text fp = Some text ->
  Py.len (Py.strip text) < 10 ->
  DocProcessor.process_document fp = {| embedding := []; text_content := EmptyString |}.
Proof.
  intros Ht Hs. unfold DocProcessor.process_document. rewrite Ht.
  apply insufficient_spec in Hs. by rewrite Hs.
Qed.

Lemma process_document_long fp text :
  DocProcessor.extract_text fp = Some text ->
  10 <= Py.len (Py.strip text) ->
  DocProcessor.process_document fp =
    let text_content := Py.str_slice_to DocProcessor.MAX_TEXT_LENGTH text in
    {| embedding := match sentence_encode text_content with Ok e => e | Raise _ => [] end;
       text_content := text_content |}.
Proof.
  intros Ht Hs. unfold DocProcessor.process_document. rewrite Ht.
  destruct (DocProcessor.insufficient text) eqn:E.
  - apply insufficient_spec in E. lia.
  - cbv zeta. by destruct (sentence_encode _).
Qed.

Lemma ingest_file_image st p md :
  VectorStore.is_file_indexed st (path_resolve p) = false ->
  MetadataExtractor.extract_file_metadata (path_resolve p) = Ok md ->
  Py.lower (path_suffix (path_resolve p)) ∈ Config.IMAGE_EXTENSIONS ->
  Main.ingest_file st p =
    let fp := path_resolve p in
    let metadata := Main.update_with_exif md (MetadataExtractor.extract_exif_metadata fp) in
    let result := ImageProcessor.process_image fp in
    if negb (Py.list_truthy (embedding result)) then untouched st
    else
      let metadata := Main.add_tags metadata (AutoTagger.auto_tag_image fp) in
      {| Main.returned := Ok tt;
         Main.store_after :=
           stored_image st fp (embedding result) metadata (text_content result);
         Main.upserts :=
           [Main.UpsertImage fp (embedding result) metadata (text_content result)] |}.
Proof.
  intros Hi Hm He. rewrite !ingest_file_outcome. unfold ingest_outcome. rewrite Hi, Hm.
  by rewrite (bool_decide_eq_true_2 _ He).
Qed.

Lemma ingest_file_document st p md :
  VectorStore.is_file_indexed st (path_resolve p) = false ->
  MetadataExtractor.extract_file_metadata (path_resolve p) = Ok md ->
  Py.lower (path_suffix (path_resolve p)) ∈ Config.DOCUMENT_EXTENSIONS ->
  Main.ingest_file st p =
    let fp := path_resolve p in
    let result := DocProcessor.process_document fp in
    if negb (Py.list_truthy (embedding result)) then untouched st
    else
      {| Main.returned := Ok tt;
         Main.store_after :=
           stored_document st fp (embedding result) md (text_content result);
         Main.upserts :=
           [Main.UpsertDocument fp (embedding result) md (text_content result)] |}.
Proof.
  intros Hi Hm He. rewrite !ingest_file_outcome. unfold ingest_outcome. rewrite Hi, Hm.
  rewrite (bool_decide_eq_false_2 _ (document_extension_not_image _ He)).
  by rewrite (bool_decide_eq_true_2 _ He).
Qed.

(** Without an embedding nothing is written, whatever the path. *)
Lemma ingest_file_no_embedding_document st p :
  Py.lower (path_suffix (path_resolve p)) ∈ Config.DOCUMENT_EXTENSIONS ->
  embedding (DocProcessor.process_document (path_resolve p)) = [] ->
  Main.upserts (Main.ingest_file st p) = []
  /\ Main.store_after (Main.ingest_file st p) = st.
Proof.
  intros He Hemb. rewrite !ingest_file_outcome. unfold ingest_outcome.
  destruct (VectorStore.is_file_indexed st (path_resolve p)); [done|].
  destruct (MetadataExtractor.extract_file_metadata (path_resolve p)); [|done].
  rewrite (bool_decide_eq_false_2 _ (document_extension_not_image _ He)).
  rewrite (bool_decide_eq_true_2 _ He).
  cbv zeta. by rewrite Hemb.
Qed.
End IngestFacts.

(** C2: when a record is stored under the id of the resolved path, in
    either collection, [ingest_file] returns at once: it makes no upsert,
    the store is the same afterwards, so neither count grows and the
    stored record is the same.  This holds for every state of the file on
    disk, in particular for an unchanged one. *)
Theorem ingest_indexed_is_noop `{Hashlib} `{OS} `{MetadataExtractor.Exifread} `{Models}
    `{DocLibs} (st : VectorStore.t) (p : string)
    (Hpresent :
       is_Some (VectorStore.image_collection st !! VectorStore._file_id (path_resolve p))
       \/ is_Some (VectorStore.doc_collection st !! VectorStore._file_id (path_resolve p))) :
  let o := Main.ingest_file st p in
  Main.returned o = Ok tt
  /\ Main.upserts o = []
  /\ Main.store_after o = st
  /\ Chroma.count (VectorStore.image_collection (Main.store_after o))
     = Chroma.count (VectorStore.image_collection st)
  /\ Chroma.count (VectorStore.doc_collection (Main.store_after o))
     = Chroma.count (VectorStore.doc_collection st)
  /\ VectorStore.image_collection (Main.store_after o) !! VectorStore._file_id (path_resolve p)
     = VectorStore.image_collection st !! VectorStore._file_id (path_resolve p)
  /\ VectorStore.doc_collection (Main.store_after o) !! VectorStore._file_id (path_resolve p)
     = VectorStore.doc_collection st !! VectorStore._file_id (path_resolve p).
Proof.
  cbv zeta. apply is_file_indexed_spec in Hpresent.
  rewrite (ingest_file_indexed st p Hpresent). by repeat split.
Qed.

(** Ingesting a text file into the empty store, then once more. *)
Lemma ingest_indexed_is_noop_witness :
  let first := @Main.ingest_file Sample.hashlib Sample.os Sample.no_exif Sample.models
                 (Sample.doclibs "a plain text file with enough words")
                 Sample.empty_store "notes.txt" in
  let second := @Main.ingest_file Sample.hashlib Sample.os Sample.no_exif Sample.models
                  (Sample.doclibs "a plain text file with enough words")
                  (Main.store_after first) "notes.txt" in
  length (Main.upserts first) = 1%nat
  /\ Main.upserts second = []
  /\ Main.store_after second = Main.store_after first.
Proof.
  cbv zeta. split; [vm_compute; reflexivity|].
  pose proof (@ingest_indexed_is_noop Sample.hashlib Sample.os Sample.no_exif Sample.models
                (Sample.doclibs "a plain text file with enough words")
                (Main.store_after
                   (@Main.ingest_file Sample.hashlib Sample.os Sample.no_exif Sample.models
                      (Sample.doclibs "a plain text file with enough words")
                      Sample.empty_store "notes.txt"))
                "notes.txt"
                ltac:(right; eexists; vm_compute; reflexivity)) as (_ & Hu & Hs & _).
  split; [exact Hu | exact Hs].
Defined.

(** C8: take a path that is not indexed yet and whose filesystem metadata
    can be read.  For an image: when the CLIP encoder raises or gives the
    empty list, [ingest_file] makes no upsert and the store is the same;
    otherwise it makes exactly one [upsert_image], and the record stored
    under the id of the path holds the embedding together with the
    sanitised metadata.  For a document whose text is long enough to be
    embedded: the same with the sentence encoder and [upsert_document]. *)
Theorem ingest_embedding_all_or_nothing `{Hashlib} `{OS} `{MetadataExtractor.Exifread}
    `{Models} `{DocLibs} (st : VectorStore.t) (p : string) (md : metadata_dict)
    (Hnew : VectorStore.is_file_indexed st (path_resolve p) = false)
    (Hmeta : MetadataExtractor.extract_file_metadata (path_resolve p) = Ok md) :
  let fp := path_resolve p in
  let ext := Py.lower (path_suffix fp) in
  let o := Main.ingest_file st p in
  (ext ∈ Config.IMAGE_EXTENSIONS ->
     ((clip_encode_image fp = Ok [] \/ exists msg, clip_encode_image fp = Raise msg) ->
        Main.upserts o = [] /\ Main.store_after o = st)
     /\ (forall e, clip_encode_image fp = Ok e -> e <> [] ->
         exists m t r,
           Main.upserts o = [Main.UpsertImage fp e m t]
           /\ VectorStore.upsert_image st fp e m t = Ok (Main.store_after o)
           /\ VectorStore.image_collection (Main.store_after o) !! VectorStore._file_id fp
              = Some r
           /\ Chroma.rec_embedding r = e
           /\ Chroma.rec_metadata r = VectorStore.clean_meta m
           /\ VectorStore.doc_collection (Main.store_after o) = VectorStore.doc_collection st))
  /\ (ext ∈ Config.DOCUMENT_EXTENSIONS ->
      forall text,
        DocProcessor.extract_text fp = Some text ->
        10 <= Py.len (Py.strip text) ->
        let chunk := Py.str_slice_to DocProcessor.MAX_TEXT_LENGTH text in
        ((sentence_encode chunk = Ok [] \/ exists msg, sentence_encode chunk = Raise msg) ->
           Main.upserts o = [] /\ Main.store_after o = st)
        /\ (forall e, sentence_encode chunk = Ok e -> e <> [] ->
            exists r,
              Main.upserts o = [Main.UpsertDocument fp e md chunk]
              /\ VectorStore.upsert_document st fp e md chunk = Ok (Main.store_after o)
              /\ VectorStore.doc_collection (Main.store_after o) !! VectorStore._file_id fp
                 = Some r
              /\ Chroma.rec_embedding r = e
              /\ Chroma.rec_metadata r = VectorStore.clean_meta md
              /\ VectorStore.image_collection (Main.store_after o)
                 = VectorStore.image_collection st)).
Proof.
  cbv zeta. split.
  - intros Hext. rewrite (ingest_file_image st p md Hnew Hmeta Hext). cbv zeta.
    rewrite process_image_embedding. split.
    + intros [E|[msg E]]; rewrite E; by split.
    + intros e E Hne. rewrite E.
      destruct e as [|x e]; [done|]. simpl negb. cbv iota.
      eexists _, _, _. split; [reflexivity|]. split.
      { simpl. apply (upsert_image_fresh st _ _ _ _ "file_type" (VStr "image"));
          [exact Hnew| |split; discriminate].
        rewrite add_tags_file_type, update_with_exif_file_type.
        rewrite (extract_file_metadata_file_type _ _ Hmeta).
        by rewrite (bool_decide_eq_true_2 _ Hext). }
      simpl. unfold written. rewrite lookup_insert_eq.
      split; [reflexivity|]. by repeat split.
  - intros Hext text Htext Hlen.
    rewrite (ingest_file_document st p md Hnew Hmeta Hext). cbv zeta.
    rewrite (process_document_long _ text Htext Hlen). cbv zeta. simpl embedding.
    simpl text_content. split.
    + intros [E|[msg E]]; rewrite E; by split.
    + intros e E Hne. rewrite E.
      destruct e as [|x e]; [done|]. simpl negb. cbv iota.
      eexists. split; [reflexivity|]. split.
      { simpl. apply (upsert_document_fresh st _ _ _ _ "file_type" (VStr "document"));
          [exact Hnew| |split; discriminate].
        rewrite (extract_file_metadata_file_type _ _ Hmeta).
        by rewrite (bool_decide_eq_false_2 _ (document_extension_not_image _ Hext)). }
      simpl. unfold written. rewrite lookup_insert_eq.
      split; [reflexivity|]. by repeat split.
Qed.

Lemma ingest_embedding_all_or_nothing_witness :
  (let o := @Main.ingest_file Sample.hashlib Sample.os Sample.no_exif
              Sample.models_without_clip (Sample.doclibs "unused")
              Sample.empty_store "cat.jpg" in
   Main.upserts o = [] /\ Main.store_after o = Sample.empty_store)
  /\ (let o := @Main.ingest_file Sample.hashlib Sample.os Sample.no_exif
                 Sample.models (Sample.doclibs "unused")
                 Sample.empty_store "cat.jpg" in
      length (Main.upserts o) = 1%nat).
Proof.
  cbv zeta. split.
  - pose proof (@ingest_embedding_all_or_nothing Sample.hashlib Sample.os Sample.no_exif
                  Sample.models_without_clip (Sample.doclibs "unused")
                  Sample.empty_store "cat.jpg" _
                  ltac:(vm_compute; reflexivity) ltac:(reflexivity)) as [Himg _].
    apply Himg.
    + vm_compute. reflexivity.
    + right. exists "clip failed". reflexivity.
  - pose proof (@ingest_embedding_all_or_nothing Sample.hashlib Sample.os Sample.no_exif
                  Sample.models (Sample.doclibs "unused")
                  Sample.empty_store "cat.jpg" _
                  ltac:(vm_compute; reflexivity) ltac:(reflexivity)) as [Himg _].
    destruct Himg as [_ Hone]; [vm_compute; reflexivity|].
    destruct (Hone [1%Q; 0%Q] ltac:(reflexivity) ltac:(discriminate))
      as (m & t & r & Hu & _).
    by rewrite Hu.
Defined.

(** C10: for a document whose extracted text has fewer than 10 characters
    once stripped, [process_document] returns the empty embedding and the
    empty text, and [ingest_file] makes no upsert and leaves the store as
    it was.  The bound is strict: with 10 characters or more the text is
    kept (cut at 3000 characters) and handed to the sentence encoder.
    Characters are code points and the whitespace stripped is that of
    [str.strip], the no-break space included. *)
Theorem short_document_left_unindexed `{Hashlib} `{OS} `{MetadataExtractor.Exifread}
    `{Models} `{DocLibs} (st : VectorStore.t) (p : string) (text : string)
    (Hdoc : Py.lower (path_suffix (path_resolve p)) ∈ Config.DOCUMENT_EXTENSIONS)
    (Htext : DocProcessor.extract_text (path_resolve p) = Some text) :
  let fp := path_resolve p in
  (Py.len (Py.strip text) < 10 ->
     DocProcessor.process_document fp = {| embedding := []; text_content := EmptyString |}
     /\ Main.upserts (Main.ingest_file st p) = []
     /\ Main.store_after (Main.ingest_file st p) = st)
  /\ (10 <= Py.len (Py.strip text) ->
      let chunk := Py.str_slice_to DocProcessor.MAX_TEXT_LENGTH text in
      text_content (DocProcessor.process_document fp) = chunk
      /\ embedding (DocProcessor.process_document fp)
         = match sentence_encode chunk with Ok e => e | Raise _ => [] end).
Proof.
  cbv zeta. split.
  - intros Hshort.
    pose proof (process_document_short _ text Htext Hshort) as Hp.
    split; [exact Hp|].
    apply ingest_file_no_embedding_document; [exact Hdoc|]. by rewrite Hp.
  - intros Hlong. rewrite (process_document_long _ text Htext Hlong). by split.
Qed.

Lemma short_document_left_unindexed_witness :
  (let o := @Main.ingest_file Sample.hashlib Sample.os Sample.no_exif Sample.models
              (Sample.doclibs "  too short ") Sample.empty_store "memo.txt" in
   Main.upserts o = [] /\ Main.store_after o = Sample.empty_store)
  /\ (let o := @Main.ingest_file Sample.hashlib Sample.os Sample.no_exif Sample.models
                 (Sample.doclibs Sample.padded_text) Sample.empty_store "memo.txt" in
      Py.len Sample.padded_text = 10
      /\ Main.upserts o = [] /\ Main.store_after o = Sample.empty_store)
  /\ text_content
       (@DocProcessor.process_document Sample.os Sample.models
          (Sample.doclibs " ten chars! ") "memo.txt") = " ten chars! ".
Proof.
  cbv zeta. split; [|split].
  - pose proof (@short_document_left_unindexed Sample.hashlib Sample.os Sample.no_exif
                  Sample.models (Sample.doclibs "  too short ") Sample.empty_store
                  "memo.txt" "  too short "
                  ltac:(vm_compute; reflexivity) ltac:(reflexivity)) as [Hshort _].
    destruct Hshort as (_ & Hu & Hs); [vm_compute; reflexivity|].
    split; [exact Hu | exact Hs].
  - pose proof (@short_document_left_unindexed Sample.hashlib Sample.os Sample.no_exif
                  Sample.models (Sample.doclibs Sample.padded_text) Sample.empty_store
                  "memo.txt" Sample.padded_text
                  ltac:(vm_compute; reflexivity) ltac:(reflexivity)) as [Hshort _].
    destruct Hshort as (_ & Hu & Hs); [vm_compute; reflexivity|].
    split; [reflexivity|]. split; [exact Hu | exact Hs].
  - pose proof (@short_document_left_unindexed Sample.hashlib Sample.os Sample.no_exif
                  Sample.models (Sample.doclibs " ten chars! ") Sample.empty_store
                  "memo.txt" " ten chars! "
                  ltac:(vm_compute; reflexivity) ltac:(reflexivity)) as [_ Hlong].
    destruct Hlong as [Ht _]; [vm_compute; discriminate|].
    exact Ht.
Defined.

(* ===================================================================== *)
(** * More facts about strings and slices *)
(* ===================================================================== *)

Lemma chars_str l : Py.chars (Py.str l) = l.
Proof. apply list_ascii_of_string_of_list_ascii. Qed.

Lemma str_chars s : Py.str (Py.chars s) = s.
Proof. apply string_of_list_ascii_of_string. Qed.

Lemma length_str l : String.length (Py.str l) = length l.
Proof. induction l as [|a l IH]; simpl; [reflexivity | by rewrite IH]. Qed.

Lemma length_chars s : length (Py.chars s) = String.length s.
Proof. by rewrite <- (str_chars s) at 2; rewrite length_str. Qed.

Lemma str_slice_to_length n s :
  0 <= n -> String.length (Py.str_slice_to n s) = Nat.min (Z.to_nat n) (String.length s).
Proof.
  intros Hn. unfold Py.str_slice_to, Py.slice_to.
  destruct (0 <=? n) eqn:E; [|lia].
  by rewrite length_str, length_firstn, length_chars.
Qed.

Lemma str_slice_to_all n s :
  Z.of_nat (String.length s) <= n -> Py.str_slice_to n s = s.
Proof.
  intros Hn. unfold Py.str_slice_to.
  rewrite slice_to_all by (rewrite length_chars; lia). apply str_chars.
Qed.

Lemma str_truthy_false s : Py.str_truthy s = false <-> s = EmptyString.
Proof. destruct s; simpl; split; congruence. Qed.

Lemma str_truthy_length s : Py.str_truthy s = true <-> (0 < String.length s)%nat.
Proof. destruct s; simpl; split; try congruence; lia. Qed.

Lemma str_slice_to_truthy n s :
  0 < n -> Py.str_truthy (Py.str_slice_to n s) = Py.str_truthy s.
Proof.
  intros Hn. unfold Py.str_slice_to, Py.slice_to.
  destruct (0 <=? n) eqn:E; [|lia].
  destruct (Z.to_nat n) eqn:En; [lia|]. by destruct s.
Qed.

(** [s[:n]] is the beginning of [s]. *)
Lemma str_slice_to_prefix n s :
  exists rest, s = (Py.str_slice_to n s ++ rest)%string.
Proof.
  unfold Py.str_slice_to, Py.slice_to.
  set (m := if 0 <=? n then Z.to_nat n else (length (Py.chars s) - Z.to_nat (- n))%nat).
  exists (Py.str (skipn m (Py.chars s))).
  assert (Happ : forall l1 l2, Py.str (l1 ++ l2) = (Py.str l1 ++ Py.str l2)%string).
  { induction l1 as [|a l1 IH]; intros l2; simpl; [reflexivity | by rewrite IH]. }
  destruct (0 <=? n); subst m; rewrite <- Happ, firstn_skipn; symmetry; apply str_chars.
Qed.

(* ===================================================================== *)
(** * The store as a map from ids to records (vector_store.py) *)
(* ===================================================================== *)

(** X4: the document body that an upsert stores, when the store accepts
    the call, is never the empty string.  For a document it is the first
    5000 characters of the text, and for an image the text itself, when
    the text is not empty; else it is the placeholder made of the file
    name. *)
Theorem upsert_document_body `{Hashlib} `{OS} (st : VectorStore.t) (p : string)
    (e : list Py.float) (m : metadata_dict) (t : string) :
  (forall st',
     VectorStore.upsert_document st p e m t = Ok st' ->
     exists r,
       VectorStore.doc_collection st' !! VectorStore._file_id p = Some r
       /\ Chroma.rec_document r <> EmptyString
       /\ (t <> EmptyString ->
           Chroma.rec_document r = Py.str_slice_to 5000 t
           /\ (String.length (Chroma.rec_document r) <= 5000)%nat)
       /\ (t = EmptyString ->
           Chroma.rec_document r = ("Document: " ++ VectorStore.file_name_of m)%string))
  /\ (forall st',
     VectorStore.upsert_image st p e m t = Ok st' ->
     exists r,
       VectorStore.image_collection st' !! VectorStore._file_id p = Some r
       /\ Chroma.rec_document r <> EmptyString
       /\ (t <> EmptyString -> Chroma.rec_document r = t)
       /\ (t = EmptyString ->
           Chroma.rec_document r = ("Image: " ++ VectorStore.file_name_of m)%string)).
Proof.
  unfold VectorStore.upsert_document, VectorStore.upsert_image.
  split; intros st'.
  - destruct (Chroma.upsert _ _ _ _ (VectorStore.doc_collection st)) as [c'|] eqn:Hc;
      [|discriminate].
    intros [= <-]. apply upsert_inv in Hc as [_ ->].
    eexists. split; [simpl; apply lookup_insert_eq|]. simpl.
    unfold VectorStore.str_or.
    rewrite str_slice_to_truthy by lia.
    destruct (Py.str_truthy t) eqn:Et.
    + assert (t <> EmptyString) by (intros ->; discriminate).
      split; [|split; [|done]].
      * intros E. apply str_truthy_false in E.
        rewrite str_slice_to_truthy in E by lia. congruence.
      * intros _. split; [reflexivity|]. rewrite str_slice_to_length by lia. lia.
    + apply str_truthy_false in Et. subst t. by repeat split.
  - destruct (Chroma.upsert _ _ _ _ (VectorStore.image_collection st)) as [c'|] eqn:Hc;
      [|discriminate].
    intros [= <-]. apply upsert_inv in Hc as [_ ->].
    eexists. split; [simpl; apply lookup_insert_eq|]. simpl.
    unfold VectorStore.str_or.
    destruct (Py.str_truthy t) eqn:Et.
    + assert (t <> EmptyString) by (intros ->; discriminate). by repeat split.
    + apply str_truthy_false in Et. subst t. by repeat split.
Qed.

(** An image without a caption is stored with the placeholder body. *)
Lemma upsert_document_body_witness :
  exists st' r,
    @VectorStore.upsert_image Sample.hashlib Sample.os Sample.empty_store "/photos/a.jpg"
      [1%Q; 0%Q] Sample.raw_metadata EmptyString = Ok st'
    /\ VectorStore.image_collection st' !! @VectorStore._file_id Sample.hashlib "/photos/a.jpg"
       = Some r
    /\ Chroma.rec_document r = "Image: a.jpg".
Proof.
  eexists.
  destruct (proj2 (@upsert_document_body Sample.hashlib Sample.os Sample.empty_store
                     "/photos/a.jpg" [1%Q; 0%Q] Sample.raw_metadata EmptyString)
              _ ltac:(vm_compute; reflexivity))
    as (r & Hr & _ & _ & Hbody).
  exists r. split; [reflexivity|]. split; [exact Hr|].
  rewrite (Hbody eq_refl). reflexivity.
Defined.

(* ===================================================================== *)
(** * What a search returns (vector_store.py) *)
(* ===================================================================== *)

Lemma map_fst_fmap {A B} (l : list (A * B)) : map fst l = l.*1.
Proof. induction l as [|x l IH]; simpl; [reflexivity | by rewrite IH]. Qed.

Lemma hit_of_id `{Chroma.Space} q (l : list (string * Chroma.record)) :
  map VectorStore.id (map (hit_of q) l) = map fst l.
Proof. induction l as [|kv l IH]; simpl; [reflexivity | by rewrite IH]. Qed.

Section SearchShape.
Context `{Chroma.Space}.

Lemma nearest_exact_length q k c :
  1 <= k ->
  Z.of_nat (length (nearest q (VectorStore.n_results k c) c)) = Z.min k (Chroma.count c).
Proof.
  intros Hk. unfold nearest. rewrite length_firstn.
  unfold Py.sort_asc. rewrite stable_sort_length, length_map_to_list.
  unfold VectorStore.n_results, Py.min, VectorStore.count_or_1, Chroma.count.
  destruct (Z.of_nat (size c) =? 0) eqn:E0.
  - destruct (1 <? k); lia.
  - apply Z.eqb_neq in E0. destruct (_ <? k) eqn:E1; lia.
Qed.

Lemma nearest_distinct q n c : List.NoDup (map fst (nearest q n c)).
Proof.
  unfold nearest.
  set (ranked := Py.sort_asc
         (fun kv => Chroma.cosine_distance q (Chroma.rec_embedding (snd kv)))
         (map_to_list c)).
  assert (Hall : List.NoDup (map fst ranked)).
  { eapply Permutation_NoDup.
    - apply Permutation_map. symmetry. apply sort_asc_perm.
    - rewrite map_fst_fmap. apply NoDup_ListNoDup, NoDup_fst_map_to_list. }
  rewrite <- (firstn_skipn (Z.to_nat n) ranked), List.map_app in Hall.
  by apply NoDup_app_remove_r in Hall.
Qed.

Lemma search_collection_shape c q k :
  1 <= k ->
  exists hits,
    search_collection c q k = Ok hits
    /\ Z.of_nat (length hits) = Z.min k (Chroma.count c)
    /\ List.NoDup (map VectorStore.id hits)
    /\ sorted_by_score_desc hits.
Proof.
  intros Hk. eexists. split; [by apply search_collection_ok|].
  split; [|split].
  - unfold Py.sort_desc. rewrite stable_sort_length, length_map.
    by apply nearest_exact_length.
  - eapply Permutation_NoDup.
    + apply Permutation_map. symmetry. apply sort_desc_perm.
    + rewrite hit_of_id. apply nearest_distinct.
  - apply sort_desc_sorted.
Qed.
End SearchShape.

(** X5: for [top_k >= 1] a search of the images, and of the documents,
    returns (it does not raise); the list has exactly [min(top_k, count)]
    entries, their ids are pairwise distinct, and it is sorted by score. *)
Theorem search_returns_min_k_count `{Chroma.Space} (st : VectorStore.t)
    (q : list Py.float) (k : Z) (Hk : 1 <= k) :
  (exists hits,
     VectorStore.search_images st q k = Ok hits
     /\ Z.of_nat (length hits) = Z.min k (Chroma.count (VectorStore.image_collection st))
     /\ List.NoDup (map VectorStore.id hits)
     /\ sorted_by_score_desc hits)
  /\ (exists hits,
     VectorStore.search_documents st q k = Ok hits
     /\ Z.of_nat (length hits) = Z.min k (Chroma.count (VectorStore.doc_collection st))
     /\ List.NoDup (map VectorStore.id hits)
     /\ sorted_by_score_desc hits).
Proof.
  split.
  - exact (search_collection_shape (VectorStore.image_collection st) q k Hk).
  - exact (search_collection_shape (VectorStore.doc_collection st) q k Hk).
Qed.

Lemma search_returns_min_k_count_witness :
  exists hits,
    @VectorStore.search_images Sample.unit_space Sample.one_image [1%Q; 0%Q] 7 = Ok hits
    /\ Z.of_nat (length hits) = 1.
Proof.
  destruct (@search_returns_min_k_count Sample.unit_space Sample.one_image [1%Q; 0%Q] 7
              ltac:(lia)) as [(hits & Hs & Hlen & _) _].
  exists hits. split; [exact Hs|]. rewrite Hlen. vm_compute. reflexivity.
Defined.

(** ** Rounding between integer bounds *)

Lemma round_half_even_ge x (n : Z) :
  (inject_Z n <= x)%Q -> n <= Py.round_half_even x.
Proof.
  intros Hx. unfold Py.round_half_even. cbv zeta.
  assert (Hf : n <= Qfloor x).
  { rewrite <- (Qfloor_Z n). by apply Qfloor_resp_le. }
  destruct (_ ?= _)%Q; [destruct (Z.even _)|..]; lia.
Qed.

Lemma round_le_integer x n (N : Z) :
  (x <= inject_Z N)%Q -> (Py.round x n <= inject_Z N)%Q.
Proof.
  intros Hx. rewrite round_unfold.
  pose proof (pow10_pos n) as HP.
  assert (HPq : (0 < inject_Z (Py.pow10 n))%Q).
  { change 0%Q with (inject_Z 0). by rewrite <- Zlt_Qlt. }
  apply Qle_shift_div_r; [exact HPq|].
  rewrite <- inject_Z_mult, <- Zle_Qle.
  apply round_half_even_le. rewrite inject_Z_mult.
  apply Qmult_le_compat_r; [exact Hx | by apply Qlt_le_weak].
Qed.

Lemma round_ge_integer x n (N : Z) :
  (inject_Z N <= x)%Q -> (inject_Z N <= Py.round x n)%Q.
Proof.
  intros Hx. rewrite round_unfold.
  pose proof (pow10_pos n) as HP.
  assert (HPq : (0 < inject_Z (Py.pow10 n))%Q).
  { change 0%Q with (inject_Z 0). by rewrite <- Zlt_Qlt. }
  apply Qle_shift_div_l; [exact HPq|].
  rewrite <- inject_Z_mult, <- Zle_Qle.
  apply round_half_even_ge. rewrite inject_Z_mult.
  apply Qmult_le_compat_r; [exact Hx | by apply Qlt_le_weak].
Qed.

(** X6: an entry of a search carries the metadata of the stored record
    unchanged, and its text preview is the first 300 characters of the
    stored document body. *)
Theorem search_hit_reflects_record `{Chroma.Space} (st : VectorStore.t)
    (c : Chroma.collection) (q : list Py.float) (k : Z)
    (hits : list VectorStore.hit) (h : VectorStore.hit)
    (Hsearch : (VectorStore.search_images st q k = Ok hits
                /\ c = VectorStore.image_collection st)
               \/ (VectorStore.search_documents st q k = Ok hits
                   /\ c = VectorStore.doc_collection st))
    (Hin : In h hits) :
  exists r,
    c !! VectorStore.id h = Some r
    /\ VectorStore.metadata h = Chroma.rec_metadata r
    /\ VectorStore.text_preview h = Py.str_slice_to 300 (Chroma.rec_document r)
    /\ (String.length (VectorStore.text_preview h) <= 300)%nat
    /\ exists rest, Chroma.rec_document r = (VectorStore.text_preview h ++ rest)%string.
Proof.
  assert (Hs : search_collection c q k = Ok hits).
  { destruct Hsearch as [[Hs ->]|[Hs ->]]; exact Hs. }
  destruct (search_collection_hits c q k hits h Hs Hin) as [r [Hr Hh]].
  exists r. split; [exact Hr|].
  assert (Hprev : VectorStore.text_preview h = Py.str_slice_to 300 (Chroma.rec_document r)).
  { rewrite Hh. simpl. destruct (Py.str_truthy _) eqn:E; [reflexivity|].
    apply str_truthy_false in E. by rewrite E. }
  split; [by rewrite Hh|]. split; [exact Hprev|]. rewrite Hprev. split.
  - rewrite str_slice_to_length by lia. lia.
  - apply str_slice_to_prefix.
Qed.

Lemma search_hit_reflects_record_witness :
  exists r,
    VectorStore.doc_collection Sample.one_document !! "d" = Some r
    /\ Chroma.rec_metadata r = {[ "file_name" := VStr "notes.txt" ]}.
Proof.
  destruct (@search_hit_reflects_record Sample.unit_space Sample.one_document
              (VectorStore.doc_collection Sample.one_document) [3 # 5; 4 # 5] 3
              [ {| VectorStore.id := "d"; VectorStore.score := 1;
                   VectorStore.match_percentage := 100;
                   VectorStore.metadata := {[ "file_name" := VStr "notes.txt" ]};
                   VectorStore.text_preview := "meeting notes about cats" |} ]
              {| VectorStore.id := "d"; VectorStore.score := 1;
                 VectorStore.match_percentage := 100;
                 VectorStore.metadata := {[ "file_name" := VStr "notes.txt" ]};
                 VectorStore.text_preview := "meeting notes about cats" |}
              ltac:(right; split; [vm_compute; reflexivity | reflexivity])
              ltac:(simpl; left; reflexivity)) as (r & Hr & Hm & _).
  exists r. split; [exact Hr|]. symmetry. exact Hm.
Defined.

(** X7: the match percentage of an entry whose record is at a
    non-negative distance lies between 0 and 100; when the distance is at
    most 0.4 it is at least 60 and the dashboard shows the entry as
    score-high, and when the distance is at most 0.7 the entry is not
    shown as score-low. *)
Theorem match_percentage_range_and_class `{Chroma.Space} (st : VectorStore.t)
    (c : Chroma.collection) (q : list Py.float) (k : Z)
    (hits : list VectorStore.hit) (h : VectorStore.hit)
    (Hsearch : (VectorStore.search_images st q k = Ok hits
                /\ c = VectorStore.image_collection st)
               \/ (VectorStore.search_documents st q k = Ok hits
                   /\ c = VectorStore.doc_collection st))
    (Hin : In h hits) :
  exists r,
    c !! VectorStore.id h = Some r
    /\ let d := Chroma.cosine_distance q (Chroma.rec_embedding r) in
       ((0 <= d)%Q ->
          (0 <= VectorStore.match_percentage h)%Q
          /\ (VectorStore.match_percentage h <= 100)%Q)
       /\ ((d <= 2 # 5)%Q ->
           Frontend.get_score_class (VectorStore.match_percentage h) = "score-high")
       /\ ((d <= 7 # 10)%Q ->
           Frontend.get_score_class (VectorStore.match_percentage h) <> "score-low").
Proof.
  assert (Hs : search_collection c q k = Ok hits).
  { destruct Hsearch as [[Hs ->]|[Hs ->]]; exact Hs. }
  destruct (search_collection_hits c q k hits h Hs Hin) as [r [Hr Hh]].
  exists r. split; [exact Hr|]. cbv zeta.
  set (d := Chroma.cosine_distance q (Chroma.rec_embedding r)).
  assert (Hmp : VectorStore.match_percentage h = Py.round (raw_score d * 100)%Q 1).
  { by rewrite Hh. }
  rewrite Hmp.
  assert (Hraw0 : (0 <= raw_score d)%Q) by apply max_zero_nonneg.
  assert (Hge : forall b : Q, (b <= 1 - d)%Q -> (b <= raw_score d)%Q).
  { intros b Hb. unfold raw_score, Py.max. destruct (Qlt_le_dec 0 (1 - d)); lra. }
  split; [|split].
  - intros Hd. pose proof (max_zero_le_one d Hd) as Hraw1. fold (raw_score d) in Hraw1.
    split.
    + apply (round_ge_integer _ 1 0). change (inject_Z 0) with 0%Q. lra.
    + apply (round_le_integer _ 1 100). change (inject_Z 100) with 100%Q. lra.
  - intros Hd. unfold Frontend.get_score_class.
    assert (H60 : (60 <= Py.round (raw_score d * 100) 1)%Q).
    { apply (round_ge_integer _ 1 60). change (inject_Z 60) with 60%Q.
      pose proof (Hge (3 # 5)%Q ltac:(lra)). lra. }
    apply Qle_bool_iff in H60. by rewrite H60.
  - intros Hd. unfold Frontend.get_score_class.
    assert (H30 : (30 <= Py.round (raw_score d * 100) 1)%Q).
    { apply (round_ge_integer _ 1 30). change (inject_Z 30) with 30%Q.
      pose proof (Hge (3 # 10)%Q ltac:(lra)). lra. }
    apply Qle_bool_iff in H30. rewrite H30.
    destruct (Qle_bool 60 _); discriminate.
Qed.

Lemma match_percentage_range_and_class_witness :
  Frontend.get_score_class (999 # 10) = "score-high".
Proof.
  destruct (@match_percentage_range_and_class Sample.unit_space Sample.one_image
              (VectorStore.image_collection Sample.one_image) [1%Q; 0%Q] 10
              [ {| VectorStore.id := "a"; VectorStore.score := 1999 # 2000;
                   VectorStore.match_percentage := 999 # 10;
                   VectorStore.metadata := ∅;
                   VectorStore.text_preview := "Image: a.jpg" |} ]
              {| VectorStore.id := "a"; VectorStore.score := 1999 # 2000;
                 VectorStore.match_percentage := 999 # 10;
                 VectorStore.metadata := ∅;
                 VectorStore.text_preview := "Image: a.jpg" |}
              ltac:(left; split; [vm_compute; reflexivity | reflexivity])
              ltac:(simpl; left; reflexivity)) as (r & Hr & _ & Hhigh & _).
  apply Hhigh.
  assert (r = {| Chroma.rec_embedding := [1860 # 1861; 61 # 1861];
                 Chroma.rec_metadata := ∅;
                 Chroma.rec_document := "Image: a.jpg" |}) as ->.
  { simpl in Hr. unfold Sample.one_image in Hr. simpl in Hr.
    rewrite lookup_singleton_eq in Hr. congruence. }
  vm_compute. discriminate.
Defined.

(* ===================================================================== *)
(** * Listing and drawing records (vector_store.py) *)
(* ===================================================================== *)

Lemma collection_metadata_length (c : Chroma.collection) :
  Z.of_nat (length (VectorStore.collection_metadata c)) = Chroma.count c.
Proof.
  unfold VectorStore.collection_metadata, Chroma.get_all, Chroma.count.
  destruct (0 <? Z.of_nat (size c)) eqn:E.
  - by rewrite !length_map, length_map_to_list.
  - simpl. lia.
Qed.

Lemma collection_metadata_entry (c : Chroma.collection) (m : metadata_dict) :
  In m (VectorStore.collection_metadata c) ->
  exists i r,
    c !! i = Some r
    /\ m = <["_document_preview" := VStr (Py.str_slice_to 200 (Chroma.rec_document r))]>
             (Chroma.rec_metadata r).
Proof.
  unfold VectorStore.collection_metadata, Chroma.get_all.
  destruct (0 <? Chroma.count c); [|intros []].
  rewrite List.map_map. intros Hin. apply in_map_iff in Hin as [[i r] [<- Hkv]].
  exists i, r. split.
  - apply list_elem_of_In in Hkv. by apply elem_of_map_to_list in Hkv.
  - simpl. destruct (Py.str_truthy _) eqn:E; [reflexivity|].
    apply str_truthy_false in E. by rewrite E.
Qed.

(** The block of a collection lists its records in the order of the
    collection, each with its preview. *)
Lemma collection_metadata_records (c : Chroma.collection) :
  VectorStore.collection_metadata c
  = map (fun kv : string * Chroma.record =>
           <["_document_preview" := VStr (Py.str_slice_to 200 (Chroma.rec_document (snd kv)))]>
             (Chroma.rec_metadata (snd kv)))
        (map_to_list c).
Proof.
  unfold VectorStore.collection_metadata, Chroma.get_all.
  destruct (0 <? Chroma.count c) eqn:E.
  - rewrite List.map_map. apply map_ext. intros [i r]. simpl.
    destruct (Py.str_truthy _) eqn:Et; [reflexivity|].
    apply str_truthy_false in Et. by rewrite Et.
  - apply Z.ltb_ge in E. unfold Chroma.count in E.
    assert (Hc : c = ∅) by (apply map_size_empty_iff; lia).
    subst c. by rewrite map_to_list_empty.
Qed.

(** X8: [get_all_metadata] has one entry for each record of the two
    collections, [total_files] in all: it is the list of the records of
    the image collection followed by those of the document collection, so
    every stored record has its entry and every entry is the one of a
    stored record.  The entry of a record is its metadata with, under the
    key [_document_preview], the first 200 characters of its document
    body. *)
Theorem get_all_metadata_lists_every_record (st : VectorStore.t) :
  (let '(_, _, files) := VectorStore.get_stats st in
   Z.of_nat (length (VectorStore.get_all_metadata st)) = files)
  /\ (forall m, In m (VectorStore.get_all_metadata st) ->
       exists i r preview,
         (VectorStore.image_collection st !! i = Some r
          \/ VectorStore.doc_collection st !! i = Some r)
         /\ m = <["_document_preview" := VStr preview]> (Chroma.rec_metadata r)
         /\ m !! "_document_preview" = Some (VStr preview)
         /\ preview = Py.str_slice_to 200 (Chroma.rec_document r)
         /\ (String.length preview <= 200)%nat)
  /\ (forall i r,
        VectorStore.image_collection st !! i = Some r
        \/ VectorStore.doc_collection st !! i = Some r ->
        In (<["_document_preview" := VStr (Py.str_slice_to 200 (Chroma.rec_document r))]>
              (Chroma.rec_metadata r))
           (VectorStore.get_all_metadata st))
  /\ VectorStore.get_all_metadata st
     = map (fun kv : string * Chroma.record =>
              <["_document_preview" :=
                  VStr (Py.str_slice_to 200 (Chroma.rec_document (snd kv)))]>
                (Chroma.rec_metadata (snd kv)))
           (map_to_list (VectorStore.image_collection st)
            ++ map_to_list (VectorStore.doc_collection st)).
Proof.
  split; [|split; [|split]].
  - unfold VectorStore.get_stats, VectorStore.get_all_metadata.
    rewrite length_app, Nat2Z.inj_add, !collection_metadata_length. reflexivity.
  - intros m Hin. unfold VectorStore.get_all_metadata in Hin.
    apply in_app_or in Hin as [Hin|Hin];
      apply collection_metadata_entry in Hin as (i & r & Hr & ->);
      exists i, r, (Py.str_slice_to 200 (Chroma.rec_document r));
      (split; [tauto|]); (split; [reflexivity|]);
      (split; [apply lookup_insert_eq|]); (split; [reflexivity|]);
      rewrite str_slice_to_length by lia; lia.
  - intros i r Hr. unfold VectorStore.get_all_metadata.
    rewrite !collection_metadata_records. apply in_or_app.
    destruct Hr as [Hr|Hr]; [left|right];
      apply in_map_iff; exists (i, r); (split; [reflexivity|]);
      apply list_elem_of_In; by apply elem_of_map_to_list.
  - unfold VectorStore.get_all_metadata.
    by rewrite !collection_metadata_records, List.map_app.
Qed.

(** X9: [get_random_memory] returns [None] exactly when both
    collections are empty; otherwise it returns one of the entries of
    [get_all_metadata], whatever position [random] draws. *)
Theorem get_random_memory_none_iff_empty `{VectorStore.Random} (st : VectorStore.t) :
  (VectorStore.get_random_memory st = None <->
   VectorStore.image_collection st = ∅ /\ VectorStore.doc_collection st = ∅)
  /\ forall m, VectorStore.get_random_memory st = Some m ->
       In m (VectorStore.get_all_metadata st).
Proof.
  unfold VectorStore.get_random_memory.
  set (all := VectorStore.get_all_metadata st).
  assert (Hlen : Z.of_nat (length all)
                 = Chroma.count (VectorStore.image_collection st)
                   + Chroma.count (VectorStore.doc_collection st)).
  { subst all. unfold VectorStore.get_all_metadata.
    by rewrite length_app, Nat2Z.inj_add, !collection_metadata_length. }
  unfold Chroma.count in Hlen.
  destruct all as [|m0 all'] eqn:Eall; simpl Py.list_truthy; cbv iota; simpl negb.
  - split; [|discriminate]. split; [|done]. intros _. simpl in Hlen.
    split; apply map_size_empty_iff; lia.
  - split.
    + split.
      * intros Hnone. apply lookup_ge_None in Hnone.
        pose proof (Nat.mod_upper_bound
                      (VectorStore.randbelow (length (m0 :: all'))) (length (m0 :: all'))
                      ltac:(simpl; lia)). lia.
      * intros [Hi Hd]. rewrite Hi, Hd in Hlen. rewrite map_size_empty in Hlen.
        simpl in Hlen. lia.
    + intros m Hm. apply list_elem_of_In. by eapply list_elem_of_lookup_2.
Qed.

(* ===================================================================== *)
(** * More about ingestion (main.py) *)
(* ===================================================================== *)

Section IngestMore.
Context `{Hashlib} `{OS} `{MetadataExtractor.Exifread} `{Models} `{DocLibs}.

Lemma ingest_file_no_upsert st p :
  Main.upserts (Main.ingest_file st p) = [] ->
  Main.store_after (Main.ingest_file st p) = st.
Proof. intros Hu. rewrite ingest_file_store, Hu. reflexivity. Qed.

(** The path of an upsert that [ingest_file] makes is the resolved path,
    and the call is made only for a path that is not indexed. *)
Lemma ingest_file_upsert_shape st p :
  Main.upserts (Main.ingest_file st p) = []
  \/ (VectorStore.is_file_indexed st (path_resolve p) = false
      /\ (((Py.lower (path_suffix (path_resolve p)) ∈ Config.IMAGE_EXTENSIONS)
           /\ (exists e m t,
                Main.upserts (Main.ingest_file st p)
                = [Main.UpsertImage (path_resolve p) e m t]))
          \/ ((Py.lower (path_suffix (path_resolve p)) ∉ Config.IMAGE_EXTENSIONS)
              /\ (exists e m t,
                Main.upserts (Main.ingest_file st p)
                = [Main.UpsertDocument (path_resolve p) e m t])))).
Proof.
  rewrite !ingest_file_outcome. unfold ingest_outcome.
  destruct (VectorStore.is_file_indexed st (path_resolve p)); [by left|].
  destruct (MetadataExtractor.extract_file_metadata (path_resolve p)); [|by left].
  destruct (bool_decide _) eqn:Ei.
  - apply bool_decide_eq_true_1 in Ei. cbv zeta.
    destruct (negb _); [by left|]. right. split; [done|]. left. split; [done|].
    by eexists _, _, _.
  - apply bool_decide_eq_false_1 in Ei.
    destruct (bool_decide _); [|by left]. cbv zeta.
    destruct (negb _); [by left|]. right. split; [done|]. right. split; [done|].
    by eexists _, _, _.
Qed.

(** Whether and what [ingest_file] upserts depends on the store only
    through the answer of [is_file_indexed]. *)
Lemma ingest_file_store_independent st st' p :
  VectorStore.is_file_indexed st (path_resolve p) = false ->
  VectorStore.is_file_indexed st' (path_resolve p) = false ->
  Main.upserts (Main.ingest_file st' p) = Main.upserts (Main.ingest_file st p)
  /\ Main.returned (Main.ingest_file st' p) = Main.returned (Main.ingest_file st p).
Proof.
  intros Hs Hs'. rewrite !ingest_file_outcome. unfold ingest_outcome. rewrite Hs, Hs'.
  destruct (MetadataExtractor.extract_file_metadata (path_resolve p)); [|done].
  destruct (bool_decide _); cbv zeta.
  - by destruct (negb _).
  - destruct (bool_decide _); [|done]. cbv zeta. by destruct (negb _).
Qed.

Lemma apply_upsert_keeps st c i :
  (is_Some (VectorStore.image_collection st !! i) ->
   is_Some (VectorStore.image_collection (applied st c) !! i))
  /\ (is_Some (VectorStore.doc_collection st !! i) ->
      is_Some (VectorStore.doc_collection (applied st c) !! i)).
Proof.
  destruct c; simpl; unfold written; split; intros Hi; try exact Hi;
    apply lookup_insert_is_Some';  by right.
Qed.

Lemma ingest_file_keeps st p i :
  (is_Some (VectorStore.image_collection st !! i) ->
   is_Some (VectorStore.image_collection (Main.store_after (Main.ingest_file st p)) !! i))
  /\ (is_Some (VectorStore.doc_collection st !! i) ->
      is_Some (VectorStore.doc_collection (Main.store_after (Main.ingest_file st p)) !! i)).
Proof.
  rewrite ingest_file_store.
  destruct (ingest_file_upsert_shape st p) as [E|[_ [[_ (e & m & t & E)]|[_ (e & m & t & E)]]]];
    rewrite E; simpl; [tauto|..]; unfold written; split; intros Hi; try exact Hi;
    apply lookup_insert_is_Some'; by right.
Qed.

Lemma ingest_file_keeps_indexed st p x :
  VectorStore.is_file_indexed st x = true ->
  VectorStore.is_file_indexed (Main.store_after (Main.ingest_file st p)) x = true.
Proof.
  rewrite !is_file_indexed_spec.
  destruct (ingest_file_keeps st p (VectorStore._file_id x)). tauto.
Qed.

(** A path is settled in a store when ingesting it there writes nothing. *)
Lemma settled_is_kept st p q :
  Main.upserts (Main.ingest_file st p) = [] ->
  Main.upserts (Main.ingest_file (Main.store_after (Main.ingest_file st q)) p) = [].
Proof.
  intros Hp. set (st' := Main.store_after (Main.ingest_file st q)).
  destruct (VectorStore.is_file_indexed st' (path_resolve p)) eqn:E'.
  { by rewrite ingest_file_indexed. }
  destruct (VectorStore.is_file_indexed st (path_resolve p)) eqn:E.
  { apply (ingest_file_keeps_indexed st q) in E. fold st' in E. congruence. }
  destruct (ingest_file_store_independent st st' p E E') as [-> _]. exact Hp.
Qed.

Lemma settled_after_ingest st p :
  Main.upserts (Main.ingest_file (Main.store_after (Main.ingest_file st p)) p) = [].
Proof.
  destruct (Main.upserts (Main.ingest_file st p)) eqn:E.
  - rewrite (ingest_file_no_upsert st p E). exact E.
  - rewrite ingest_file_indexed; [reflexivity|].
    apply ingest_file_indexes. by rewrite E.
Qed.
End IngestMore.

(** X10: ingesting a path a second time, right after the first, writes
    nothing: the second call makes no upsert and the store stays the one
    the first call left, whether the first call stored a record, skipped
    the file or raised. *)
Theorem ingest_twice_is_once `{Hashlib} `{OS} `{MetadataExtractor.Exifread} `{Models}
    `{DocLibs} (st : VectorStore.t) (p : string) :
  let first := Main.ingest_file st p in
  let second := Main.ingest_file (Main.store_after first) p in
  Main.upserts second = []
  /\ Main.store_after second = Main.store_after first
  /\ VectorStore.get_stats (Main.store_after second)
     = VectorStore.get_stats (Main.store_after first).
Proof.
  cbv zeta. pose proof (settled_after_ingest st p) as Hu.
  split; [exact Hu|]. rewrite (ingest_file_no_upsert _ _ Hu). by split.
Qed.

(** X11: a call of [ingest_file] makes at most one upsert and touches
    nothing but the record under the id of the resolved path: every other
    id keeps its record in both collections, no record disappears, a file
    with an image extension never changes the document collection and any
    other file never changes the image collection, and [total_files]
    grows by at most one. *)
Theorem ingest_touches_only_its_id `{Hashlib} `{OS} `{MetadataExtractor.Exifread}
    `{Models} `{DocLibs} (st : VectorStore.t) (p : string) :
  let o := Main.ingest_file st p in
  let st' := Main.store_after o in
  let own := VectorStore._file_id (path_resolve p) in
  (length (Main.upserts o) <= 1)%nat
  /\ (forall i, i <> own ->
        VectorStore.image_collection st' !! i = VectorStore.image_collection st !! i
        /\ VectorStore.doc_collection st' !! i = VectorStore.doc_collection st !! i)
  /\ (forall i, is_Some (VectorStore.image_collection st !! i) ->
                is_Some (VectorStore.image_collection st' !! i))
  /\ (forall i, is_Some (VectorStore.doc_collection st !! i) ->
                is_Some (VectorStore.doc_collection st' !! i))
  /\ (Py.lower (path_suffix (path_resolve p)) ∈ Config.IMAGE_EXTENSIONS ->
      VectorStore.doc_collection st' = VectorStore.doc_collection st)
  /\ (Py.lower (path_suffix (path_resolve p)) ∉ Config.IMAGE_EXTENSIONS ->
      VectorStore.image_collection st' = VectorStore.image_collection st)
  /\ (let '(_, _, files) := VectorStore.get_stats st in
      let '(_, _, files') := VectorStore.get_stats st' in
      files <= files' <= files + 1).
Proof.
  cbv zeta.
  split; [|split; [|split; [|split; [|split; [|split]]]]].
  - destruct (ingest_file_upsert_shape st p)
      as [E|[_ [[_ (e & m & t & E)]|[_ (e & m & t & E)]]]]; rewrite E; simpl; lia.
  - intros i Hi. rewrite ingest_file_store.
    destruct (ingest_file_upsert_shape st p)
      as [E|[_ [[_ (e & m & t & E)]|[_ (e & m & t & E)]]]]; rewrite E; simpl;
      unfold written; rewrite ?lookup_insert_ne by done; done.
  - intros i. apply ingest_file_keeps.
  - intros i. apply ingest_file_keeps.
  - intros Himg. rewrite ingest_file_store.
    destruct (ingest_file_upsert_shape st p)
      as [E|[_ [[_ (e & m & t & E)]|[Hn _]]]]; [by rewrite E|by rewrite E|done].
  - intros Himg. rewrite ingest_file_store.
    destruct (ingest_file_upsert_shape st p)
      as [E|[_ [[Hn _]|[_ (e & m & t & E)]]]]; [by rewrite E|done|by rewrite E].
  - rewrite ingest_file_store. unfold VectorStore.get_stats, Chroma.count.
    destruct (ingest_file_upsert_shape st p)
      as [E|[_ [[_ (e & m & t & E)]|[_ (e & m & t & E)]]]]; rewrite E; simpl;
      unfold written; rewrite ?map_size_insert; [lia|..].
    + destruct (VectorStore.image_collection st !! _); simpl; lia.
    + destruct (VectorStore.doc_collection st !! _); simpl; lia.
Qed.

Lemma written_sanitized id e (m : metadata_dict) d c :
  sanitized c -> sanitized (written id e (VectorStore.clean_meta m) d c).
Proof.
  intros Hs i r key v Hi Hk. unfold written in Hi.
  destruct (decide (i = id)) as [->|Hne].
  - rewrite lookup_insert_eq in Hi. injection Hi as <-. simpl in Hk.
    by apply clean_meta_present in Hk.
  - rewrite lookup_insert_ne in Hi by done. by apply (Hs i r key v).
Qed.

(** X27: ingestion never leaves a [None] or an empty string in the
    metadata of the store: when no record of the store has such a value,
    none has after any sequence of calls of [ingest_file]; the empty store
    is such a store. *)
Theorem ingested_metadata_has_no_empty_value `{Hashlib} `{OS} `{MetadataExtractor.Exifread}
    `{Models} `{DocLibs} (paths : list string) (st : VectorStore.t)
    (Himages : sanitized (VectorStore.image_collection st))
    (Hdocuments : sanitized (VectorStore.doc_collection st)) :
  let final := foldl (fun s p => Main.store_after (Main.ingest_file s p)) st paths in
  sanitized (VectorStore.image_collection final)
  /\ sanitized (VectorStore.doc_collection final)
  /\ sanitized (∅ : Chroma.collection).
Proof.
  cbv zeta. split; [|split].
  3: { intros i r key v Hi. by rewrite lookup_empty in Hi. }
  all: revert st Himages Hdocuments; induction paths as [|p paths IH];
    intros st Himages Hdocuments; simpl; try assumption;
    apply IH; rewrite ingest_file_store;
    destruct (ingest_file_upsert_shape st p)
      as [E|[_ [[_ (e & m & t & E)]|[_ (e & m & t & E)]]]];
    rewrite E; simpl; try assumption; by apply written_sanitized.
Qed.

Lemma ingested_metadata_has_no_empty_value_witness :
  let final :=
    foldl (fun s p =>
             Main.store_after
               (@Main.ingest_file Sample.hashlib Sample.os Sample.no_exif Sample.models
                  (Sample.doclibs "a plain text file with enough words") s p))
      Sample.empty_store ["notes.txt"; "cat.jpg"] in
  sanitized (VectorStore.image_collection final)
  /\ sanitized (VectorStore.doc_collection final).
Proof.
  cbv zeta.
  assert (Hempty : sanitized (∅ : Chroma.collection)).
  { intros i r key v Hi. by rewrite lookup_empty in Hi. }
  destruct (@ingested_metadata_has_no_empty_value Sample.hashlib Sample.os Sample.no_exif
              Sample.models (Sample.doclibs "a plain text file with enough words")
              ["notes.txt"; "cat.jpg"] Sample.empty_store Hempty Hempty) as (Hi & Hd & _).
  split; [exact Hi | exact Hd].
Defined.

(** X12: [ingest_file] on a file whose extension is neither an image nor
    a document extension returns without an upsert and leaves the store as
    it was; and when the file cannot be stat'ed (a path that is not
    indexed and does not exist), the exception reaches the caller, again
    with the store as it was. *)
Theorem ingest_skips_what_it_cannot_handle `{Hashlib} `{OS} `{MetadataExtractor.Exifread}
    `{Models} `{DocLibs} (st : VectorStore.t) (p : string) :
  let o := Main.ingest_file st p in
  (Py.lower (path_suffix (path_resolve p)) ∉ Config.ALL_EXTENSIONS ->
     Main.upserts o = [] /\ Main.store_after o = st)
  /\ (forall msg,
        VectorStore.is_file_indexed st (path_resolve p) = false ->
        path_stat (path_resolve p) = Raise msg ->
        Main.returned o = Raise msg /\ Main.upserts o = [] /\ Main.store_after o = st).
Proof.
  cbv zeta. split.
  - intros Hext. unfold Config.ALL_EXTENSIONS in Hext.
    apply not_elem_of_union in Hext as [Hi Hd].
    rewrite !ingest_file_outcome. unfold ingest_outcome.
    destruct (VectorStore.is_file_indexed st (path_resolve p)); [done|].
    destruct (MetadataExtractor.extract_file_metadata (path_resolve p)); [|done].
    by rewrite (bool_decide_eq_false_2 _ Hi), (bool_decide_eq_false_2 _ Hd).
  - intros msg Hnew Hstat. rewrite !ingest_file_outcome. unfold ingest_outcome. rewrite Hnew.
    unfold MetadataExtractor.extract_file_metadata. by rewrite Hstat.
Qed.

(** ** The [file_type] tag of a stored record *)

(** X13: the record that [ingest_file] stores carries the [file_type]
    that matches its collection: "image" for a record of the image
    collection and "document" for one of the document collection.  EXIF
    fields and tags never overwrite it, and the sanitising keeps it. *)
Theorem stored_file_type_matches_collection `{Hashlib} `{OS} `{MetadataExtractor.Exifread}
    `{Models} `{DocLibs} (st : VectorStore.t) (p : string) :
  let o := Main.ingest_file st p in
  let own := VectorStore._file_id (path_resolve p) in
  (forall fp e m t,
      Main.upserts o = [Main.UpsertImage fp e m t] ->
      exists r, VectorStore.image_collection (Main.store_after o) !! own = Some r
                /\ Chroma.rec_embedding r = e
                /\ Chroma.rec_metadata r !! "file_type" = Some (VStr "image"))
  /\ (forall fp e m t,
      Main.upserts o = [Main.UpsertDocument fp e m t] ->
      exists r, VectorStore.doc_collection (Main.store_after o) !! own = Some r
                /\ Chroma.rec_embedding r = e
                /\ Chroma.rec_metadata r !! "file_type" = Some (VStr "document")).
Proof.
  cbv zeta. rewrite !ingest_file_outcome. unfold ingest_outcome.
  destruct (VectorStore.is_file_indexed st (path_resolve p)); [by split|].
  destruct (MetadataExtractor.extract_file_metadata (path_resolve p)) as [md|] eqn:Emd;
    [|by split].
  pose proof (extract_file_metadata_file_type _ _ Emd) as Hft.
  destruct (bool_decide (_ ∈ Config.IMAGE_EXTENSIONS)) eqn:Ei.
  - cbv zeta. destruct (negb _); [by split|]. simpl. split; [|discriminate].
    intros fp e m t [= <- <- <- <-]. eexists. unfold written.
    split; [apply lookup_insert_eq|]. simpl. split; [reflexivity|].
    apply clean_meta_lookup. split; [|split; discriminate].
    by rewrite add_tags_file_type, update_with_exif_file_type.
  - destruct (bool_decide (_ ∈ Config.DOCUMENT_EXTENSIONS)); [|by split].
    cbv zeta. destruct (negb _); [by split|]. simpl. split; [discriminate|].
    intros fp e m t [= <- <- <- <-]. eexists. unfold written.
    split; [apply lookup_insert_eq|]. simpl. split; [reflexivity|].
    apply clean_meta_lookup. split; [exact Hft|split; discriminate].
Qed.

(** ** The text stored for a document *)

Lemma lstrip_chars_length l : (length (Py.lstrip_chars l) <= length l)%nat.
Proof.
  induction l as [|a l IH]; simpl; [lia|]. destruct (Py.is_space a); simpl; lia.
Qed.

Lemma strip_length s : (String.length (Py.strip s) <= String.length s)%nat.
Proof.
  unfold Py.strip. rewrite length_str, length_rev.
  etrans; [apply lstrip_chars_length|]. rewrite length_rev.
  etrans; [apply lstrip_chars_length|]. by rewrite length_chars.
Qed.

Lemma process_document_embedded `{OS} `{Models} `{DocLibs} fp :
  embedding (DocProcessor.process_document fp) <> [] ->
  exists text,
    DocProcessor.extract_text fp = Some text
    /\ 10 <= Py.len (Py.strip text)
    /\ text_content (DocProcessor.process_document fp)
       = Py.str_slice_to DocProcessor.MAX_TEXT_LENGTH text
    /\ sentence_encode (text_content (DocProcessor.process_document fp))
       = Ok (embedding (DocProcessor.process_document fp)).
Proof.
  unfold DocProcessor.process_document.
  destruct (DocProcessor.extract_text fp) as [text|]; [|done].
  destruct (DocProcessor.insufficient text) eqn:Ei; [done|]. cbv zeta.
  destruct (sentence_encode _) as [e|] eqn:Ee; [|done]. simpl. intros _.
  exists text. split; [reflexivity|]. split; [|by split].
  destruct (Z_lt_ge_dec (Py.len (Py.strip text)) 10) as [Hlt|Hge]; [|lia].
  apply insufficient_spec in Hlt. congruence.
Qed.

(** X14: a record that [ingest_file] puts in the document collection
    holds, as its document body, exactly the text that was embedded: the
    stored vector is what the sentence encoder gave for the stored text,
    and that text has between 10 and 3000 characters. *)
Theorem stored_document_text_is_embedded_text `{Hashlib} `{OS}
    `{MetadataExtractor.Exifread} `{Models} `{DocLibs} (st : VectorStore.t) (p : string)
    (fp : string) (e : list Py.float) (m : metadata_dict) (t : string)
    (Hup : Main.upserts (Main.ingest_file st p) = [Main.UpsertDocument fp e m t]) :
  exists r,
    VectorStore.doc_collection (Main.store_after (Main.ingest_file st p))
      !! VectorStore._file_id (path_resolve p) = Some r
    /\ Chroma.rec_document r = t
    /\ Chroma.rec_embedding r = e
    /\ sentence_encode (Chroma.rec_document r) = Ok (Chroma.rec_embedding r)
    /\ (10 <= String.length (Chroma.rec_document r) <= 3000)%nat.
Proof.
  revert Hup. rewrite !ingest_file_outcome. unfold ingest_outcome.
  destruct (VectorStore.is_file_indexed st (path_resolve p)); [discriminate|].
  destruct (MetadataExtractor.extract_file_metadata (path_resolve p)) as [md|];
    [|discriminate].
  destruct (bool_decide (_ ∈ Config.IMAGE_EXTENSIONS)).
  { cbv zeta. destruct (negb _); discriminate. }
  destruct (bool_decide (_ ∈ Config.DOCUMENT_EXTENSIONS)); [|discriminate].
  cbv zeta. destruct (negb _) eqn:En; [discriminate|].
  simpl. intros [= <- <- <- <-].
  assert (Hne : embedding (DocProcessor.process_document (path_resolve p)) <> []).
  { intros E. rewrite E in En. discriminate. }
  destruct (process_document_embedded _ Hne) as (text & _ & Hlen & Htc & Henc).
  assert (Hchunk : (10 <= String.length
             (text_content (DocProcessor.process_document (path_resolve p))) <= 3000)%nat).
  { rewrite Htc, str_slice_to_length by (unfold DocProcessor.MAX_TEXT_LENGTH; lia).
    pose proof (strip_length text). unfold Py.len in Hlen.
    unfold DocProcessor.MAX_TEXT_LENGTH. lia. }
  eexists. unfold written. split; [apply lookup_insert_eq|]. simpl.
  assert (Hbody : VectorStore.str_or
            (Py.str_slice_to 5000
               (text_content (DocProcessor.process_document (path_resolve p))))
            ("Document: " ++ VectorStore.file_name_of md)
          = text_content (DocProcessor.process_document (path_resolve p))).
  { rewrite str_slice_to_all by lia. unfold VectorStore.str_or.
    destruct (Py.str_truthy _) eqn:Et; [reflexivity|].
    apply str_truthy_false in Et. rewrite Et in Hchunk. simpl in Hchunk. lia. }
  rewrite Hbody. split; [reflexivity|]. split; [reflexivity|]. by split.
Qed.

Lemma stored_document_text_is_embedded_text_witness :
  exists r,
    VectorStore.doc_collection
      (Main.store_after
         (@Main.ingest_file Sample.hashlib Sample.os Sample.no_exif Sample.models
            (Sample.doclibs "a plain text file with enough words")
            Sample.empty_store "notes.txt"))
      !! "id:notes.txt" = Some r
    /\ Chroma.rec_document r = "a plain text file with enough words".
Proof.
  destruct (@stored_document_text_is_embedded_text Sample.hashlib Sample.os Sample.no_exif
              Sample.models (Sample.doclibs "a plain text file with enough words")
              Sample.empty_store "notes.txt" _ _ _ _
              ltac:(vm_compute; reflexivity)) as (r & Hr & Hd & _).
  exists r. split; [exact Hr | exact Hd].
Defined.

(* ===================================================================== *)
(** * The file watcher with [ingest_file] as its callback (file_watcher.py) *)
(* ===================================================================== *)

Section WatcherFacts.
Context `{Hashlib} `{OS} `{MetadataExtractor.Exifread} `{Models} `{DocLibs}
        `{FileWatcher.Walk}.

Let step (st : VectorStore.t) (p : string) : VectorStore.t :=
  if scanned p then Main.store_after (Main.ingest_file st p) else st.

Lemma scan_step_store acc p :
  fst (FileWatcher.scan_step ingest_callback acc p) = step (fst acc) p.
Proof.
  destruct acc as [st n]. unfold FileWatcher.scan_step, step, scanned, ingest_callback.
  simpl. destruct (_ && _); [|reflexivity].
  by destruct (Main.returned (Main.ingest_file st p)).
Qed.

Lemma foldl_scan_step_store l acc :
  fst (foldl (FileWatcher.scan_step ingest_callback) acc l) = foldl step (fst acc) l.
Proof.
  revert acc. induction l as [|p l IH]; intros acc; simpl; [reflexivity|].
  by rewrite IH, scan_step_store.
Qed.

Lemma scan_store_foldl l st : scan_store l st = foldl step st l.
Proof. unfold scan_store. by rewrite foldl_scan_step_store. Qed.

Lemma step_keeps_settled st p q :
  Main.upserts (Main.ingest_file st p) = [] ->
  Main.upserts (Main.ingest_file (step st q) p) = [].
Proof.
  intros Hp. unfold step. destruct (scanned q); [by apply settled_is_kept | exact Hp].
Qed.

Lemma scan_keeps_settled l st p :
  Main.upserts (Main.ingest_file st p) = [] ->
  Main.upserts (Main.ingest_file (foldl step st l) p) = [].
Proof.
  revert st. induction l as [|q l IH]; intros st Hp; simpl; [exact Hp|].
  by apply IH, step_keeps_settled.
Qed.

Lemma scan_settles l st p :
  In p l -> scanned p = true ->
  Main.upserts (Main.ingest_file (foldl step st l) p) = [].
Proof.
  revert st. induction l as [|q l IH]; intros st Hin Hp; [destruct Hin|].
  simpl. destruct Hin as [->|Hin]; [|by apply IH].
  apply scan_keeps_settled. unfold step. rewrite Hp. apply settled_after_ingest.
Qed.

Lemma scan_of_settled l st :
  (forall p, In p l -> scanned p = true -> Main.upserts (Main.ingest_file st p) = []) ->
  foldl step st l = st.
Proof.
  induction l as [|q l IH]; intros Hall; simpl; [reflexivity|].
  assert (Hq : step st q = st).
  { unfold step. destruct (scanned q) eqn:Eq; [|reflexivity].
    apply ingest_file_no_upsert, Hall; [by left | exact Eq]. }
  rewrite Hq. apply IH. intros p Hp. apply Hall. by right.
Qed.

Lemma step_keeps_records st q i :
  (is_Some (VectorStore.image_collection st !! i) ->
   is_Some (VectorStore.image_collection (step st q) !! i))
  /\ (is_Some (VectorStore.doc_collection st !! i) ->
      is_Some (VectorStore.doc_collection (step st q) !! i)).
Proof.
  unfold step. destruct (scanned q); [apply ingest_file_keeps | tauto].
Qed.

Lemma scan_keeps_records l st i :
  (is_Some (VectorStore.image_collection st !! i) ->
   is_Some (VectorStore.image_collection (foldl step st l) !! i))
  /\ (is_Some (VectorStore.doc_collection st !! i) ->
      is_Some (VectorStore.doc_collection (foldl step st l) !! i)).
Proof.
  revert st. induction l as [|q l IH]; intros st; simpl; [tauto|].
  destruct (IH (step st q)), (step_keeps_records st q i). tauto.
Qed.
End WatcherFacts.

(** X15: the startup scan is idempotent.  After [scan_existing_files]
    has run with [ingest_file] as its callback, every file of the listing
    that it handed to the callback is settled (ingesting it again makes no
    upsert), a second scan of the same folder leaves the store as the
    first one left it, and no record that was in the store before the scan
    is lost. *)
Theorem startup_scan_is_idempotent `{Hashlib} `{OS} `{MetadataExtractor.Exifread}
    `{Models} `{DocLibs} `{FileWatcher.Walk} (watch_folder : string) (st : VectorStore.t) :
  let scan := fun s => fst (FileWatcher.scan_existing_files ingest_callback watch_folder s) in
  scan (scan st) = scan st
  /\ (forall p, In p (FileWatcher.sorted_rglob watch_folder) -> scanned p = true ->
        Main.upserts (Main.ingest_file (scan st) p) = []
        /\ Main.store_after (Main.ingest_file (scan st) p) = scan st)
  /\ (forall i,
        (is_Some (VectorStore.image_collection st !! i) ->
         is_Some (VectorStore.image_collection (scan st) !! i))
        /\ (is_Some (VectorStore.doc_collection st !! i) ->
            is_Some (VectorStore.doc_collection (scan st) !! i))).
Proof.
  cbv zeta. unfold FileWatcher.scan_existing_files.
  fold (scan_store (FileWatcher.sorted_rglob watch_folder) st).
  fold (scan_store (FileWatcher.sorted_rglob watch_folder)
          (scan_store (FileWatcher.sorted_rglob watch_folder) st)).
  rewrite !scan_store_foldl.
  assert (Hset : forall p, In p (FileWatcher.sorted_rglob watch_folder) ->
            scanned p = true ->
            Main.upserts (Main.ingest_file
              (foldl (fun s q => if scanned q
                                 then Main.store_after (Main.ingest_file s q) else s)
                     st (FileWatcher.sorted_rglob watch_folder)) p) = []).
  { intros p Hin Hp. by apply scan_settles. }
  split; [|split].
  - by apply scan_of_settled.
  - intros p Hin Hp. split; [by apply Hset|]. by apply ingest_file_no_upsert, Hset.
  - intros i. apply scan_keeps_records.
Qed.

(** X16: the handler treats created and modified events alike, and such
    an event changes the store only when it is for a file, not a
    directory, with a supported extension, that is not indexed yet: an
    event for a directory, for another extension or for an indexed file
    leaves the store as it was, whatever the file contains by then; the
    handler itself never raises. *)
Theorem watcher_event_changes_store_only_for_new_files `{Hashlib} `{OS}
    `{MetadataExtractor.Exifread} `{Models} `{DocLibs}
    (ev : FileWatcher.event) (st : VectorStore.t) :
  let after := FileWatcher.on_modified ingest_callback ev st in
  let fp := FileWatcher.src_path ev in
  FileWatcher.on_created ingest_callback ev st = after
  /\ (FileWatcher.is_directory ev = true -> after = st)
  /\ (Py.lower (path_suffix fp) ∉ Config.ALL_EXTENSIONS -> after = st)
  /\ (VectorStore.is_file_indexed st (path_resolve fp) = true -> after = st)
  /\ (after <> st ->
      FileWatcher.is_directory ev = false
      /\ Py.lower (path_suffix fp) ∈ Config.ALL_EXTENSIONS
      /\ VectorStore.is_file_indexed st (path_resolve fp) = false
      /\ VectorStore.is_file_indexed after (path_resolve fp) = true).
Proof.
  cbv zeta. unfold FileWatcher.on_created, FileWatcher.on_modified, FileWatcher._handle,
    ingest_callback. simpl.
  split; [reflexivity|].
  destruct (FileWatcher.is_directory ev); simpl.
  { repeat split; try done. }
  destruct (bool_decide (_ ∈ Config.ALL_EXTENSIONS)) eqn:Eext.
  - apply bool_decide_eq_true_1 in Eext.
    split; [discriminate|]. split; [done|]. split.
    + intros Hi. by rewrite ingest_file_indexed.
    + intros Hne. split; [reflexivity|]. split; [exact Eext|].
      destruct (VectorStore.is_file_indexed st (path_resolve (FileWatcher.src_path ev)))
        eqn:Ei.
      { by rewrite ingest_file_indexed in Hne. }
      split; [reflexivity|]. apply ingest_file_indexes. intros Hu.
      apply Hne. by apply ingest_file_no_upsert.
  - repeat split; try done.
Qed.

(* ===================================================================== *)
(** * More about the query engine (query_engine.py) *)
(* ===================================================================== *)

Lemma chars_app s1 s2 : Py.chars (s1 ++ s2) = Py.chars s1 ++ Py.chars s2.
Proof. induction s1 as [|a s1 IH]; simpl; [reflexivity | by rewrite IH]. Qed.

Lemma is_prefix_app p l : Py.is_prefix p (p ++ l) = true.
Proof. induction p as [|a p IH]; simpl; [reflexivity | by rewrite Ascii.eqb_refl]. Qed.

Lemma after_first_skip sep pre rest :
  ~ In sep pre -> Py.after_first sep (pre ++ sep :: rest) = Some rest.
Proof.
  induction pre as [|a pre IH]; simpl; intros Hn.
  - by rewrite Ascii.eqb_refl.
  - destruct (Ascii.eqb a sep) eqn:E.
    + apply Ascii.eqb_eq in E. tauto.
    + apply IH. tauto.
Qed.

(** X17: a payload wrapped in a markdown code fence is unwrapped:
    whatever stands on the opening line after the three backquotes, the
    text between that line and the closing fence is what is left,
    stripped; a text that does not start with a fence is passed on as it
    is. *)
Theorem strip_fences_unwraps (lang body : string)
    (Hlang : ~ In Py.nl (Py.chars lang)) :
  QueryEngine.strip_fences ("```" ++ lang ++ String Py.nl body ++ "```")%string
  = Py.strip body
  /\ forall s, Py.startswith s "```" = false -> QueryEngine.strip_fences s = s.
Proof.
  split.
  - unfold QueryEngine.strip_fences.
    assert (Hstart : Py.startswith ("```" ++ lang ++ String Py.nl body ++ "```") "```" = true).
    { reflexivity. }
    rewrite Hstart.
    assert (Hsplit : Py.split1_last Py.nl ("```" ++ lang ++ String Py.nl body ++ "```")
                     = (body ++ "```")%string).
    { unfold Py.split1_last.
      rewrite chars_app, chars_app. simpl Py.chars at 3.
      fold (Py.chars (body ++ "```")).
      rewrite app_assoc, after_first_skip.
      - apply str_chars.
      - intros Hin. apply in_app_or in Hin as [Hin|Hin]; [|tauto].
        simpl in Hin. destruct Hin as [E|[E|[E|[]]]]; discriminate E. }
    rewrite Hsplit.
    assert (Hend : Py.endswith (body ++ "```") "```" = true).
    { unfold Py.endswith. rewrite chars_app, rev_app_distr. apply is_prefix_app. }
    rewrite Hend. f_equal.
    unfold Py.str_slice_to, Py.slice_to. simpl (0 <=? -3).  cbv iota.
    rewrite chars_app, length_app. simpl (length (Py.chars "```")).
    replace (length (Py.chars body) + 3 - Z.to_nat (- -3))%nat
      with (length (Py.chars body) + 0)%nat by lia.
    rewrite firstn_app_2. simpl. rewrite app_nil_r. apply str_chars.
  - intros s Hs. unfold QueryEngine.strip_fences. by rewrite Hs.
Qed.

Lemma strip_fences_unwraps_witness :
  QueryEngine.strip_fences
    ("```" ++ "json" ++ String Py.nl "{ }  " ++ "```")%string = "{ }".
Proof.
  destruct (strip_fences_unwraps "json" "{ }  ") as [E _].
  - simpl. intros [E|[E|[E|[E|[]]]]]; discriminate E.
  - rewrite E. reflexivity.
Defined.

Section QueryMore.
Context `{QueryEngine.Json} `{Models} `{Chroma.Space}.

Lemma parse_step_refined self q :
  snd (QueryEngine.parse_step self q) = JStr q
  \/ QueryEngine.truthy (snd (QueryEngine.parse_step self q)) = true.
Proof.
  unfold QueryEngine.parse_step. destruct (QueryEngine.gemini_model self); [|by left].
  destruct (QueryEngine._parse_intent _ q) as [intent rq]. simpl.
  destruct (QueryEngine.truthy rq) eqn:E; [by right | by left].
Qed.

Lemma image_try_stored self rq k hits h :
  QueryEngine.image_try self rq k = Ok hits -> In h hits ->
  is_Some (VectorStore.image_collection (QueryEngine.store self) !! VectorStore.id h).
Proof.
  unfold QueryEngine.image_try. destruct (get_text_clip_embedding rq) as [e|]; [|done].
  intros Hs Hin.
  destruct (search_collection_hits _ e k hits h Hs Hin) as (r & Hr & _). by exists r.
Qed.

Lemma document_try_stored self rq k hits h :
  QueryEngine.document_try self rq k = Ok hits -> In h hits ->
  is_Some (VectorStore.doc_collection (QueryEngine.store self) !! VectorStore.id h).
Proof.
  unfold QueryEngine.document_try. destruct (get_sentence_embedding rq) as [e|]; [|done].
  intros Hs Hin.
  destruct (search_collection_hits _ e k hits h Hs Hin) as (r & Hr & _). by exists r.
Qed.

(** Where an entry of the merged results comes from. *)
Lemma collect_origin self rq k stype h :
  In h (QueryEngine.collect self rq k stype) ->
  ((stype = "all" \/ stype = "images")
   /\ is_Some (VectorStore.image_collection (QueryEngine.store self) !! VectorStore.id h))
  \/ ((stype = "all" \/ stype = "documents")
      /\ is_Some (VectorStore.doc_collection (QueryEngine.store self) !! VectorStore.id h)).
Proof.
  unfold QueryEngine.collect. intros Hin. apply slice_to_in in Hin.
  eapply Permutation_in in Hin; [|apply sort_desc_perm].
  destruct (String.eqb stype "all") eqn:Ea; [apply String.eqb_eq in Ea|];
    destruct (String.eqb stype "images") eqn:Ei; try apply String.eqb_eq in Ei;
    destruct (String.eqb stype "documents") eqn:Ed; try apply String.eqb_eq in Ed;
    simpl in Hin; try (subst; discriminate); try (destruct Hin; fail);
    unfold QueryEngine.extend_or_log in Hin;
    destruct (QueryEngine.image_try self rq k) as [imgs|] eqn:Eimg;
    destruct (QueryEngine.document_try self rq k) as [docs|] eqn:Edoc;
    simpl in Hin; try (destruct Hin; fail);
    try (apply in_app_or in Hin as [Hin|Hin]);
    try (left; split; [tauto | by eapply image_try_stored]);
    try (right; split; [tauto | by eapply document_try_stored]).
Qed.
End QueryMore.

Lemma parse_step_parsed `{QueryEngine.Json} (self : QueryEngine.t) (q : string)
    (g : string -> result string) (text : string) (items : QueryEngine.dict) :
  QueryEngine.gemini_model self = Some g ->
  g (QueryEngine.prompt q) = Ok text ->
  QueryEngine.json_loads (QueryEngine.strip_fences (Py.strip text)) = Ok (JObj items) ->
  QueryEngine.parse_step self q =
    (items,
     if QueryEngine.truthy (QueryEngine.dict_get_default items "refined_query" (JStr q))
     then QueryEngine.dict_get_default items "refined_query" (JStr q)
     else JStr q).
Proof.
  intros Hg Htext Hjson. unfold QueryEngine.parse_step. rewrite Hg.
  unfold QueryEngine._parse_intent, QueryEngine._parse_intent_try.
  by rewrite Htext, Hjson.
Qed.

(** X18: the value that [search] embeds and reports as [refined_query]
    is the original query text or a truthy value the parser gave; a
    parser answer that is a JSON object without the key [refined_query],
    or with a null or empty one, leaves the original query in place while
    its other fields are kept as the intent. *)
Theorem refined_query_is_never_empty `{QueryEngine.Json} `{Models} `{Chroma.Space}
    (self : QueryEngine.t) (q : string) (k : Z) (scope : string) :
  let r := QueryEngine.search self q k scope in
  (QueryEngine.refined_query r = JStr q \/ QueryEngine.truthy (QueryEngine.refined_query r) = true)
  /\ QueryEngine.query r = q
  /\ forall g text items,
       QueryEngine.gemini_model self = Some g ->
       g (QueryEngine.prompt q) = Ok text ->
       QueryEngine.json_loads (QueryEngine.strip_fences (Py.strip text)) = Ok (JObj items) ->
       QueryEngine.intent r = items
       /\ (QueryEngine.truthy
             (QueryEngine.dict_get_default items "refined_query" (JStr q)) = false ->
           QueryEngine.refined_query r = JStr q)
       /\ (QueryEngine.dict_get items "refined_query" = None ->
           QueryEngine.refined_query r = JStr q).
Proof.
  cbv zeta. unfold QueryEngine.search.
  pose proof (parse_step_refined self q) as Href.
  destruct (QueryEngine.parse_step self q) as [intent rq] eqn:Eps. simpl in *.
  split; [exact Href|]. split; [reflexivity|].
  intros g text items Hg Htext Hjson.
  unfold QueryEngine.parse_step in Eps. rewrite Hg in Eps.
  unfold QueryEngine._parse_intent, QueryEngine._parse_intent_try in Eps.
  rewrite Htext, Hjson in Eps. injection Eps as <- <-.
  split; [reflexivity|]. split.
  - intros Hf. by rewrite Hf.
  - intros Hnone. unfold QueryEngine.dict_get_default. rewrite Hnone.
    by destruct (QueryEngine.truthy (JStr q)).
Qed.

(** X19: every entry that [search] returns is a record of the store: of
    the image collection when the search type in force is "images", of the
    document collection when it is "documents", of one of the two when it
    is "all"; with any other search type the results are empty. *)
Theorem search_results_come_from_the_store `{QueryEngine.Json} `{Models} `{Chroma.Space}
    (self : QueryEngine.t) (q : string) (k : Z) (scope : string) :
  let r := QueryEngine.search self q k scope in
  let stype := QueryEngine.effective_search_type (QueryEngine.intent r) scope in
  let images := VectorStore.image_collection (QueryEngine.store self) in
  let documents := VectorStore.doc_collection (QueryEngine.store self) in
  (forall h, In h (QueryEngine.results r) ->
     is_Some (images !! VectorStore.id h) \/ is_Some (documents !! VectorStore.id h))
  /\ (stype = "images" ->
      forall h, In h (QueryEngine.results r) -> is_Some (images !! VectorStore.id h))
  /\ (stype = "documents" ->
      forall h, In h (QueryEngine.results r) -> is_Some (documents !! VectorStore.id h))
  /\ (stype <> "all" -> stype <> "images" -> stype <> "documents" ->
      QueryEngine.results r = [] /\ QueryEngine.total_results r = 0).
Proof.
  cbv zeta. unfold QueryEngine.search.
  destruct (QueryEngine.parse_step self q) as [intent rq]. simpl.
  split; [|split; [|split]].
  - intros h Hin. apply collect_origin in Hin. tauto.
  - intros Hs h Hin. apply collect_origin in Hin. rewrite Hs in Hin.
    destruct Hin as [[_ Hi]|[[E|E] _]]; [exact Hi | discriminate E | discriminate E].
  - intros Hs h Hin. apply collect_origin in Hin. rewrite Hs in Hin.
    destruct Hin as [[[E|E] _]|[_ Hd]]; [discriminate E | discriminate E | exact Hd].
  - intros Ha Hi Hd.
    assert (Hnil : QueryEngine.collect self rq k
                     (QueryEngine.effective_search_type intent scope) = []).
    { destruct (QueryEngine.collect self rq k _) as [|h l] eqn:E; [reflexivity|].
      assert (Hin : In h (QueryEngine.collect self rq k
                            (QueryEngine.effective_search_type intent scope))).
      { rewrite E. by left. }
      apply collect_origin in Hin. tauto. }
    rewrite Hnil. by split.
Qed.

(** The [file_type] of the intent decides the search type; any other
    value, or none, leaves the caller's search type. *)
Lemma effective_search_type_cases (intent : QueryEngine.dict) (scope : string) :
  (QueryEngine.dict_get intent "file_type" = Some (JStr "image") ->
     QueryEngine.effective_search_type intent scope = "images")
  /\ (QueryEngine.dict_get intent "file_type" = Some (JStr "document") ->
      QueryEngine.effective_search_type intent scope = "documents")
  /\ (QueryEngine.dict_get intent "file_type" <> Some (JStr "image") ->
      QueryEngine.dict_get intent "file_type" <> Some (JStr "document") ->
      QueryEngine.effective_search_type intent scope = scope).
Proof.
  unfold QueryEngine.effective_search_type.
  split; [|split].
  - intros ->. reflexivity.
  - intros ->. reflexivity.
  - intros Hi Hd.
    destruct (QueryEngine.dict_get intent "file_type") as [[| | |s| |]|]; simpl; try reflexivity.
    destruct (String.eqb s "image") eqn:Ei.
    { apply String.eqb_eq in Ei. subst s. congruence. }
    destruct (String.eqb s "document") eqn:Ed; [|reflexivity].
    apply String.eqb_eq in Ed. subst s. congruence.
Qed.

(** X20: when the parser answers with a JSON object whose [file_type] is
    "image", [search] looks at the image collection only, whatever search
    type the caller passed: every entry returned is an image record; with
    "document" every entry is a document record. *)
Theorem intent_file_type_overrides_scope `{QueryEngine.Json} `{Models} `{Chroma.Space}
    (self : QueryEngine.t) (q : string) (k : Z) (scope : string)
    (g : string -> result string) (text : string) (items : QueryEngine.dict)
    (Hmodel : QueryEngine.gemini_model self = Some g)
    (Htext : g (QueryEngine.prompt q) = Ok text)
    (Hjson : QueryEngine.json_loads (QueryEngine.strip_fences (Py.strip text))
             = Ok (JObj items)) :
  let r := QueryEngine.search self q k scope in
  (QueryEngine.dict_get items "file_type" = Some (JStr "image") ->
     forall h, In h (QueryEngine.results r) ->
       is_Some (VectorStore.image_collection (QueryEngine.store self) !! VectorStore.id h))
  /\ (QueryEngine.dict_get items "file_type" = Some (JStr "document") ->
      forall h, In h (QueryEngine.results r) ->
        is_Some (VectorStore.doc_collection (QueryEngine.store self) !! VectorStore.id h)).
Proof.
  cbv zeta. unfold QueryEngine.search.
  rewrite (parse_step_parsed self q g text items Hmodel Htext Hjson).
  destruct (effective_search_type_cases items scope) as (Ei & Ed & _).
  simpl. split; intros Hft h Hin; apply collect_origin in Hin.
  - rewrite (Ei Hft) in Hin.
    destruct Hin as [[_ Hi]|[[E|E] _]]; [exact Hi | discriminate E | discriminate E].
  - rewrite (Ed Hft) in Hin.
    destruct Hin as [[[E|E] _]|[_ Hd]]; [discriminate E | discriminate E | exact Hd].
Qed.

Lemma intent_file_type_overrides_scope_witness :
  List.Forall
    (fun h => is_Some (VectorStore.image_collection Sample.one_document !! VectorStore.id h))
    (QueryEngine.results
       (@QueryEngine.search Sample.json_of_image_intent Sample.models Sample.unit_space
          {| QueryEngine.store := Sample.one_document;
             QueryEngine.gemini_model := Some Sample.answering_gemini |}
          "cats" 5 "documents")).
Proof.
  pose proof (@intent_file_type_overrides_scope Sample.json_of_image_intent Sample.models
                Sample.unit_space
                {| QueryEngine.store := Sample.one_document;
                   QueryEngine.gemini_model := Some Sample.answering_gemini |}
                "cats" 5 "documents" Sample.answering_gemini Sample.image_intent_text
                Sample.image_intent
                ltac:(reflexivity) ltac:(reflexivity) ltac:(vm_compute; reflexivity))
    as [Himg _].
  apply List.Forall_forall. apply Himg. reflexivity.
Defined.

(* ===================================================================== *)
(** * More about the extractors (metadata_extractor.py, doc_processor.py) *)
(* ===================================================================== *)

Lemma ratio_to_float_zero (r : MetadataExtractor.Ratio) :
  MetadataExtractor.den r = 0 -> exists msg, MetadataExtractor.ratio_to_float r = Raise msg.
Proof.
  intros Hd. unfold MetadataExtractor.ratio_to_float.
  destruct (Py.double_of_int (MetadataExtractor.num r)); [|by eexists].
  rewrite Hd. simpl. by eexists.
Qed.

(** X21: the GPS conversion gives no coordinate, instead of raising,
    when the tag has fewer than three values or when one of the first
    three has a zero denominator; values after the third are ignored. *)
Theorem gps_conversion_fails_cleanly (tag : MetadataExtractor.IfdTag)
    (gps_ref : option MetadataExtractor.IfdTag) :
  ((length (MetadataExtractor.values tag) < 3)%nat ->
     MetadataExtractor._convert_gps_to_decimal tag gps_ref = None)
  /\ (forall v0 v1 v2 rest,
        MetadataExtractor.values tag = v0 :: v1 :: v2 :: rest ->
        MetadataExtractor.den v0 = 0 \/ MetadataExtractor.den v1 = 0
        \/ MetadataExtractor.den v2 = 0 ->
        MetadataExtractor._convert_gps_to_decimal tag gps_ref = None)
  /\ (forall v0 v1 v2 rest,
        MetadataExtractor.values tag = v0 :: v1 :: v2 :: rest ->
        MetadataExtractor._convert_gps_to_decimal tag gps_ref
        = MetadataExtractor._convert_gps_to_decimal
            {| MetadataExtractor.printable := MetadataExtractor.printable tag;
               MetadataExtractor.values := [v0; v1; v2] |} gps_ref).
Proof.
  unfold MetadataExtractor._convert_gps_to_decimal. split; [|split].
  - intros Hlen. destruct (MetadataExtractor.values tag) as [|v0 [|v1 [|v2 rest]]];
      simpl in Hlen; try reflexivity; lia.
  - intros v0 v1 v2 rest -> Hz.
    destruct (MetadataExtractor.ratio_to_float v0) eqn:E0; [|reflexivity].
    destruct (MetadataExtractor.ratio_to_float v1) eqn:E1; [|reflexivity].
    destruct (MetadataExtractor.ratio_to_float v2) eqn:E2; [|reflexivity].
    destruct Hz as [Hz|[Hz|Hz]]; apply ratio_to_float_zero in Hz as [msg Hz]; congruence.
  - intros v0 v1 v2 rest ->. reflexivity.
Qed.

(** X22: the EXIF fields are the five the extractor knows, the two GPS
    fields are set together or not at all, and an image whose tags cannot
    be read gives the empty dict. *)
Theorem exif_gps_fields_come_in_pairs `{OS} `{MetadataExtractor.Exifread} (fp : string) :
  let exif := MetadataExtractor.extract_exif_metadata fp in
  (is_Some (exif !! "gps_latitude") <-> is_Some (exif !! "gps_longitude"))
  /\ (forall k v, exif !! k = Some v ->
        k ∈ ["camera_make"; "camera_model"; "capture_date"; "gps_latitude"; "gps_longitude"])
  /\ (forall msg, MetadataExtractor.process_file fp = Raise msg -> exif = ∅).
Proof.
  cbv zeta. split; [|split].
  - unfold MetadataExtractor.extract_exif_metadata.
    destruct (MetadataExtractor.process_file fp) as [tags|];
      [|rewrite !lookup_empty; split; intros [? ?]; discriminate].
    cbv zeta.
    set (exif3 := match tags !! "EXIF DateTimeOriginal" with
                  | Some t => _ | None => _ end).
    assert (Hlat : exif3 !! "gps_latitude" = None).
    { subst exif3. destruct (tags !! "EXIF DateTimeOriginal").
      - rewrite lookup_insert_ne by discriminate.
        rewrite !copy_tag_other by discriminate. apply lookup_empty.
      - rewrite !copy_tag_other by discriminate. apply lookup_empty. }
    assert (Hlon : exif3 !! "gps_longitude" = None).
    { subst exif3. destruct (tags !! "EXIF DateTimeOriginal").
      - rewrite lookup_insert_ne by discriminate.
        rewrite !copy_tag_other by discriminate. apply lookup_empty.
      - rewrite !copy_tag_other by discriminate. apply lookup_empty. }
    assert (Hnone : is_Some (exif3 !! "gps_latitude") <-> is_Some (exif3 !! "gps_longitude")).
    { rewrite Hlat, Hlon. tauto. }
    destruct (tags !! "GPS GPSLatitude"), (tags !! "GPS GPSLongitude"); try exact Hnone.
    repeat match goal with
           | |- context [MetadataExtractor._convert_gps_to_decimal ?a ?b] =>
               destruct (MetadataExtractor._convert_gps_to_decimal a b)
           end; try exact Hnone.
    rewrite lookup_insert_ne by discriminate. rewrite !lookup_insert_eq.
    split; intros _; by eexists.
  - intros k v. apply extract_exif_metadata_keys.
  - intros msg Hm. unfold MetadataExtractor.extract_exif_metadata. by rewrite Hm.
Qed.

Lemma join_nil sep : Py.join sep [] = EmptyString.
Proof. reflexivity. Qed.

Lemma filter_blank_pages pages :
  Forall (fun t => Py.strip t = EmptyString) pages ->
  List.filter (fun t => Py.str_truthy (Py.strip t)) pages = [].
Proof.
  induction 1 as [|t pages Ht _ IH]; simpl; [reflexivity|]. by rewrite Ht.
Qed.

(** X23: the text kept by [process_document] never has more than 3000
    characters; a file whose extension is not .pdf, .docx, .txt or .md
    gives the empty result; and when the sentence encoder raises, the
    result keeps the truncated text but has no embedding. *)
Theorem process_document_bounds `{OS} `{Models} `{DocLibs} (fp : string) :
  let r := DocProcessor.process_document fp in
  (String.length (text_content r) <= 3000)%nat
  /\ (Py.lower (path_suffix fp) ∉ Config.DOCUMENT_EXTENSIONS ->
      r = {| embedding := []; text_content := EmptyString |})
  /\ (forall text msg,
        DocProcessor.extract_text fp = Some text ->
        10 <= Py.len (Py.strip text) ->
        sentence_encode (Py.str_slice_to DocProcessor.MAX_TEXT_LENGTH text) = Raise msg ->
        r = {| embedding := [];
               text_content := Py.str_slice_to DocProcessor.MAX_TEXT_LENGTH text |}).
Proof.
  cbv zeta. split; [|split].
  - unfold DocProcessor.process_document.
    destruct (DocProcessor.extract_text fp) as [text|]; [|simpl; lia].
    destruct (DocProcessor.insufficient text); [simpl; lia|]. cbv zeta.
    assert (String.length (Py.str_slice_to DocProcessor.MAX_TEXT_LENGTH text) <= 3000)%nat.
    { rewrite str_slice_to_length by (unfold DocProcessor.MAX_TEXT_LENGTH; lia).
      unfold DocProcessor.MAX_TEXT_LENGTH. lia. }
    by destruct (sentence_encode _).
  - intros Hext. unfold DocProcessor.process_document, DocProcessor.extract_text.
    unfold Config.DOCUMENT_EXTENSIONS in Hext.
    rewrite !not_elem_of_union, !not_elem_of_singleton in Hext.
    destruct Hext as [[[Hpdf Htxt] Hdocx] Hmd].
    apply String.eqb_neq in Hpdf, Htxt, Hdocx, Hmd.
    by rewrite Hpdf, Htxt, Hdocx, Hmd.
  - intros text msg Ht Hlen Henc. rewrite (process_document_long _ text Ht Hlen).
    cbv zeta. by rewrite Henc.
Qed.

(** X24: for a PDF none of whose pages has text, the text is what OCR
    reads on the first page; when that OCR raises, or the PDF has no page,
    the extracted text is empty, [process_document] returns the empty
    result and [ingest_file] writes nothing. *)
Theorem scanned_pdf_falls_back_to_ocr `{Hashlib} `{OS} `{MetadataExtractor.Exifread}
    `{Models} `{DocLibs} (st : VectorStore.t) (p : string)
    (Hpdf : Py.lower (path_suffix (path_resolve p)) = ".pdf")
    (Hblank : Forall (fun t => Py.strip t = EmptyString)
                (fitz_page_texts (path_resolve p))) :
  let fp := path_resolve p in
  (forall results,
      fitz_first_page_ocr fp = Ok (Some results) ->
      DocProcessor.extract_text fp = Some (Py.strip (Py.join " " results)))
  /\ (fitz_first_page_ocr fp = Ok None \/ (exists msg, fitz_first_page_ocr fp = Raise msg) ->
      DocProcessor.extract_text fp = Some EmptyString
      /\ DocProcessor.process_document fp = {| embedding := []; text_content := EmptyString |}
      /\ Main.upserts (Main.ingest_file st p) = []
      /\ Main.store_after (Main.ingest_file st p) = st).
Proof.
  cbv zeta.
  assert (Hext : DocProcessor.extract_text (path_resolve p)
                 = Some (DocProcessor._ocr_pdf_first_page (path_resolve p))).
  { unfold DocProcessor.extract_text, DocProcessor._extract_pdf_text.
    rewrite Hpdf. simpl. by rewrite (filter_blank_pages _ Hblank). }
  split.
  - intros results Hocr. rewrite Hext. unfold DocProcessor._ocr_pdf_first_page.
    by rewrite Hocr.
  - intros Hocr.
    assert (Hempty : DocProcessor._ocr_pdf_first_page (path_resolve p) = EmptyString).
    { unfold DocProcessor._ocr_pdf_first_page.
      destruct Hocr as [->|[msg ->]]; reflexivity. }
    rewrite Hempty in Hext. split; [exact Hext|].
    assert (Hproc : DocProcessor.process_document (path_resolve p)
                    = {| embedding := []; text_content := EmptyString |}).
    { apply (process_document_short _ EmptyString Hext). vm_compute. reflexivity. }
    split; [exact Hproc|].
    apply ingest_file_no_embedding_document.
    + rewrite Hpdf. unfold Config.DOCUMENT_EXTENSIONS. set_solver.
    + by rewrite Hproc.
Qed.

Lemma scanned_pdf_falls_back_to_ocr_witness :
  Main.upserts
    (@Main.ingest_file Sample.hashlib Sample.os Sample.no_exif Sample.models
       (Sample.doclibs "   ") Sample.empty_store "scan.PDF") = [].
Proof.
  destruct (@scanned_pdf_falls_back_to_ocr Sample.hashlib Sample.os Sample.no_exif
              Sample.models (Sample.doclibs "   ") Sample.empty_store "scan.PDF"
              ltac:(reflexivity)
              ltac:(simpl; constructor; [reflexivity | constructor])) as [_ Hnone].
  destruct Hnone as (_ & _ & Hu & _); [left; reflexivity|]. exact Hu.
Defined.

(** ** The sign of a coordinate *)

(** X25: the hemisphere reference only changes the sign: with a
    reference that prints as S or W the coordinate is the opposite of the
    one the same values give with any other reference, or with none. *)
Theorem hemisphere_only_flips_the_sign (tag : MetadataExtractor.IfdTag)
    (ref_sw ref_ne : option MetadataExtractor.IfdTag)
    (Hsw : south_or_west ref_sw = true) (Hne : south_or_west ref_ne = false) :
  MetadataExtractor._convert_gps_to_decimal tag ref_sw
  = option_map Py.double_neg (MetadataExtractor._convert_gps_to_decimal tag ref_ne).
Proof.
  unfold MetadataExtractor._convert_gps_to_decimal.
  destruct (MetadataExtractor.values tag) as [|v0 [|v1 [|v2 rest]]]; try reflexivity.
  destruct (MetadataExtractor.ratio_to_float v0) as [d|]; [|reflexivity].
  destruct (MetadataExtractor.ratio_to_float v1) as [m|]; [|reflexivity].
  destruct (MetadataExtractor.ratio_to_float v2) as [s|]; [|reflexivity].
  destruct (Py.double_div m Py.sixty) as [m60|]; [|reflexivity].
  destruct (Py.double_div s Py.thirty_six_hundred) as [s3600|]; [|reflexivity].
  cbv zeta. simpl option_map. f_equal.
  set (decimal := Py.double_add (Py.double_add d m60) s3600).
  assert (Esw : (match ref_sw with
                 | Some ref =>
                     if bool_decide (MetadataExtractor.printable ref = "S"
                                     ∨ MetadataExtractor.printable ref = "W")
                     then Py.double_neg decimal else decimal
                 | None => decimal
                 end) = Py.double_neg decimal).
  { unfold south_or_west in Hsw. destruct ref_sw; [by rewrite Hsw | discriminate]. }
  assert (Ene : (match ref_ne with
                 | Some ref =>
                     if bool_decide (MetadataExtractor.printable ref = "S"
                                     ∨ MetadataExtractor.printable ref = "W")
                     then Py.double_neg decimal else decimal
                 | None => decimal
                 end) = decimal).
  { unfold south_or_west in Hne. destruct ref_ne; [by rewrite Hne | reflexivity]. }
  rewrite Esw, Ene. apply double_round_opp.
Qed.

Lemma hemisphere_only_flips_the_sign_witness :
  MetadataExtractor._convert_gps_to_decimal (Sample.dms 33 51 54) (Sample.hemisphere "S")
  = option_map Py.double_neg
      (MetadataExtractor._convert_gps_to_decimal (Sample.dms 33 51 54)
         (Sample.hemisphere "N")).
Proof.
  apply (hemisphere_only_flips_the_sign (Sample.dms 33 51 54)
           (Sample.hemisphere "S") (Sample.hemisphere "N")); reflexivity.
Defined.

(** ** The tag fields of a stored image *)

Section TagFields.
Context `{Hashlib} `{OS} `{MetadataExtractor.Exifread} `{Models} `{DocLibs}.

Lemma extract_file_metadata_no_tags fp md k :
  MetadataExtractor.extract_file_metadata fp = Ok md ->
  k ∈ ["auto_tags"; "top_tag"; "top_tag_score"] -> md !! k = None.
Proof.
  unfold MetadataExtractor.extract_file_metadata.
  destruct (path_stat fp); [|discriminate]. intros [= <-] Hk.
  rewrite !elem_of_cons in Hk.
  destruct Hk as [->|[->|[->|Hk]]]; [..|by apply elem_of_nil in Hk];
    rewrite !lookup_insert_ne by discriminate; apply lookup_empty.
Qed.

Lemma update_with_exif_no_tags md fp k :
  k ∈ ["auto_tags"; "top_tag"; "top_tag_score"] ->
  Main.update_with_exif md (MetadataExtractor.extract_exif_metadata fp) !! k = md !! k.
Proof.
  intros Hk. unfold Main.update_with_exif. apply lookup_union_r. rewrite lookup_fmap.
  destruct (MetadataExtractor.extract_exif_metadata fp !! k) eqn:E; [|done].
  apply extract_exif_metadata_keys in E.
  rewrite !elem_of_cons in Hk. rewrite !elem_of_cons in E.
  destruct Hk as [->|[->|[->|Hk]]]; [..|by apply elem_of_nil in Hk];
    destruct E as [E|[E|[E|[E|[E|E]]]]]; try discriminate E; by apply elem_of_nil in E.
Qed.
End TagFields.

(** X26: auto-tagging is an enrichment: when the tagger raises or finds
    no tag, the image is stored all the same, without any of the three tag
    fields; when it finds tags, the stored metadata carries the score of
    the first pair as [top_tag_score] and, unless its name is empty, the
    first tag as [top_tag]. *)
Theorem image_tags_in_stored_metadata `{Hashlib} `{OS} `{MetadataExtractor.Exifread}
    `{Models} `{DocLibs} (st : VectorStore.t) (p : string)
    (fp : string) (e : list Py.float) (m : metadata_dict) (t : string)
    (Hup : Main.upserts (Main.ingest_file st p) = [Main.UpsertImage fp e m t]) :
  exists r,
    VectorStore.image_collection (Main.store_after (Main.ingest_file st p))
      !! VectorStore._file_id (path_resolve p) = Some r
    /\ (clip_zero_shot (path_resolve p) = Ok []
        \/ (exists msg, clip_zero_shot (path_resolve p) = Raise msg) ->
        Chroma.rec_metadata r !! "auto_tags" = None
        /\ Chroma.rec_metadata r !! "top_tag" = None
        /\ Chroma.rec_metadata r !! "top_tag_score" = None)
    /\ (forall tag s rest,
          clip_zero_shot (path_resolve p) = Ok ((tag, s) :: rest) ->
          Chroma.rec_metadata r !! "top_tag_score" = Some (VFloat s)
          /\ (tag <> EmptyString -> Chroma.rec_metadata r !! "top_tag" = Some (VStr tag))).
Proof.
  revert Hup. rewrite !ingest_file_outcome. unfold ingest_outcome.
  destruct (VectorStore.is_file_indexed st (path_resolve p)); [discriminate|].
  destruct (MetadataExtractor.extract_file_metadata (path_resolve p)) as [md|] eqn:Emd;
    [|discriminate].
  destruct (bool_decide (_ ∈ Config.IMAGE_EXTENSIONS)).
  2:{ destruct (bool_decide _); [|discriminate]. cbv zeta. destruct (negb _); discriminate. }
  cbv zeta. destruct (negb _); [discriminate|]. simpl. intros [= <- <- <- <-].
  eexists. unfold written. split; [apply lookup_insert_eq|]. simpl.
  set (md' := Main.update_with_exif md
                (MetadataExtractor.extract_exif_metadata (path_resolve p))).
  assert (Hnone : forall k, k ∈ ["auto_tags"; "top_tag"; "top_tag_score"] -> md' !! k = None).
  { intros k Hk. subst md'. rewrite update_with_exif_no_tags by exact Hk.
    by eapply extract_file_metadata_no_tags. }
  unfold AutoTagger.auto_tag_image. split.
  - intros Hfail.
    assert (Htags : match clip_zero_shot (path_resolve p) with
                    | Ok result => result | Raise _ => [] end = []).
    { destruct Hfail as [->|[msg ->]]; reflexivity. }
    rewrite Htags. simpl.
    assert (Hclean : forall k, k ∈ ["auto_tags"; "top_tag"; "top_tag_score"] ->
              VectorStore.clean_meta md' !! k = None).
    { intros k Hk. destruct (VectorStore.clean_meta md' !! k) eqn:E; [|done].
      apply clean_meta_lookup in E as [E _]. rewrite Hnone in E by exact Hk. discriminate. }
    repeat split; apply Hclean; rewrite !elem_of_cons; auto.
  - intros tag s rest Htags. rewrite Htags. simpl. split.
    + apply clean_meta_lookup. split; [apply lookup_insert_eq | split; discriminate].
    + intros Htag. apply clean_meta_lookup. split.
      * rewrite lookup_insert_ne by discriminate. apply lookup_insert_eq.
      * split; [discriminate|]. intros [= E]. by apply Htag.
Qed.

Lemma image_tags_in_stored_metadata_witness :
  exists r,
    VectorStore.image_collection
      (Main.store_after
         (@Main.ingest_file Sample.hashlib Sample.os Sample.no_exif Sample.models
            (Sample.doclibs "unused") Sample.empty_store "cat.jpg"))
      !! "id:cat.jpg" = Some r
    /\ Chroma.rec_metadata r !! "top_tag" = Some (VStr "cat").
Proof.
  destruct (@image_tags_in_stored_metadata Sample.hashlib Sample.os Sample.no_exif
              Sample.models (Sample.doclibs "unused") Sample.empty_store "cat.jpg"
              _ _ _ _ ltac:(vm_compute; reflexivity)) as (r & Hr & _ & Htags).
  exists r. split; [exact Hr|].
  destruct (Htags "cat" (9 # 10)%Q [("pet", (1 # 20)%Q)] ltac:(reflexivity)) as [_ Htop].
  apply Htop. discriminate.
Defined.
